(** * Sign portal: a shallow embedding of [server.py] and its properties

    The development follows the source file top to bottom: the Python
    string primitives the handlers call, the URL helpers of
    [urllib.parse], the password hasher (SHA-256, HMAC and PBKDF2 are
    written out), the [users] table, the template renderer and the
    request handlers of [SignPortalRequestHandler].

    Text. A Python [str] is modelled by the Rocq [string] of its UTF-8
    encoding, one character of the Rocq string per byte, so that
    [str.encode("utf-8")] and a successful [bytes.decode("utf-8")] are
    the identity and a [bytes] value is a Rocq string too.  A code
    point below 128 is one byte; the functions that look at code
    points ([str.strip], [unquote], [json.dumps]) read the encoding
    ([Utf8]).  A Rocq string that is not well-formed UTF-8 stands for
    bytes only, not for a [str]; [Utf8.valid] tells the two apart.
    [str.lower] is modelled on the ASCII letters only ([PyStr.lower]);
    the statements that depend on the value of a lowercased text take
    that text to be ASCII.

    Effects. A handler is a function from a [World] (the table, the
    files, the log file, the entropy source and the clock) to an
    outcome and a new world; an uncaught Python exception is the
    outcome [Raise]. *)

From Stdlib Require Import ZArith NArith List Bool Arith Ascii String Lia.
From Stdlib Require Import Permutation Sorted.
Import ListNotations.

Set Warnings "-register-all,-abstract-large-number".

Local Open Scope list_scope.
Local Open Scope string_scope.
Local Open Scope nat_scope.

(* ================================================================== *)
(** ** Python string primitives *)
(* ================================================================== *)

Module PyStr.

Definition byte_is (n : nat) (c : ascii) : bool := nat_of_ascii c =? n.

Definition byte_in (lo hi : nat) (c : ascii) : bool :=
  (lo <=? nat_of_ascii c) && (nat_of_ascii c <=? hi).

(** [str.isspace] on a code point below 128: TAB, LF, VT, FF, CR, the
    four separators FS, GS, RS, US and the space. *)
Definition isspace (c : ascii) : bool :=
  let n := nat_of_ascii c in
  ((9 <=? n) && (n <=? 13)) || ((28 <=? n) && (n <=? 32)).

(** The other code points [str.isspace] accepts, by their encodings:
    U+0085 and U+00A0 in two bytes; U+1680, U+2000 to U+200A, U+2028,
    U+2029, U+202F, U+205F and U+3000 in three. *)
Definition space2 (a b : ascii) : bool :=
  byte_is 194 a && (byte_is 133 b || byte_is 160 b).

Definition space3 (a b c : ascii) : bool :=
  (byte_is 225 a && byte_is 154 b && byte_is 128 c)
  || (byte_is 226 a && byte_is 128 b
      && (byte_in 128 138 c || byte_in 168 169 c || byte_is 175 c))
  || (byte_is 226 a && byte_is 129 b && byte_is 159 c)
  || (byte_is 227 a && byte_is 128 b && byte_is 128 c).

(** The number of bytes of the whitespace character [s] starts with,
    [None] when it starts with none. *)
Definition space_len (s : string) : option nat :=
  match s with
  | EmptyString => None
  | String a r =>
      if isspace a then Some 1
      else
        match r with
        | EmptyString => None
        | String b r1 =>
            if space2 a b then Some 2
            else
              match r1 with
              | EmptyString => None
              | String c _ => if space3 a b c then Some 3 else None
              end
        end
  end.

Definition isupper (c : ascii) : bool :=
  let n := nat_of_ascii c in (65 <=? n) && (n <=? 90).

Definition lower_char (c : ascii) : ascii :=
  if isupper c then ascii_of_nat (nat_of_ascii c + 32) else c.

(** [str.lower] on the ASCII letters; every other byte is kept. *)
Fixpoint lower (s : string) : string :=
  match s with
  | EmptyString => EmptyString
  | String c r => String (lower_char c) (lower r)
  end.

(** Every character of [s] is whitespace: [s.strip() == ""].  The scan
    goes character by character; [skip] counts the bytes of the
    current character still to be passed. *)
Fixpoint all_space_scan (skip : nat) (s : string) : bool :=
  match s with
  | EmptyString => true
  | String _ r =>
      match skip with
      | S k => all_space_scan k r
      | O =>
          match space_len s with
          | Some len => all_space_scan (len - 1) r
          | None => false
          end
      end
  end.

Definition all_space (s : string) : bool := all_space_scan 0 s.

(** [str.lstrip], [str.rstrip] and [str.strip] without argument. *)
Fixpoint lstrip_scan (skip : nat) (s : string) : string :=
  match s with
  | EmptyString => EmptyString
  | String _ r =>
      match skip with
      | S k => lstrip_scan k r
      | O =>
          match space_len s with
          | Some len => lstrip_scan (len - 1) r
          | None => s
          end
      end
  end.

Definition lstrip (s : string) : string := lstrip_scan 0 s.

Fixpoint rstrip (s : string) : string :=
  match s with
  | EmptyString => EmptyString
  | String c r => if all_space s then EmptyString else String c (rstrip r)
  end.

Definition strip (s : string) : string := rstrip (lstrip s).

(** The newline translation of a file read in text mode: CR LF and a
    lone CR become LF. *)
Fixpoint universal_newlines (s : string) : string :=
  match s with
  | EmptyString => EmptyString
  | String c r =>
      if byte_is 13 c then
        String (ascii_of_nat 10)
               (match r with
                | EmptyString => EmptyString
                | String d r1 =>
                    if byte_is 10 d then universal_newlines r1
                    else universal_newlines r
                end)
      else String c (universal_newlines r)
  end.

(** [str.startswith]. *)
Definition startswith (s p : string) : bool := String.prefix p s.

(** Truthiness of a [str]: [not s] is [is_empty s]. *)
Definition is_empty (s : string) : bool :=
  match s with EmptyString => true | _ => false end.

(** [sub in s]. *)
Fixpoint contains (s sub : string) : bool :=
  String.prefix sub s ||
  match s with
  | EmptyString => false
  | String _ r => contains r sub
  end.

(** [s.find(sub)]: the index of the first occurrence, [None] for -1. *)
Fixpoint find (s sub : string) : option nat :=
  if String.prefix sub s then Some 0
  else match s with
       | EmptyString => None
       | String _ r => option_map S (find r sub)
       end.

(** The slices [s[:n]] and [s[n:]]. *)
Fixpoint take (n : nat) (s : string) : string :=
  match n, s with
  | S k, String c r => String c (take k r)
  | _, _ => EmptyString
  end.

Fixpoint drop (n : nat) (s : string) : string :=
  match n, s with
  | S k, String _ r => drop k r
  | _, _ => s
  end.

(** The optional [count] of [str.replace]: [None] is the default (all
    occurrences). *)
Definition may_replace (count : option nat) : bool :=
  match count with Some O => false | _ => true end.

Definition one_less (count : option nat) : option nat :=
  match count with Some n => Some (Nat.pred n) | None => None end.

(** [str.replace] for a non-empty [old]: the text is scanned from the
    left; at an occurrence of [old] the replacement is emitted and the
    scan resumes after the occurrence ([skip] counts the characters of
    the occurrence still to be dropped). *)
Fixpoint replace_scan (old new : string) (count : option nat)
         (skip : nat) (s : string) : string :=
  match s with
  | EmptyString => EmptyString
  | String c r =>
      match skip with
      | S k => replace_scan old new count k r
      | O =>
          if may_replace count && String.prefix old s
          then new ++ replace_scan old new (one_less count)
                                   (String.length old - 1) r
          else String c (replace_scan old new count 0 r)
      end
  end.

(** [str.replace] for the empty [old]: the replacement goes before
    every character and at the end. *)
Fixpoint replace_empty (new : string) (count : option nat)
         (s : string) : string :=
  if may_replace count then
    new ++ match s with
           | EmptyString => EmptyString
           | String c r => String c (replace_empty new (one_less count) r)
           end
  else s.

Definition replace (s old new : string) (count : option nat) : string :=
  match old with
  | EmptyString => replace_empty new count s
  | _ => replace_scan old new count 0 s
  end.

(** [sep.join(parts)]. *)
Definition join (sep : string) (parts : list string) : string :=
  String.concat sep parts.

(** [s.split(sep)] for a one-character separator. *)
Fixpoint split (sep : ascii) (s : string) : list string :=
  match s with
  | EmptyString => [EmptyString]
  | String c r =>
      if Ascii.eqb c sep then EmptyString :: split sep r
      else match split sep r with
           | h :: t => String c h :: t
           | [] => [String c EmptyString]
           end
  end.

(** [s.split(sep, 1)]: [None] stands for the one-element list [[s]],
    [Some (a, b)] for the two-element list [[a, b]]. *)
Fixpoint split_once (sep : ascii) (s : string) : option (string * string) :=
  match s with
  | EmptyString => None
  | String c r =>
      if Ascii.eqb c sep then Some (EmptyString, r)
      else match split_once sep r with
           | Some (a, b) => Some (String c a, b)
           | None => None
           end
  end.

(** [s.partition(sep)[2]]. *)
Definition partition_tail (sep : ascii) (s : string) : string :=
  match split_once sep s with
  | Some (_, b) => b
  | None => EmptyString
  end.

(** [s.rfind(c)] as an option. *)
Fixpoint rfind (c : ascii) (s : string) : option nat :=
  match s with
  | EmptyString => None
  | String a r =>
      match rfind c r with
      | Some i => Some (S i)
      | None => if Ascii.eqb a c then Some 0 else None
      end
  end.

(** Decimal rendering of a natural number, [str(n)]. *)
Fixpoint digits_fuel (fuel n : nat) (acc : string) : string :=
  match fuel with
  | O => acc
  | S f =>
      let acc' := String (ascii_of_nat (48 + n mod 10)) acc in
      if n <? 10 then acc' else digits_fuel f (n / 10) acc'
  end.

Definition str_of_nat (n : nat) : string := digits_fuel (S n) n EmptyString.

Definition str_of_Z (z : Z) : string :=
  if (z <? 0)%Z then String "-" (str_of_nat (Z.to_nat (- z)))
  else str_of_nat (Z.to_nat z).

(** Zero-padded decimal of width [w], the ["%0wd"] format. *)
Fixpoint zfill (w : nat) (s : string) : string :=
  if String.length s <? w
  then match w with
       | O => s
       | S w' => String "0" (zfill w' s)
       end
  else s.

End PyStr.

(* ================================================================== *)
(** ** The UTF-8 codec: [bytes.decode("utf-8", errors)] *)
(* ================================================================== *)

Module Utf8.

(** What a byte string starts with: a well-formed sequence of [len]
    bytes, or [len] bytes that start none (one stray byte, or the
    longest beginning of a sequence that its next byte does not
    continue). *)
Inductive Head :=
| Scalar (len : nat)
| Damaged (len : nat).

Definition continuation (c : ascii) : bool := PyStr.byte_in 128 191 c.

(** The second byte a lead byte allows: no overlong form, no
    surrogate, nothing above U+10FFFF. *)
Definition second_ok (a b : ascii) : bool :=
  if PyStr.byte_is 224 a then PyStr.byte_in 160 191 b
  else if PyStr.byte_is 237 a then PyStr.byte_in 128 159 b
  else if PyStr.byte_is 240 a then PyStr.byte_in 144 191 b
  else if PyStr.byte_is 244 a then PyStr.byte_in 128 143 b
  else continuation b.

Definition head (s : string) : Head :=
  match s with
  | EmptyString => Damaged 0
  | String a r =>
      if nat_of_ascii a <? 128 then Scalar 1
      else if PyStr.byte_in 194 223 a then
        match r with
        | String b _ => if continuation b then Scalar 2 else Damaged 1
        | EmptyString => Damaged 1
        end
      else if PyStr.byte_in 224 239 a then
        match r with
        | String b r1 =>
            if second_ok a b then
              match r1 with
              | String c _ => if continuation c then Scalar 3 else Damaged 2
              | EmptyString => Damaged 2
              end
            else Damaged 1
        | EmptyString => Damaged 1
        end
      else if PyStr.byte_in 240 244 a then
        match r with
        | String b r1 =>
            if second_ok a b then
              match r1 with
              | String c r2 =>
                  if continuation c then
                    match r2 with
                    | String d _ =>
                        if continuation d then Scalar 4 else Damaged 3
                    | EmptyString => Damaged 3
                    end
                  else Damaged 2
              | EmptyString => Damaged 2
              end
            else Damaged 1
        | EmptyString => Damaged 1
        end
      else Damaged 1
  end.

(** The strict decoder accepts the bytes: every sequence is
    well-formed.  [skip] counts the bytes of the current sequence still
    to be passed. *)
Fixpoint valid_scan (skip : nat) (s : string) : bool :=
  match s with
  | EmptyString => true
  | String _ r =>
      match skip with
      | S k => valid_scan k r
      | O =>
          match head s with
          | Scalar len => valid_scan (len - 1) r
          | Damaged _ => false
          end
      end
  end.

Definition valid (s : string) : bool := valid_scan 0 s.

(** U+FFFD, the replacement character. *)
Definition replacement : string :=
  String (ascii_of_nat 239) (String (ascii_of_nat 191)
    (String (ascii_of_nat 189) EmptyString)).

(** [bytes.decode("utf-8", errors="replace")]: a well-formed sequence
    is kept, damaged bytes become one replacement character. *)
Fixpoint replace_scan (keep : bool) (skip : nat) (s : string) : string :=
  match s with
  | EmptyString => EmptyString
  | String c r =>
      match skip with
      | S k =>
          if keep then String c (replace_scan keep k r)
          else replace_scan keep k r
      | O =>
          match head s with
          | Scalar len => String c (replace_scan true (len - 1) r)
          | Damaged len => replacement ++ replace_scan false (len - 1) r
          end
      end
  end.

Definition decode_replace (s : string) : string := replace_scan true 0 s.

(** The code point of the well-formed sequence [s] starts with. *)
Definition bits (c : ascii) (m : N) : N := (N_of_ascii c mod m)%N.

Definition code_point (s : string) : N :=
  match head s, s with
  | Scalar 2, String a (String b _) => (bits a 32 * 64 + bits b 64)%N
  | Scalar 3, String a (String b (String c _)) =>
      (bits a 16 * 4096 + bits b 64 * 64 + bits c 64)%N
  | Scalar 4, String a (String b (String c (String d _))) =>
      (bits a 8 * 262144 + bits b 64 * 4096 + bits c 64 * 64 + bits d 64)%N
  | _, String a _ => N_of_ascii a
  | _, EmptyString => 0%N
  end.

(** Every byte is below 128. *)
Fixpoint is_ascii (s : string) : bool :=
  match s with
  | EmptyString => true
  | String c r => (nat_of_ascii c <? 128) && is_ascii r
  end.

End Utf8.

(* ================================================================== *)
(** ** [urllib.parse]: [parse_qs] and [quote_plus] *)
(* ================================================================== *)

Module Url.

Definition in_range (lo hi : nat) (c : ascii) : bool :=
  let n := nat_of_ascii c in (lo <=? n) && (n <=? hi).

Definition isdigit (c : ascii) : bool := in_range 48 57 c.
Definition isalnum (c : ascii) : bool :=
  isdigit c || in_range 65 90 c || in_range 97 122 c.

(** Value of one hexadecimal digit, either case. *)
Definition hexval (c : ascii) : option nat :=
  let n := nat_of_ascii c in
  if isdigit c then Some (n - 48)
  else if in_range 97 102 c then Some (n - 87)
  else if in_range 65 70 c then Some (n - 55)
  else None.

Definition hexdigit (upper : bool) (n : nat) : ascii :=
  if n <? 10 then ascii_of_nat (48 + n)
  else ascii_of_nat ((if upper then 55 else 87) + n).

(** Two hexadecimal digits of one byte. *)
Definition hex_byte (upper : bool) (c : ascii) : string :=
  let n := nat_of_ascii c in
  String (hexdigit upper (n / 16)) (String (hexdigit upper (n mod 16)) EmptyString).

(** [unquote_to_bytes]: a percent sign followed by two hexadecimal
    digits is the byte they denote; any other percent sign stays. *)
Fixpoint unquote_to_bytes (s : string) : string :=
  match s with
  | EmptyString => EmptyString
  | String c r =>
      if Ascii.eqb c "%" then
        match r with
        | String h (String l r') =>
            match hexval h, hexval l with
            | Some a, Some b =>
                String (ascii_of_nat (16 * a + b)) (unquote_to_bytes r')
            | _, _ => String c (unquote_to_bytes r)
            end
        | _ => String c (unquote_to_bytes r)
        end
      else String c (unquote_to_bytes r)
  end.

(** [unquote] with its defaults [encoding="utf-8"] and
    [errors="replace"]: the escapes are turned into bytes and the bytes
    decoded, damaged ones into U+FFFD.  The library decodes each run of
    ASCII characters by itself and passes the other characters on; as
    the characters it passes on are whole sequences, decoding the whole
    text once gives the same. *)
Definition unquote (s : string) : string :=
  Utf8.decode_replace (unquote_to_bytes s).

(** [parse_qsl] with its defaults: [keep_blank_values=False],
    [strict_parsing=False], separator [&]. *)
Definition parse_field (name_value : string) : list (string * string) :=
  if PyStr.is_empty name_value then []
  else
    match PyStr.split_once "=" name_value with
    | None => []
    | Some (n, v) =>
        if PyStr.is_empty v then []
        else [(unquote (PyStr.replace n "+" " " None),
               unquote (PyStr.replace v "+" " " None))]
    end.

Definition parse_qsl (qs : string) : list (string * string) :=
  flat_map parse_field (PyStr.split "&" qs).

(** The dict of [parse_qs], in insertion order: a repeated name
    appends to the list of its first occurrence. *)
Definition Form := list (string * list string).

Fixpoint form_add (d : Form) (name value : string) : Form :=
  match d with
  | [] => [(name, [value])]
  | (k, vs) :: t =>
      if String.eqb k name then (k, (vs ++ [value])%list) :: t
      else (k, vs) :: form_add t name value
  end.

Definition parse_qs (qs : string) : Form :=
  fold_left (fun d nv => form_add d (fst nv) (snd nv)) (parse_qsl qs) [].

(** [d.get(key)]. *)
Fixpoint get (d : Form) (key : string) : option (list string) :=
  match d with
  | [] => None
  | (k, vs) :: t => if String.eqb k key then Some vs else get t key
  end.

(** The characters [quote] never escapes: letters, digits and [_.-~]. *)
Definition always_safe (c : ascii) : bool :=
  isalnum c || Ascii.eqb c "_" || Ascii.eqb c "." || Ascii.eqb c "-"
  || Ascii.eqb c "~".

Fixpoint mem_char (c : ascii) (s : string) : bool :=
  match s with
  | EmptyString => false
  | String a r => Ascii.eqb a c || mem_char c r
  end.

(** [quote(s, safe)]. *)
Fixpoint quote (s safe : string) : string :=
  match s with
  | EmptyString => EmptyString
  | String c r =>
      if always_safe c || mem_char c safe then String c (quote r safe)
      else String "%" (hex_byte true c ++ quote r safe)
  end.

(** [quote_plus(s)]. *)
Definition quote_plus (s : string) : string :=
  if negb (mem_char " " s) then quote s ""
  else PyStr.replace (quote s " ") " " "+" None.

End Url.

(* ================================================================== *)
(** ** [hashlib.pbkdf2_hmac("sha256", ...)] *)
(* ================================================================== *)

Module Sha256.

Local Open Scope Z_scope.

Definition w32 (x : Z) : Z := x mod 4294967296.
Definition add32 (x y : Z) : Z := w32 (x + y).
Definition rotr (n x : Z) : Z :=
  Z.lor (Z.shiftr x n) (w32 (Z.shiftl x (32 - n))).
Definition not32 (x : Z) : Z := Z.lxor x 4294967295.

Definition Ch (x y z : Z) : Z := Z.lxor (Z.land x y) (Z.land (not32 x) z).
Definition Maj (x y z : Z) : Z :=
  Z.lxor (Z.lxor (Z.land x y) (Z.land x z)) (Z.land y z).
Definition Sigma0 (x : Z) : Z := Z.lxor (Z.lxor (rotr 2 x) (rotr 13 x)) (rotr 22 x).
Definition Sigma1 (x : Z) : Z := Z.lxor (Z.lxor (rotr 6 x) (rotr 11 x)) (rotr 25 x).
Definition sigma0 (x : Z) : Z := Z.lxor (Z.lxor (rotr 7 x) (rotr 18 x)) (Z.shiftr x 3).
Definition sigma1 (x : Z) : Z := Z.lxor (Z.lxor (rotr 17 x) (rotr 19 x)) (Z.shiftr x 10).

(** The constants of FIPS 180-4 are the first 32 bits of the
    fractional parts of the cube roots (round constants) and of the
    square roots (initial hash value) of the first primes; they are
    computed here rather than tabulated. *)
Definition is_prime (p : Z) : bool :=
  forallb (fun d => negb (p mod Z.of_nat d =? 0))
          (seq 2 (Z.to_nat p - 2)).

Definition primes_upto (n : nat) : list Z :=
  filter is_prime (map Z.of_nat (seq 2 (n - 1))).

(** The largest [r] below [2 ^ bits] whose cube is at most [n], found
    bit by bit from the top. *)
Fixpoint cube_root (bits : nat) (n r : Z) : Z :=
  match bits with
  | O => r
  | S b =>
      let r' := r + Z.shiftl 1 (Z.of_nat b) in
      cube_root b n (if r' * r' * r' <=? n then r' else r)
  end.

Definition K : list Z :=
  Eval vm_compute in
    map (fun p => w32 (cube_root 36 (Z.shiftl p 96) 0)) (primes_upto 311).

Definition H0 : list Z :=
  Eval vm_compute in
    map (fun p => w32 (Z.sqrt (Z.shiftl p 64))) (primes_upto 19).

Definition bytes_of_string (s : string) : list Z :=
  map (fun c => Z.of_N (N_of_ascii c)) (list_ascii_of_string s).

Definition string_of_bytes (l : list Z) : string :=
  string_of_list_ascii (map (fun b => ascii_of_N (Z.to_N (b mod 256))) l).

(** Big-endian bytes of a word of [n] bytes. *)
Fixpoint be_bytes (n : nat) (x : Z) : list Z :=
  match n with
  | O => []
  | S k => (be_bytes k (Z.shiftr x 8) ++ [x mod 256])%list
  end.

Fixpoint be_word (l : list Z) (acc : Z) : Z :=
  match l with
  | [] => acc
  | b :: r => be_word r (acc * 256 + b)
  end.

(** The padded message: a one bit, zeros up to 56 modulo 64, and the
    bit length on eight bytes. *)
Definition pad (msg : list Z) : list Z :=
  let len := Z.of_nat (List.length msg) in
  let zeros := Z.to_nat ((55 - len) mod 64) in
  (msg ++ 128 :: repeat 0 zeros ++ be_bytes 8 (8 * len))%list.

(** Words of a block, four bytes each. *)
Fixpoint words (n : nat) (l : list Z) : list Z :=
  match n with
  | O => []
  | S k => be_word (firstn 4 l) 0 :: words k (skipn 4 l)
  end.

(** The message schedule, most recent word first. *)
Fixpoint extend (n : nat) (rev_w : list Z) : list Z :=
  match n with
  | O => rev_w
  | S k =>
      let at_ i := nth i rev_w 0 in
      let w := add32 (add32 (sigma1 (at_ 1%nat)) (at_ 6%nat))
                     (add32 (sigma0 (at_ 14%nat)) (at_ 15%nat)) in
      extend k (w :: rev_w)
  end.

Definition schedule (block : list Z) : list Z :=
  rev (extend 48 (rev (words 16 block))).

Record Regs := mkRegs { ra : Z; rb : Z; rc : Z; rd : Z;
                        re : Z; rf : Z; rg : Z; rh : Z }.

Definition round (r : Regs) (kw : Z * Z) : Regs :=
  let t1 := add32 (add32 (add32 (rh r) (Sigma1 (re r)))
                         (add32 (Ch (re r) (rf r) (rg r)) (fst kw))) (snd kw) in
  let t2 := add32 (Sigma0 (ra r)) (Maj (ra r) (rb r) (rc r)) in
  mkRegs (add32 t1 t2) (ra r) (rb r) (rc r) (add32 (rd r) t1) (re r) (rf r) (rg r).

Definition regs_of (h : list Z) : Regs :=
  let at_ i := nth i h 0 in
  mkRegs (at_ 0%nat) (at_ 1%nat) (at_ 2%nat) (at_ 3%nat)
         (at_ 4%nat) (at_ 5%nat) (at_ 6%nat) (at_ 7%nat).

Definition list_of (r : Regs) : list Z :=
  [ra r; rb r; rc r; rd r; re r; rf r; rg r; rh r].

Definition compress (h : list Z) (block : list Z) : list Z :=
  let r := fold_left round (combine K (schedule block)) (regs_of h) in
  list_of (mkRegs (add32 (nth 0 h 0) (ra r)) (add32 (nth 1 h 0) (rb r))
                  (add32 (nth 2 h 0) (rc r)) (add32 (nth 3 h 0) (rd r))
                  (add32 (nth 4 h 0) (re r)) (add32 (nth 5 h 0) (rf r))
                  (add32 (nth 6 h 0) (rg r)) (add32 (nth 7 h 0) (rh r))).

Fixpoint blocks (n : nat) (h : list Z) (l : list Z) : list Z :=
  match n with
  | O => h
  | S k => blocks k (compress h (firstn 64 l)) (skipn 64 l)
  end.

Definition digest_bytes (msg : list Z) : list Z :=
  let p := pad msg in
  let h := blocks (List.length p / 64) H0 p in
  flat_map (be_bytes 4) (list_of (regs_of h)).

(** [hashlib.sha256(msg).digest()]. *)
Definition sha256 (msg : string) : string :=
  string_of_bytes (digest_bytes (bytes_of_string msg)).

(** Bytewise exclusive or of two byte strings; the shorter one bounds
    the result. *)
Fixpoint xor_bytes (a b : string) : string :=
  match a, b with
  | String x a', String y b' =>
      String (ascii_of_N (N.lxor (N_of_ascii x) (N_of_ascii y))) (xor_bytes a' b')
  | _, _ => EmptyString
  end.

Fixpoint repeat_char (c : ascii) (n : nat) : string :=
  match n with
  | O => EmptyString
  | S k => String c (repeat_char c k)
  end.

(** HMAC with SHA-256 (block size 64). *)
Definition hmac (key msg : string) : string :=
  let k0 := if (64 <? String.length key)%nat then sha256 key else key in
  let k := (k0 ++ repeat_char zero (64 - String.length k0))%string in
  let ipad := xor_bytes k (repeat_char (ascii_of_nat 54) 64) in
  let opad := xor_bytes k (repeat_char (ascii_of_nat 92) 64) in
  sha256 (opad ++ sha256 (ipad ++ msg))%string.

(** One PBKDF2 round: the next HMAC value and the running xor. *)
Definition pbkdf2_step (password : string) (st : string * string)
  : string * string :=
  let u := hmac password (fst st) in (u, xor_bytes (snd st) u).

(** [pbkdf2_hmac("sha256", password, salt, iterations)] with the
    default [dklen], the digest size: a single output block. *)
Definition pbkdf2_hmac (password salt : string) (iterations : N) : string :=
  let u1 := hmac password
                 (salt ++ string_of_bytes (be_bytes 4 1))%string in
  snd (N.iter (iterations - 1) (pbkdf2_step password) (u1, u1)).

(** [bytes.hex()]. *)
Fixpoint hex (b : string) : string :=
  match b with
  | EmptyString => EmptyString
  | String c r => (Url.hex_byte false c ++ hex r)%string
  end.

Definition bytes_space (c : ascii) : bool :=
  let n := nat_of_ascii c in
  (((9 <=? n) && (n <=? 13)) || (n =? 32))%nat.

(** [bytes.fromhex]: pairs of hexadecimal digits, ASCII whitespace
    allowed between pairs; [None] is [ValueError]. *)
Fixpoint fromhex (s : string) : option string :=
  match s with
  | EmptyString => Some EmptyString
  | String c r =>
      if bytes_space c then fromhex r
      else
        match r with
        | String d r' =>
            match Url.hexval c, Url.hexval d, fromhex r' with
            | Some a, Some b, Some t =>
                Some (String (ascii_of_nat (16 * a + b)) t)
            | _, _, _ => None
            end
        | EmptyString => None
        end
  end.

End Sha256.

(* ================================================================== *)
(** ** [datetime], [json] and [pathlib] *)
(* ================================================================== *)

Module Lib.

Definition newline : string := String (ascii_of_nat 10) EmptyString.

(** A naive [datetime] value. *)
Record DateTime := mkDateTime {
  year : nat; month : nat; day : nat;
  hour : nat; minute : nat; second : nat; microsecond : nat }.

Definition pad_num (w n : nat) : string := PyStr.zfill w (PyStr.str_of_nat n).

(** [dt.isoformat(timespec="seconds")]. *)
Definition isoformat_seconds (d : DateTime) : string :=
  pad_num 4 (year d) ++ "-" ++ pad_num 2 (month d) ++ "-" ++ pad_num 2 (day d)
  ++ "T" ++ pad_num 2 (hour d) ++ ":" ++ pad_num 2 (minute d) ++ ":"
  ++ pad_num 2 (second d).

(** [dt.isoformat()]: the microseconds are printed when they are not
    zero. *)
Definition isoformat (d : DateTime) : string :=
  isoformat_seconds d ++
  (if microsecond d =? 0 then "" else "." ++ pad_num 6 (microsecond d)).

(** JSON values as [json.dumps] receives them here. *)
Inductive Json :=
| JInt (z : Z)
| JStr (s : string)
| JList (items : list Json)
| JDict (members : list (string * Json)).

Definition backslash : ascii := ascii_of_nat 92.

(** One code point below 128 in a JSON string with
    [ensure_ascii=True]: the quote and the backslash get a backslash,
    the usual control characters their letter, every other character
    outside the printable range its four-digit escape. *)
Definition escape_char (c : ascii) : string :=
  let n := nat_of_ascii c in
  if n =? 34 then String backslash (String c EmptyString)
  else if n =? 92 then String backslash (String c EmptyString)
  else if n =? 10 then "\n"
  else if n =? 13 then "\r"
  else if n =? 9 then "\t"
  else if n =? 8 then "\b"
  else if n =? 12 then "\f"
  else if (32 <=? n) && (n <=? 126) then String c EmptyString
  else "\u00" ++ Url.hex_byte false c.

Definition hex_digit_of (n : N) : ascii := Url.hexdigit false (N.to_nat (n mod 16)).

(** The four lowercase hexadecimal digits of a number below 65536. *)
Definition hex4 (n : N) : string :=
  String (hex_digit_of (n / 4096))
    (String (hex_digit_of (n / 256))
       (String (hex_digit_of (n / 16)) (String (hex_digit_of n) EmptyString))).

(** A code point from 128 on: its four-digit escape, or the escapes of
    its two surrogates when it lies above the basic plane. *)
Definition escape_point (n : N) : string :=
  if (n <? 65536)%N then "\u" ++ hex4 n
  else
    let m := (n - 65536)%N in
    "\u" ++ hex4 (55296 + m / 1024) ++ "\u" ++ hex4 (56320 + m mod 1024).

(** The scan goes code point by code point; [skip] counts the bytes of
    the current one still to be passed. *)
Fixpoint escape_scan (skip : nat) (s : string) : string :=
  match s with
  | EmptyString => EmptyString
  | String c r =>
      match skip with
      | S k => escape_scan k r
      | O =>
          match Utf8.head s with
          | Utf8.Scalar (S (S k)) =>
              escape_point (Utf8.code_point s) ++ escape_scan (S k) r
          | _ => escape_char c ++ escape_scan 0 r
          end
      end
  end.

Definition escape (s : string) : string := escape_scan 0 s.

Definition encode_string (s : string) : string :=
  String (ascii_of_nat 34) (escape s ++ String (ascii_of_nat 34) EmptyString).

Fixpoint spaces (n : nat) : string :=
  match n with
  | O => EmptyString
  | S k => String " " (spaces k)
  end.

(** The line break and indentation before an item at nesting [level]. *)
Definition newline_indent (indent level : nat) : string :=
  newline ++ spaces (indent * level).

(** [json.dumps(value, indent=indent)] at nesting [level]: item
    separator [","], key separator [": "]. *)
Fixpoint dumps_level (indent level : nat) (j : Json) : string :=
  match j with
  | JInt z => PyStr.str_of_Z z
  | JStr s => encode_string s
  | JList [] => "[]"
  | JList items =>
      "[" ++ newline_indent indent (S level)
      ++ PyStr.join ("," ++ newline_indent indent (S level))
                    (map (dumps_level indent (S level)) items)
      ++ newline_indent indent level ++ "]"
  | JDict [] => "{}"
  | JDict members =>
      "{" ++ newline_indent indent (S level)
      ++ PyStr.join ("," ++ newline_indent indent (S level))
                    (map (fun kv => let '(k, v) := kv in
                                    encode_string k ++ ": "
                                    ++ dumps_level indent (S level) v)
                         members)
      ++ newline_indent indent level ++ "}"
  end.

Definition dumps (indent : nat) (j : Json) : string := dumps_level indent 0 j.

(** Paths are absolute, a list of components from the root. *)
Definition Path := list string.

Definition keep_part (p : string) : bool :=
  negb (String.eqb p "" || String.eqb p ".").

(** The components of a path text as [pathlib] parses it: empty
    components and [.] vanish, [..] stays. *)
Definition parts (s : string) : Path := filter keep_part (PyStr.split "/" s).

(** [base / s]: an absolute [s] replaces [base]. *)
Definition joinpath (base : Path) (s : string) : Path :=
  if PyStr.startswith s "/" then parts s else (base ++ parts s)%list.

(** [p.suffix]. *)
Definition suffix (p : Path) : string :=
  let name := last p "" in
  match PyStr.rfind "." name with
  | Some i =>
      if (0 <? i) && (i <? String.length name - 1)
      then substring i (String.length name - i) name
      else ""
  | None => ""
  end.

(** The file system: what lies at a resolved absolute location, a
    regular file or a directory.  There are no symbolic links. *)
Inductive Node :=
| File (content : string)
| Dir.

Definition FS := Path -> option Node.

(** Resolution of a path by the operating system, one component at a
    time from [cur]: every component is looked up in a directory, and
    [..] goes to the parent. *)
Fixpoint walk (fs : FS) (cur : Path) (comps : Path) : option Path :=
  match comps with
  | [] => Some cur
  | c :: rest =>
      match fs cur with
      | Some Dir =>
          walk fs (if String.eqb c ".." then removelast cur
                   else (cur ++ [c])%list) rest
      | _ => None
      end
  end.

Definition resolve (fs : FS) (p : Path) : option Path := walk fs [] p.

Definition stat (fs : FS) (p : Path) : option Node :=
  match resolve fs p with
  | Some q => fs q
  | None => None
  end.

(** [p.is_file()]. *)
Definition is_file (fs : FS) (p : Path) : bool :=
  match stat fs p with
  | Some (File _) => true
  | _ => false
  end.

(** [prefix] is a leading segment of [p]: [p] lies in directory
    [prefix] or is that directory. *)
Fixpoint is_under (prefix p : Path) : bool :=
  match prefix, p with
  | [], _ => true
  | a :: prefix', b :: p' => String.eqb a b && is_under prefix' p'
  | _ :: _, [] => false
  end.

End Lib.

(* ================================================================== *)
(** ** The world of a request and the handler monad *)
(* ================================================================== *)

(** A row of the [users] table. *)
Record User := mkUser {
  id : Z;
  name : string;
  email : string;
  password_hash : string;
  password_salt : string;
  role : string;
  created_at : string }.

(** The database file: the rows in insertion order and the counter
    [AUTOINCREMENT] keeps of the largest row id ever handed out. *)
Record Store := mkStore {
  users : list User;
  sequence : Z }.

(** What a handler reads and changes: the table, the files under the
    program's directory, the log file in the working directory ([None]
    when it cannot be opened for appending), the bytes
    [secrets.token_bytes] will return and the instants
    [datetime.utcnow] will return. *)
Record World := mkWorld {
  db : Store;
  base_dir : Lib.Path;
  files : Lib.FS;
  server_log : option string;
  entropy : nat -> ascii;
  entropy_pos : nat;
  clock : nat -> Lib.DateTime;
  clock_pos : nat }.

Definition set_db (w : World) (d : Store) : World :=
  mkWorld d (base_dir w) (files w) (server_log w)
          (entropy w) (entropy_pos w) (clock w) (clock_pos w).

Definition set_server_log (w : World) (l : option string) : World :=
  mkWorld (db w) (base_dir w) (files w) l
          (entropy w) (entropy_pos w) (clock w) (clock_pos w).

Definition set_entropy_pos (w : World) (n : nat) : World :=
  mkWorld (db w) (base_dir w) (files w) (server_log w)
          (entropy w) n (clock w) (clock_pos w).

Definition set_clock_pos (w : World) (n : nat) : World :=
  mkWorld (db w) (base_dir w) (files w) (server_log w)
          (entropy w) (entropy_pos w) (clock w) n.

(** The exceptions the handlers can meet. *)
Inductive Exn :=
| IntegrityError
| OSError
| ValueError
| IndexError
| UnicodeDecodeError.

Inductive Result (A : Type) :=
| Ok (a : A)
| Raise (e : Exn).

Arguments Ok {A} a.
Arguments Raise {A} e.

Definition M (A : Type) : Type := World -> Result A * World.

Definition ret {A} (a : A) : M A := fun w => (Ok a, w).

Definition raise {A} (e : Exn) : M A := fun w => (Raise e, w).

Definition bind {A B} (c : M A) (k : A -> M B) : M B :=
  fun w =>
    match c w with
    | (Ok a, w') => k a w'
    | (Raise e, w') => (Raise e, w')
    end.

(** [try: c  except e: h]. *)
Definition catch {A} (c : M A) (e : Exn) (h : M A) : M A :=
  fun w =>
    match c w with
    | (Ok a, w') => (Ok a, w')
    | (Raise e', w') =>
        match e, e' with
        | IntegrityError, IntegrityError
        | OSError, OSError
        | ValueError, ValueError
        | IndexError, IndexError => h w'
        | _, _ => (Raise e', w')
        end
    end.

Notation "x <- c ;; k" := (bind c (fun x => k))
  (at level 61, c at next level, right associativity).
Notation "c ;;; k" := (bind c (fun _ => k))
  (at level 61, right associativity).

(** [datetime.utcnow()]. *)
Definition utcnow : M Lib.DateTime :=
  fun w => (Ok (clock w (clock_pos w)), set_clock_pos w (S (clock_pos w))).

(** [secrets.token_bytes(n)]. *)
Definition token_bytes (n : nat) : M string :=
  fun w =>
    (Ok (string_of_list_ascii (map (entropy w) (seq (entropy_pos w) n))),
     set_entropy_pos w (entropy_pos w + n)).

(** [Path("server.log").open("a").write(line)]. *)
Definition append_log (line : string) : M unit :=
  fun w =>
    match server_log w with
    | Some text => (Ok tt, set_server_log w (Some (text ++ line)))
    | None => (Raise OSError, w)
    end.

(** [path.read_bytes()]. *)
Definition read_file (p : Lib.Path) : M string :=
  fun w =>
    match Lib.stat (files w) p with
    | Some (Lib.File content) => (Ok content, w)
    | _ => (Raise OSError, w)
    end.

(** [b.decode("utf-8")]. *)
Definition decode (b : string) : M string :=
  if Utf8.valid b then ret b else raise UnicodeDecodeError.

(** [path.read_text(encoding="utf-8")]: the bytes of the file decoded,
    with the newline translation of text mode. *)
Definition read_text (p : Lib.Path) : M string :=
  content <- read_file p ;;
  text <- decode content ;;
  ret (PyStr.universal_newlines text).

(* ================================================================== *)
(** ** [init_db] and the statements on the [users] table *)
(* ================================================================== *)

Definition DATA_DIR (w : World) : Lib.Path := Lib.joinpath (base_dir w) "data".
Definition PUBLIC_DIR (w : World) : Lib.Path := Lib.joinpath (base_dir w) "public".
Definition TEMPLATES_DIR (w : World) : Lib.Path :=
  Lib.joinpath (base_dir w) "templates".

(** [init_db]: [CREATE TABLE IF NOT EXISTS] keeps a table that is
    there and creates an empty one otherwise. *)
Definition init_db (existing : option Store) : Store :=
  match existing with
  | Some st => st
  | None => mkStore [] 0
  end.

Definition valid_role (r : string) : bool :=
  String.eqb r "admin" || String.eqb r "user".

Definition email_taken (e : string) (rows : list User) : bool :=
  existsb (fun u => String.eqb (email u) e) rows.

(** The row id [AUTOINCREMENT] gives the next row: one more than the
    largest id the table has ever held. *)
Definition next_id (st : Store) : Z :=
  (1 + fold_left Z.max (map id (users st)) (sequence st))%Z.

(** [INSERT INTO users (name, email, password_hash, password_salt,
    role, created_at) VALUES (?, ?, ?, ?, ?, ?)] in its own
    transaction.  The [CHECK] on the role and the [UNIQUE] on the
    email raise [IntegrityError] and leave the table as it was. *)
Definition insert_user (n e h s r c : string) : M unit :=
  fun w =>
    if negb (valid_role r) then (Raise IntegrityError, w)
    else if email_taken e (users (db w)) then (Raise IntegrityError, w)
    else
      let i := next_id (db w) in
      (Ok tt, set_db w (mkStore (users (db w) ++ [mkUser i n e h s r c])%list i)).

(** The order of [ORDER BY created_at DESC]: rows are compared on the
    text of [created_at]; rows with equal keys keep their insertion
    order. *)
Fixpoint insert_desc (u : User) (l : list User) : list User :=
  match l with
  | [] => [u]
  | v :: t =>
      if String.leb (created_at v) (created_at u) then u :: l
      else v :: insert_desc u t
  end.

Definition order_by_created_at_desc (rows : list User) : list User :=
  fold_right insert_desc [] rows.

(** One result row of [SELECT id, name, email, role, created_at] as
    the dict [dict(row)]. *)
Definition row_dict (u : User) : Lib.Json :=
  Lib.JDict [("id", Lib.JInt (id u)); ("name", Lib.JStr (name u));
             ("email", Lib.JStr (email u)); ("role", Lib.JStr (role u));
             ("created_at", Lib.JStr (created_at u))].

Definition select_users : M (list Lib.Json) :=
  fun w => (Ok (map row_dict (order_by_created_at_desc (users (db w)))), w).

(* ================================================================== *)
(** ** [hash_password], [load_template] and [render_template] *)
(* ================================================================== *)

Definition ITERATIONS : N := 100000.

Definition hash_password (password : string) (salt : option string)
  : M (string * string) :=
  salt_bytes <- match salt with
                | None => token_bytes 16
                | Some s =>
                    match Sha256.fromhex s with
                    | Some b => ret b
                    | None => raise ValueError
                    end
                end ;;
  let hash_bytes := Sha256.pbkdf2_hmac password salt_bytes ITERATIONS in
  ret (Sha256.hex hash_bytes, Sha256.hex salt_bytes).

Definition load_template (name : string) : M string :=
  fun w => read_text (Lib.joinpath (TEMPLATES_DIR w) name) w.

(** The placeholder of a key: [f"{{{{ {key} }}}}"]. *)
Definition token (key : string) : string := "{{ " ++ key ++ " }}".

(** The loop over [context.items()]. *)
Definition substitute (content : string) (context : list (string * string))
  : string :=
  fold_left (fun c kv => PyStr.replace c (token (fst kv)) (snd kv) None)
            context content.

Definition render_template (name : string)
           (context : option (list (string * string))) : M string :=
  let context := match context with Some c => c | None => [] end in
  content <- load_template name ;;
  ret (substitute content context).

(* ================================================================== *)
(** ** [SignPortalRequestHandler] *)
(* ================================================================== *)

(** What the handler sees of a request: the request line and its path,
    the peer, the [Content-Length] header as a number when it is
    present, and the bytes waiting on the connection.  The header is
    taken to be absent or a natural number in decimal: on any other
    text [int] raises [ValueError] or the read does not end with the
    body, and such requests are not among the values of this type. *)
Record Request := mkRequest {
  requestline : string;
  path : string;
  client_address : string;
  content_length : option nat;
  rfile : string }.

(** What went out: a status with the headers and the body [server.py]
    sent, or the error page [send_error] builds. *)
Inductive Response :=
| Sent (status : nat) (headers : list (string * string)) (body : string)
| ErrorPage (status : nat) (message : string).

Definition double_quote : string := String (ascii_of_nat 34) EmptyString.

(** The format of a log line: ["%s - - [%s] %s\n"]. *)
Definition log_line (client timestamp line : string) : string :=
  client ++ " - - [" ++ timestamp ++ "] " ++ line ++ Lib.newline.

(** [log_message(format, *args)]; [line] is [format % args]. *)
Definition log_message (req : Request) (line : string) : M unit :=
  timestamp <- utcnow ;;
  append_log (log_line (client_address req) (Lib.isoformat_seconds timestamp)
                       line).

(** [send_response] of the base class logs the request before it
    buffers the status line. *)
Definition log_request (req : Request) (code : nat) : M unit :=
  log_message req (double_quote ++ requestline req ++ double_quote ++ " "
                   ++ PyStr.str_of_nat code ++ " -").

Definition send_response (req : Request) (code : nat) : M unit :=
  log_request req code.

(** [send_error] of the base class: an error line in the log, then the
    response. *)
Definition send_error (req : Request) (code : nat) (message : string)
  : M Response :=
  log_message req ("code " ++ PyStr.str_of_nat code ++ ", message " ++ message) ;;;
  send_response req code ;;;
  ret (ErrorPage code message).

(** [l[0]]. *)
Definition item0 (l : list string) : M string :=
  match l with
  | v :: _ => ret v
  | [] => raise IndexError
  end.

(** [d.get(key, default)]. *)
Definition get_default (d : Url.Form) (key : string) (default : list string)
  : list string :=
  match Url.get d key with
  | Some vs => vs
  | None => default
  end.

(** [(d.get(key) or [""])[0]]. *)
Definition field (d : Url.Form) (key : string) : string :=
  match Url.get d key with
  | Some (v :: _) => v
  | _ => ""
  end.

Definition redirect_with_message (req : Request) (message level : string)
  : M Response :=
  let location := "/?message=" ++ Url.quote_plus message ++ "&level="
                  ++ Url.quote_plus level in
  send_response req 303 ;;;
  ret (Sent 303 [("Location", location)] "").

(** [content.encode("utf-8")] is the text itself, and its length the
    number of its bytes. *)
Definition serve_index (req : Request) : M Response :=
  let query := Url.parse_qs (PyStr.partition_tail "?" (path req)) in
  message <- item0 (get_default query "message" [""]) ;;
  level <- item0 (get_default query "level" ["info"]) ;;
  content <- render_template "index.html"
               (Some [("message", message);
                      ("message_class",
                       if PyStr.is_empty message then "" else level)]) ;;
  let encoded := content in
  send_response req 200 ;;;
  ret (Sent 200 [("Content-Type", "text/html; charset=utf-8");
                 ("Content-Length", PyStr.str_of_nat (String.length encoded))]
            encoded).

Definition serve_users (req : Request) : M Response :=
  rows <- select_users ;;
  let payload := Lib.dumps 2 (Lib.JDict [("users", Lib.JList rows)]) in
  let encoded := payload in
  send_response req 200 ;;;
  ret (Sent 200 [("Content-Type", "application/json; charset=utf-8");
                 ("Content-Length", PyStr.str_of_nat (String.length encoded))]
            encoded).

Definition serve_static (req : Request) : M Response :=
  fun w =>
    let relative_path := PyStr.replace (path req) "/static/" "" (Some 1) in
    let candidate := Lib.joinpath (PUBLIC_DIR w) relative_path in
    if Lib.is_file (files w) candidate then
      (content <- read_file candidate ;;
       let mime_type := if String.eqb (Lib.suffix candidate) ".css"
                        then "text/css" else "application/octet-stream" in
       send_response req 200 ;;;
       ret (Sent 200 [("Content-Type", mime_type ++ "; charset=utf-8");
                      ("Content-Length",
                       PyStr.str_of_nat (String.length content))]
                 content)) w
    else send_error req 404 "Asset not found" w.

(** The four checks of [handle_register], in their order. *)
Definition validation_errors (name email password role : string)
  : list string :=
  ((if PyStr.is_empty name then ["Name is required."] else [])
   ++ (if PyStr.is_empty email then ["Email is required."] else [])
   ++ (if PyStr.is_empty password then ["Password is required."] else [])
   ++ (if negb (valid_role role)
       then ["Role must be 'admin' or 'user'."] else []))%list.

(** The bytes [handle_register] reads: [Content-Length] bytes of the
    connection, none when the header is absent. *)
Definition request_body (req : Request) : string :=
  let n := match content_length req with Some n => n | None => 0 end in
  PyStr.take n (rfile req).

Definition handle_register (req : Request) : M Response :=
  body <- decode (request_body req) ;;
  let data := Url.parse_qs body in
  let name := PyStr.strip (field data "name") in
  let email := PyStr.lower (PyStr.strip (field data "email")) in
  let password := field data "password" in
  let role := PyStr.lower (PyStr.strip (field data "role")) in
  let errors := validation_errors name email password role in
  match errors with
  | _ :: _ => redirect_with_message req (PyStr.join " " errors) "error"
  | [] =>
      hashed <- hash_password password None ;;
      let '(password_hash, salt) := hashed in
      returned <-
        catch
          (now <- utcnow ;;
           insert_user name email password_hash salt role (Lib.isoformat now) ;;;
           ret None)
          IntegrityError
          (r <- redirect_with_message req "That email is already registered."
                                      "error" ;;
           ret (Some r)) ;;
      match returned with
      | Some r => ret r
      | None => redirect_with_message req "Registration successful!" "success"
      end
  end.

Definition do_GET (req : Request) : M Response :=
  if String.eqb (path req) "/" || PyStr.startswith (path req) "/?"
  then serve_index req
  else if PyStr.startswith (path req) "/users" then serve_users req
  else if PyStr.startswith (path req) "/static/" then serve_static req
  else send_error req 404 "Not Found".

Definition do_POST (req : Request) : M Response :=
  if String.eqb (path req) "/register" then handle_register req
  else send_error req 404 "Not Found".

(** The fields of a registration request as [handle_register] reads
    them from the body; it reads none from a body that does not
    decode.  The role is compared with [admin] and [user] only, and no
    letter outside ASCII lowers to a letter of these two words, so
    [valid_role (role_of req)] is the test of the code for every role
    field; [email_of] is the address of the code when it is ASCII. *)
Definition form_of (req : Request) : Url.Form :=
  if Utf8.valid (request_body req) then Url.parse_qs (request_body req)
  else [].
Definition name_of (req : Request) : string :=
  PyStr.strip (field (form_of req) "name").
Definition email_of (req : Request) : string :=
  PyStr.lower (PyStr.strip (field (form_of req) "email")).
Definition password_of (req : Request) : string := field (form_of req) "password".
Definition role_of (req : Request) : string :=
  PyStr.lower (PyStr.strip (field (form_of req) "role")).

Definition errors_of (req : Request) : list string :=
  validation_errors (name_of req) (email_of req) (password_of req) (role_of req).

(** The [Location] of [redirect_with_message]. *)
Definition location (message level : string) : string :=
  "/?message=" ++ Url.quote_plus message ++ "&level=" ++ Url.quote_plus level.

(** The world after one line went to the log at the next instant of
    the clock. *)
Definition logged (req : Request) (line : string) (w : World) : World :=
  set_server_log (set_clock_pos w (S (clock_pos w)))
    (match server_log w with
     | Some text =>
         Some (text ++ log_line (client_address req)
                         (Lib.isoformat_seconds (clock w (clock_pos w))) line)
     | None => None
     end).

Definition request_log_line (req : Request) (code : nat) : string :=
  double_quote ++ requestline req ++ double_quote ++ " "
  ++ PyStr.str_of_nat code ++ " -".

(** The salt and the row a valid registration stores in world [w]. *)
Definition fresh_salt (w : World) : string :=
  string_of_list_ascii (map (entropy w) (seq (entropy_pos w) 16)).

Definition new_user (req : Request) (w : World) : User :=
  mkUser (next_id (db w)) (name_of req) (email_of req)
         (Sha256.hex (Sha256.pbkdf2_hmac (password_of req) (fresh_salt w)
                                         ITERATIONS))
         (Sha256.hex (fresh_salt w)) (role_of req)
         (Lib.isoformat (clock w (clock_pos w))).

(** The e-mail addresses of the table are in the form the handler
    stores: trimmed and lowercased. *)
Definition emails_normalized (st : Store) : Prop :=
  Forall (fun u => PyStr.lower (PyStr.strip (email u)) = email u) (users st).

(** The stores the program can reach: the table [init_db] creates in
    a new database, and what a request leaves behind. *)
Inductive reachable : Store -> Prop :=
| reach_init : reachable (init_db None)
| reach_get (req : Request) (w : World) :
    reachable (db w) -> reachable (db (snd (do_GET req w)))
| reach_post (req : Request) (w : World) :
    reachable (db w) -> reachable (db (snd (do_POST req w))).

(** ** Sample requests and worlds for the examples *)

Fixpoint path_eqb (p q : Lib.Path) : bool :=
  match p, q with
  | [], [] => true
  | a :: p', b :: q' => String.eqb a b && path_eqb p' q'
  | _, _ => false
  end.

Fixpoint fs_of (tree : list (Lib.Path * Lib.Node)) : Lib.FS :=
  fun p =>
    match tree with
    | [] => None
    | (q, n) :: t => if path_eqb q p then Some n else fs_of t p
    end.

Definition sample_tree : list (Lib.Path * Lib.Node) :=
  [([], Lib.Dir);
   (["srv"], Lib.Dir);
   (["srv"; "server.py"], Lib.File "import hashlib");
   (["srv"; "public"], Lib.Dir);
   (["srv"; "public"; "style.css"], Lib.File "body { margin: 0 }");
   (["srv"; "templates"], Lib.Dir);
   (["srv"; "templates"; "index.html"],
    Lib.File "<p class={{ message_class }}>{{ message }}</p>");
   (["etc"], Lib.Dir);
   (["etc"; "passwd"], Lib.File "root:x:0:0")].

Definition sample_clock (n : nat) : Lib.DateTime :=
  Lib.mkDateTime 2024 5 17 9 30 n 0.

Definition sample_world (rows : list User) (log : option string) : World :=
  mkWorld (mkStore rows (Z.of_nat (List.length rows))) ["srv"]
          (fs_of sample_tree) log (fun n => ascii_of_nat (n + 65)) 0
          sample_clock 0.

Definition alice : User :=
  mkUser 1 "Alice" "alice@test.com"
         "5e884898da28047151d0e56f8dc6292773603d0d6aabbdd62a11ef721d1542d8"
         "000102030405060708090a0b0c0d0e0f" "user" "2024-05-17T09:30:00".

Definition bob : User :=
  mkUser 2 "Bob" "bob@test.com"
         "6b3a55e0261b0304143f805a24924d0c1c44524821305f31d9277843b8a10f4e"
         "101112131415161718191a1b1c1d1e1f" "admin" "2024-05-18T10:00:00.250000".

(** The text with the given bytes. *)
Definition text_of (l : list nat) : string :=
  string_of_list_ascii (map ascii_of_nat l).

(** The UTF-8 encoding of U+00E9, e with an acute accent. *)
Definition e_acute : string :=
  String (ascii_of_nat 195) (String (ascii_of_nat 169) EmptyString).

Definition post (body : string) : Request :=
  mkRequest "POST /register HTTP/1.1" "/register" "127.0.0.1"
            (Some (String.length body)) body.

Definition get (target : string) : Request :=
  mkRequest ("GET " ++ target ++ " HTTP/1.1") target "127.0.0.1" None "".

(** [a] may come before [b] in the listing: it is not older. *)
Definition newer_first (a b : User) : Prop :=
  String.leb (created_at b) (created_at a) = true.

(** A text between double quotes. *)
Definition quoted (s : string) : string := double_quote ++ s ++ double_quote.

(** The renderer as the specification words it: the template text is
    scanned once from the left; where the placeholder of a context key
    starts, the value of that key is written in its place, and the
    scan goes on after the placeholder.  Values that were written are
    not scanned. *)
Fixpoint placeholder_at (context : list (string * string)) (s : string)
  : option (string * string) :=
  match context with
  | [] => None
  | (k, v) :: t =>
      if String.prefix (token k) s then Some (k, v) else placeholder_at t s
  end.

Fixpoint scan_once (context : list (string * string)) (skip : nat)
         (s : string) : string :=
  match s with
  | EmptyString => EmptyString
  | String c r =>
      match skip with
      | S k => scan_once context k r
      | O =>
          match placeholder_at context s with
          | Some (k, v) =>
              v ++ scan_once context (String.length (token k) - 1) r
          | None => String c (scan_once context 0 r)
          end
      end
  end.

Definition substitute_at_once (content : string)
           (context : list (string * string)) : string :=
  scan_once context 0 content.

(** Predicates on texts used in the statements below. *)
Fixpoint all_chars (p : ascii -> bool) (s : string) : bool :=
  match s with
  | EmptyString => true
  | String c r => p c && all_chars p r
  end.

(** A lowercase hexadecimal digit. *)
Definition is_lower_hex (c : ascii) : bool :=
  Url.isdigit c || Url.in_range 97 102 c.

(** What every row of the table satisfies once the handler has stored
    it: the role passed the [CHECK], the name and the address are not
    empty and are trimmed as [str.strip] trims, the address has no
    capital ASCII letter, and the hash and the salt are the
    hexadecimal texts of 32 and 16 bytes. *)
Definition row_ok (u : User) : Prop :=
  valid_role (role u) = true
  /\ name u <> EmptyString
  /\ PyStr.strip (name u) = name u
  /\ email u <> EmptyString
  /\ PyStr.lower (PyStr.strip (email u)) = email u
  /\ String.length (password_hash u) = 64
  /\ all_chars is_lower_hex (password_hash u) = true
  /\ String.length (password_salt u) = 32
  /\ all_chars is_lower_hex (password_salt u) = true.

(** The values of the pairs named [key], in their order. *)
Definition values_of (key : string) (pairs : list (string * string))
  : list string :=
  map snd (filter (fun nv => String.eqb (fst nv) key) pairs).

(** The log of [w'] continues the log of [w]: what was written is
    still there, and a log that could not be opened still cannot. *)
Definition log_grows (w w' : World) : Prop :=
  match server_log w with
  | Some text => exists more, server_log w' = Some (text ++ more)
  | None => server_log w' = None
  end.

(** The fields of an instant, most significant first, and their
    lexicographic comparison: the order of time. *)
Definition fields (d : Lib.DateTime) : list nat :=
  [Lib.year d; Lib.month d; Lib.day d; Lib.hour d; Lib.minute d;
   Lib.second d; Lib.microsecond d].

Fixpoint fields_compare (a b : list nat) : comparison :=
  match a, b with
  | [], [] => Eq
  | [], _ :: _ => Lt
  | _ :: _, [] => Gt
  | x :: a', y :: b' =>
      match Nat.compare x y with
      | Eq => fields_compare a' b'
      | c => c
      end
  end.

Definition chronological (d1 d2 : Lib.DateTime) : comparison :=
  fields_compare (fields d1) (fields d2).

(** The fields fit the widths [isoformat] prints them in. *)
Definition in_calendar (d : Lib.DateTime) : Prop :=
  Lib.year d < 10 ^ 4 /\ Lib.month d < 10 ^ 2 /\ Lib.day d < 10 ^ 2
  /\ Lib.hour d < 10 ^ 2 /\ Lib.minute d < 10 ^ 2 /\ Lib.second d < 10 ^ 2
  /\ Lib.microsecond d < 10 ^ 6.

(** The [w] decimal digits of [n], most significant first. *)
Fixpoint fixed_width (w n : nat) : string :=
  match w with
  | O => EmptyString
  | S w' =>
      fixed_width w' (n / 10)
      ++ String (ascii_of_nat (48 + n mod 10)) EmptyString
  end.

(** A printable ASCII character or a line feed. *)
Definition is_json_text_char (c : ascii) : bool :=
  let n := nat_of_ascii c in
  ((32 <=? n) && (n <=? 126)) || (n =? 10).

(* ================================================================== *)
(** * Properties *)
(* ================================================================== *)

(** ** Characters and strings *)

Ltac each_char c :=
  destruct c as [[] [] [] [] [] [] [] []]; vm_compute; try reflexivity.

Lemma lower_char_idem (c : ascii) :
  PyStr.lower_char (PyStr.lower_char c) = PyStr.lower_char c.
Proof. each_char c. Qed.

Lemma isspace_lower_char (c : ascii) :
  PyStr.isspace (PyStr.lower_char c) = PyStr.isspace c.
Proof. each_char c. Qed.

Lemma lower_idem (s : string) : PyStr.lower (PyStr.lower s) = PyStr.lower s.
Proof.
  induction s as [|c r IH]; simpl; [reflexivity|].
  now rewrite lower_char_idem, IH.
Qed.

Lemma isupper_bounds (c : ascii) :
  PyStr.isupper c = true -> 65 <= nat_of_ascii c <= 90.
Proof.
  unfold PyStr.isupper. cbv zeta. intros H.
  apply andb_true_iff in H as [H1 H2].
  apply Nat.leb_le in H1, H2. lia.
Qed.

(** Lowering leaves the bytes from 128 on alone. *)
Lemma byte_is_lower (n : nat) (c : ascii) :
  128 <= n -> PyStr.byte_is n (PyStr.lower_char c) = PyStr.byte_is n c.
Proof.
  intros Hn. unfold PyStr.byte_is, PyStr.lower_char.
  destruct (PyStr.isupper c) eqn:E; [|reflexivity].
  apply isupper_bounds in E. rewrite nat_ascii_embedding by lia.
  destruct (Nat.eqb_spec (nat_of_ascii c + 32) n),
    (Nat.eqb_spec (nat_of_ascii c) n); try reflexivity; lia.
Qed.

Lemma byte_in_lower (lo hi : nat) (c : ascii) :
  128 <= lo -> PyStr.byte_in lo hi (PyStr.lower_char c) = PyStr.byte_in lo hi c.
Proof.
  intros Hn. unfold PyStr.byte_in, PyStr.lower_char.
  destruct (PyStr.isupper c) eqn:E; [|reflexivity].
  apply isupper_bounds in E. rewrite nat_ascii_embedding by lia.
  destruct (Nat.leb_spec lo (nat_of_ascii c + 32)),
    (Nat.leb_spec lo (nat_of_ascii c)); try reflexivity; lia.
Qed.

Lemma space2_lower (a b : ascii) :
  PyStr.space2 (PyStr.lower_char a) (PyStr.lower_char b) = PyStr.space2 a b.
Proof. unfold PyStr.space2. now rewrite !byte_is_lower by lia. Qed.

Lemma space3_lower (a b c : ascii) :
  PyStr.space3 (PyStr.lower_char a) (PyStr.lower_char b) (PyStr.lower_char c)
  = PyStr.space3 a b c.
Proof.
  unfold PyStr.space3.
  now rewrite !byte_is_lower, !byte_in_lower by lia.
Qed.

Lemma space_len_lower (s : string) :
  PyStr.space_len (PyStr.lower s) = PyStr.space_len s.
Proof.
  destruct s as [|a [|b [|c r]]]; cbn [PyStr.lower PyStr.space_len];
    rewrite ?isspace_lower_char, ?space2_lower, ?space3_lower; reflexivity.
Qed.

Lemma all_space_scan_0 (c : ascii) (r : string) :
  PyStr.all_space_scan 0 (String c r)
  = match PyStr.space_len (String c r) with
    | Some len => PyStr.all_space_scan (len - 1) r
    | None => false
    end.
Proof. reflexivity. Qed.

Lemma lstrip_scan_0 (c : ascii) (r : string) :
  PyStr.lstrip_scan 0 (String c r)
  = match PyStr.space_len (String c r) with
    | Some len => PyStr.lstrip_scan (len - 1) r
    | None => String c r
    end.
Proof. reflexivity. Qed.

Lemma rstrip_cons (c : ascii) (r : string) :
  PyStr.rstrip (String c r)
  = if PyStr.all_space (String c r) then EmptyString
    else String c (PyStr.rstrip r).
Proof. reflexivity. Qed.

Lemma all_space_scan_lower (k : nat) (s : string) :
  PyStr.all_space_scan k (PyStr.lower s) = PyStr.all_space_scan k s.
Proof.
  revert k. induction s as [|c r IH]; intros k; [reflexivity|].
  destruct k as [|k]; [|exact (IH k)].
  change (PyStr.lower (String c r))
    with (String (PyStr.lower_char c) (PyStr.lower r)) at 1.
  rewrite !all_space_scan_0.
  change (String (PyStr.lower_char c) (PyStr.lower r))
    with (PyStr.lower (String c r)).
  rewrite space_len_lower.
  destruct (PyStr.space_len (String c r)); [apply IH|reflexivity].
Qed.

Lemma lstrip_scan_lower (k : nat) (s : string) :
  PyStr.lstrip_scan k (PyStr.lower s) = PyStr.lower (PyStr.lstrip_scan k s).
Proof.
  revert k. induction s as [|c r IH]; intros k; [reflexivity|].
  destruct k as [|k]; [|exact (IH k)].
  change (PyStr.lower (String c r))
    with (String (PyStr.lower_char c) (PyStr.lower r)) at 1.
  rewrite !lstrip_scan_0.
  change (String (PyStr.lower_char c) (PyStr.lower r))
    with (PyStr.lower (String c r)).
  rewrite space_len_lower.
  destruct (PyStr.space_len (String c r)); [apply IH|reflexivity].
Qed.

Lemma rstrip_lower (s : string) :
  PyStr.rstrip (PyStr.lower s) = PyStr.lower (PyStr.rstrip s).
Proof.
  induction s as [|c r IH]; [reflexivity|].
  change (PyStr.lower (String c r))
    with (String (PyStr.lower_char c) (PyStr.lower r)) at 1.
  rewrite !rstrip_cons.
  change (String (PyStr.lower_char c) (PyStr.lower r))
    with (PyStr.lower (String c r)).
  unfold PyStr.all_space. rewrite all_space_scan_lower.
  destruct (PyStr.all_space_scan 0 (String c r)); [reflexivity|].
  cbn [PyStr.lower]. now rewrite IH.
Qed.

Lemma strip_lower (s : string) :
  PyStr.strip (PyStr.lower s) = PyStr.lower (PyStr.strip s).
Proof.
  unfold PyStr.strip, PyStr.lstrip. now rewrite lstrip_scan_lower, rstrip_lower.
Qed.

(** A whitespace character at the head of a text is one at the head of
    every text that continues it, and lies inside the text. *)
Lemma space_len_app (a w : string) (len : nat) :
  PyStr.space_len a = Some len -> PyStr.space_len (a ++ w) = Some len.
Proof.
  destruct a as [|x [|y [|z r]]]; cbn [PyStr.space_len append];
    try discriminate.
  - destruct (PyStr.isspace x); [|discriminate].
    intros H. destruct w; exact H.
  - destruct (PyStr.isspace x); [trivial|].
    destruct (PyStr.space2 x y); [|discriminate].
    intros H. destruct w; exact H.
  - trivial.
Qed.

Lemma space_len_bound (s : string) (len : nat) :
  PyStr.space_len s = Some len -> 1 <= len <= String.length s.
Proof.
  destruct s as [|x [|y [|z r]]]; cbn [PyStr.space_len String.length];
    try discriminate.
  - destruct (PyStr.isspace x); [|discriminate]. intros [= <-]. lia.
  - destruct (PyStr.isspace x); [intros [= <-]; lia|].
    destruct (PyStr.space2 x y); [|discriminate]. intros [= <-]. lia.
  - destruct (PyStr.isspace x); [intros [= <-]; lia|].
    destruct (PyStr.space2 x y); [intros [= <-]; lia|].
    destruct (PyStr.space3 x y z); [|discriminate]. intros [= <-]. lia.
Qed.

Lemma all_space_scan_app (k : nat) (a w : string) :
  k <= String.length a ->
  PyStr.all_space_scan k a = true -> PyStr.all_space w = true ->
  PyStr.all_space_scan k (a ++ w) = true.
Proof.
  revert k. induction a as [|c r IH]; intros k Hk Ha Hw.
  - cbn [String.length] in Hk. replace k with 0 by lia. exact Hw.
  - cbn [String.length] in Hk. destruct k as [|k].
    + change (String c r ++ w) with (String c (r ++ w)).
      rewrite all_space_scan_0 in *.
      change (String c (r ++ w)) with (String c r ++ w).
      destruct (PyStr.space_len (String c r)) as [len|] eqn:E;
        [|discriminate].
      rewrite (space_len_app _ w _ E).
      apply space_len_bound in E. cbn [String.length] in E.
      apply IH; [lia|exact Ha|exact Hw].
    + apply (IH k); [lia|exact Ha|exact Hw].
Qed.

(** What [rstrip] removes is whitespace. *)
Lemma rstrip_split (s : string) :
  exists w, s = PyStr.rstrip s ++ w /\ PyStr.all_space w = true.
Proof.
  induction s as [|c r (w & Hs & Hw)]; [now exists EmptyString|].
  rewrite rstrip_cons. destruct (PyStr.all_space (String c r)) eqn:E.
  - now exists (String c r).
  - exists w. split; [|exact Hw]. cbn [append]. now rewrite <- Hs.
Qed.

Lemma rstrip_idem (s : string) : PyStr.rstrip (PyStr.rstrip s) = PyStr.rstrip s.
Proof.
  induction s as [|c r IH]; [reflexivity|].
  rewrite rstrip_cons. destruct (PyStr.all_space (String c r)) eqn:E;
    [reflexivity|].
  rewrite rstrip_cons, IH.
  destruct (PyStr.all_space (String c (PyStr.rstrip r))) eqn:E'; [|reflexivity].
  destruct (rstrip_split r) as (w & Hs & Hw).
  assert (H : PyStr.all_space (String c (PyStr.rstrip r) ++ w) = true)
    by (apply all_space_scan_app; [lia|exact E'|exact Hw]).
  cbn [append] in H. rewrite <- Hs in H. congruence.
Qed.

(** What [lstrip] leaves does not start with whitespace. *)
Lemma lstrip_scan_head (k : nat) (s : string) :
  PyStr.space_len (PyStr.lstrip_scan k s) = None.
Proof.
  revert k. induction s as [|c r IH]; intros k; [reflexivity|].
  destruct k as [|k]; [|exact (IH k)].
  rewrite lstrip_scan_0.
  destruct (PyStr.space_len (String c r)) eqn:E; [apply IH|exact E].
Qed.

Lemma lstrip_fixed (s : string) :
  PyStr.space_len s = None -> PyStr.lstrip s = s.
Proof.
  intros H. unfold PyStr.lstrip. destruct s as [|c r]; [reflexivity|].
  now rewrite lstrip_scan_0, H.
Qed.

Lemma strip_idem (s : string) : PyStr.strip (PyStr.strip s) = PyStr.strip s.
Proof.
  unfold PyStr.strip.
  assert (H : PyStr.space_len (PyStr.rstrip (PyStr.lstrip s)) = None).
  { destruct (PyStr.space_len (PyStr.rstrip (PyStr.lstrip s))) as [len|] eqn:E;
      [|reflexivity].
    destruct (rstrip_split (PyStr.lstrip s)) as (w & Hs & _).
    apply (space_len_app _ w) in E. rewrite <- Hs in E.
    unfold PyStr.lstrip in E. now rewrite lstrip_scan_head in E. }
  rewrite (lstrip_fixed _ H). apply rstrip_idem.
Qed.

(** A normalised e-mail address is its own normal form. *)
Lemma normal_form_idem (s : string) :
  PyStr.lower (PyStr.strip (PyStr.lower (PyStr.strip s)))
  = PyStr.lower (PyStr.strip s).
Proof. now rewrite strip_lower, strip_idem, lower_idem. Qed.

Lemma lstrip_scan_blank (k : nat) (s : string) :
  PyStr.all_space_scan k s = true -> PyStr.lstrip_scan k s = EmptyString.
Proof.
  revert k. induction s as [|c r IH]; intros k; [reflexivity|].
  destruct k as [|k]; [|exact (IH k)].
  rewrite all_space_scan_0, lstrip_scan_0.
  destruct (PyStr.space_len (String c r)); [apply IH|discriminate].
Qed.

(** A text of whitespace only is empty once trimmed. *)
Lemma strip_blank (s : string) :
  PyStr.all_space s = true -> PyStr.strip s = EmptyString.
Proof.
  intros H. unfold PyStr.strip, PyStr.lstrip.
  now rewrite (lstrip_scan_blank 0 s H).
Qed.

(** ** [str.replace] and [str.find] *)

Lemma prefix_empty (s : string) : String.prefix EmptyString s = true.
Proof. now destruct s. Qed.

Lemma prefix_cons (a b : ascii) (p s : string) :
  String.prefix (String a p) (String b s)
  = if ascii_dec a b then String.prefix p s else false.
Proof. reflexivity. Qed.

Lemma prefix_nil_r (a : ascii) (p : string) :
  String.prefix (String a p) EmptyString = false.
Proof. reflexivity. Qed.

Lemma drop_0 (s : string) : PyStr.drop 0 s = s.
Proof. now destruct s. Qed.

Lemma take_app_length (a b : string) : PyStr.take (String.length a) (a ++ b) = a.
Proof. induction a as [|c r IH]; simpl; [now destruct b|now rewrite IH]. Qed.

Lemma drop_app_length (a b : string) : PyStr.drop (String.length a) (a ++ b) = b.
Proof. induction a as [|c r IH]; simpl; [apply drop_0|exact IH]. Qed.

Lemma prefix_app (p s : string) : String.prefix p (p ++ s) = true.
Proof.
  induction p as [|c r IH]; simpl append; [apply prefix_empty|].
  rewrite prefix_cons. destruct (ascii_dec c c); [exact IH|congruence].
Qed.

Lemma replace_scan_skip (old new : string) (count : option nat)
      (k : nat) (s : string) :
  PyStr.replace_scan old new count k s
  = PyStr.replace_scan old new count 0 (PyStr.drop k s).
Proof.
  revert k. induction s as [|c r IH]; intros k.
  - now destruct k.
  - destruct k as [|k]; [reflexivity|]. simpl PyStr.drop.
    change (PyStr.replace_scan old new count (S k) (String c r))
      with (PyStr.replace_scan old new count k r).
    apply IH.
Qed.

Lemma replace_scan_exhausted (old new : string) (s : string) :
  PyStr.replace_scan old new (Some 0) 0 s = s.
Proof.
  induction s as [|c r IH]; [reflexivity|].
  simpl. now rewrite IH.
Qed.

(** With [count=1] an occurrence at the start is removed and the rest
    of the text is kept, whatever it contains. *)
Lemma replace_first_prefix (a : ascii) (old new rest : string) :
  PyStr.replace (String a old ++ rest) (String a old) new (Some 1)
  = new ++ rest.
Proof.
  unfold PyStr.replace.
  change (String a old ++ rest) with (String a (old ++ rest)).
  unfold PyStr.replace_scan; fold PyStr.replace_scan.
  change (String a (old ++ rest)) with (String a old ++ rest).
  rewrite prefix_app. simpl andb. cbv iota.
  rewrite replace_scan_skip.
  replace (String.length (String a old) - 1) with (String.length old)
    by (simpl; lia).
  simpl PyStr.one_less.
  rewrite drop_app_length. now rewrite replace_scan_exhausted.
Qed.

Lemma replace_not_found (s old new : string) (count : option nat) :
  old <> EmptyString ->
  PyStr.find s old = None -> PyStr.replace s old new count = s.
Proof.
  intros Hold. unfold PyStr.replace.
  destruct old as [|a old]; [congruence|clear Hold].
  induction s as [|c r IH]; [reflexivity|].
  unfold PyStr.find; fold PyStr.find.
  destruct (String.prefix (String a old) (String c r)) eqn:E; [discriminate|].
  destruct (PyStr.find r (String a old)) eqn:F; [discriminate|].
  intros _. unfold PyStr.replace_scan; fold PyStr.replace_scan.
  rewrite E, andb_false_r. now rewrite IH.
Qed.

Lemma replace_found (s old new : string) (i : nat) :
  old <> EmptyString ->
  PyStr.find s old = Some i ->
  PyStr.replace s old new None
  = PyStr.take i s ++ new
    ++ PyStr.replace (PyStr.drop (i + String.length old) s) old new None.
Proof.
  intros Hold. unfold PyStr.replace.
  destruct old as [|a old]; [congruence|clear Hold].
  revert i. induction s as [|c r IH]; intros i.
  - simpl. discriminate.
  - unfold PyStr.find; fold PyStr.find.
    destruct (String.prefix (String a old) (String c r)) eqn:E.
    + intros [= <-].
      unfold PyStr.replace_scan at 1; fold PyStr.replace_scan.
      rewrite E. simpl andb. cbv iota.
      rewrite replace_scan_skip.
      replace (String.length (String a old) - 1) with (String.length old)
        by (simpl; lia).
      reflexivity.
    + destruct (PyStr.find r (String a old)) as [j|] eqn:F; [|discriminate].
      intros [= <-].
      unfold PyStr.replace_scan at 1; fold PyStr.replace_scan.
      rewrite E. simpl andb. cbv iota.
      rewrite (IH j eq_refl). reflexivity.
Qed.

Lemma token_not_empty (key : string) : token key <> EmptyString.
Proof. discriminate. Qed.

(** The laws of the substitution loop. *)
Lemma substitute_nil (s : string) : substitute s [] = s.
Proof. reflexivity. Qed.

Lemma substitute_absent (s k v : string) (ctx : list (string * string)) :
  PyStr.find s (token k) = None ->
  substitute s ((k, v) :: ctx) = substitute s ctx.
Proof.
  intros H. unfold substitute. cbn [fold_left fst snd].
  now rewrite (replace_not_found _ _ _ _ (token_not_empty k) H).
Qed.

Lemma substitute_present (s k v : string) (ctx : list (string * string))
      (i : nat) :
  PyStr.find s (token k) = Some i ->
  substitute s ((k, v) :: ctx)
  = substitute (PyStr.take i s ++ v
                ++ substitute (PyStr.drop (i + String.length (token k)) s)
                              [(k, v)]) ctx.
Proof.
  intros H. unfold substitute. cbn [fold_left fst snd].
  now rewrite (replace_found _ _ _ _ (token_not_empty k) H).
Qed.

Lemma substitute_untouched (s : string) (ctx : list (string * string)) :
  (forall k v, In (k, v) ctx -> PyStr.find s (token k) = None) ->
  substitute s ctx = s.
Proof.
  induction ctx as [|[k v] ctx IH]; intros H; [reflexivity|].
  rewrite substitute_absent by (apply (H k v); now left).
  apply IH. intros k' v' Hin. apply (H k' v'). now right.
Qed.

(** ** The password hasher *)

Lemma length_of_list_ascii (l : list ascii) :
  String.length (string_of_list_ascii l) = List.length l.
Proof. induction l as [|c l IH]; simpl; [reflexivity|now rewrite IH]. Qed.

Lemma append_length (a b : string) :
  String.length (a ++ b) = String.length a + String.length b.
Proof. induction a as [|c a IH]; simpl; [reflexivity|now rewrite IH]. Qed.

Lemma be_bytes_length (n : nat) (x : Z) : List.length (Sha256.be_bytes n x) = n.
Proof.
  revert x. induction n as [|n IH]; intros x; simpl; [reflexivity|].
  rewrite length_app, IH. simpl. lia.
Qed.

Lemma sha256_length (msg : string) : String.length (Sha256.sha256 msg) = 32.
Proof.
  unfold Sha256.sha256, Sha256.string_of_bytes, Sha256.digest_bytes.
  rewrite length_of_list_ascii, length_map.
  unfold Sha256.list_of. cbn [flat_map].
  rewrite !length_app, !be_bytes_length. reflexivity.
Qed.

Lemma hmac_length (key msg : string) : String.length (Sha256.hmac key msg) = 32.
Proof. unfold Sha256.hmac. apply sha256_length. Qed.

Lemma xor_bytes_length (a b : string) :
  String.length (Sha256.xor_bytes a b)
  = Nat.min (String.length a) (String.length b).
Proof.
  revert b. induction a as [|x a IH]; intros [|y b]; simpl; try reflexivity.
  now rewrite IH.
Qed.

Lemma pbkdf2_step_length (password : string) (st : string * string) :
  String.length (snd st) = 32 ->
  String.length (snd (Sha256.pbkdf2_step password st)) = 32.
Proof.
  intros H. unfold Sha256.pbkdf2_step. cbn [snd].
  now rewrite xor_bytes_length, H, hmac_length.
Qed.

(** The derived key has the size of a SHA-256 digest for every
    iteration count. *)
Lemma pbkdf2_hmac_length (password salt : string) (iterations : N) :
  String.length (Sha256.pbkdf2_hmac password salt iterations) = 32.
Proof.
  unfold Sha256.pbkdf2_hmac.
  apply (N.iter_invariant (iterations - 1) _ (Sha256.pbkdf2_step password)
           (fun st => String.length (snd st) = 32)).
  - intros st. apply pbkdf2_step_length.
  - apply hmac_length.
Qed.

Lemma hex_byte_lower (c : ascii) : all_chars is_lower_hex (Url.hex_byte false c) = true.
Proof. each_char c. Qed.

Lemma all_chars_app (p : ascii -> bool) (a b : string) :
  all_chars p (a ++ b) = all_chars p a && all_chars p b.
Proof.
  induction a as [|c a IH]; simpl; [reflexivity|].
  now rewrite IH, andb_assoc.
Qed.

Lemma hex_lower (b : string) : all_chars is_lower_hex (Sha256.hex b) = true.
Proof.
  induction b as [|c b IH]; [reflexivity|].
  cbn [Sha256.hex]. now rewrite all_chars_app, hex_byte_lower, IH.
Qed.

Lemma hex_length (b : string) :
  String.length (Sha256.hex b) = 2 * String.length b.
Proof.
  induction b as [|c b IH]; [reflexivity|].
  cbn [Sha256.hex]. rewrite append_length, IH. simpl. lia.
Qed.

Lemma token_bytes_length (n : nat) (w : World) :
  exists b, token_bytes n w = (Ok b, set_entropy_pos w (entropy_pos w + n))
            /\ String.length b = n.
Proof.
  eexists. split; [reflexivity|].
  now rewrite length_of_list_ascii, length_map, length_seq.
Qed.

#[global] Opaque Sha256.pbkdf2_hmac.

(** C5. [hash_password] with a supplied salt is a function of the
    password and the salt alone: two invocations with the same
    password and the same salt give the same outcome (the same pair of
    hash and salt, or the same [ValueError] for a salt that is not
    hexadecimal), whatever the state of the world at each call, and
    neither call changes the world. *)
Theorem hash_password_deterministic :
  forall (password salt : string) (w1 w2 : World),
    fst (hash_password password (Some salt) w1)
    = fst (hash_password password (Some salt) w2)
    /\ snd (hash_password password (Some salt) w1) = w1
    /\ snd (hash_password password (Some salt) w2) = w2.
Proof.
  intros password salt w1 w2.
  unfold hash_password, bind, ret, raise.
  destruct (Sha256.fromhex salt) as [b|]; cbn; auto.
Qed.

(** C6. [hash_password] derives the key with PBKDF2 over HMAC-SHA-256
    with 100000 iterations; the key has 32 bytes; the returned hash is
    64 lowercase hexadecimal characters.  Without a supplied salt the
    salt is the next 16 bytes of the entropy source, returned as 32
    lowercase hexadecimal characters; a supplied salt is returned as
    the lowercase hexadecimal text of its bytes, 32 characters for 16
    bytes. *)
Theorem hash_password_shape :
  forall (password : string) (w : World),
    (100000 <= ITERATIONS)%N
    /\ (exists salt_bytes,
           String.length salt_bytes = 16
           /\ salt_bytes = string_of_list_ascii
                             (map (entropy w) (seq (entropy_pos w) 16))
           /\ entropy_pos (snd (hash_password password None w))
              = entropy_pos w + 16
           /\ fst (hash_password password None w)
              = Ok (Sha256.hex (Sha256.pbkdf2_hmac password salt_bytes ITERATIONS),
                    Sha256.hex salt_bytes)
           /\ String.length (Sha256.hex salt_bytes) = 32
           /\ all_chars is_lower_hex (Sha256.hex salt_bytes) = true)
    /\ (forall salt_bytes,
           let key := Sha256.pbkdf2_hmac password salt_bytes ITERATIONS in
           String.length key = 32
           /\ String.length (Sha256.hex key) = 64
           /\ all_chars is_lower_hex (Sha256.hex key) = true)
    /\ (forall salt salt_bytes,
           Sha256.fromhex salt = Some salt_bytes ->
           fst (hash_password password (Some salt) w)
           = Ok (Sha256.hex (Sha256.pbkdf2_hmac password salt_bytes ITERATIONS),
                 Sha256.hex salt_bytes)
           /\ String.length (Sha256.hex salt_bytes)
              = 2 * String.length salt_bytes
           /\ all_chars is_lower_hex (Sha256.hex salt_bytes) = true).
Proof.
  intros password w. split; [|split; [|split]].
  - unfold ITERATIONS. lia.
  - destruct (token_bytes_length 16 w) as (b & Hb & Hlen).
    exists b. split; [exact Hlen|].
    assert (Hval : b = string_of_list_ascii
                         (map (entropy w) (seq (entropy_pos w) 16)))
      by (unfold token_bytes in Hb; congruence).
    split; [exact Hval|].
    unfold hash_password, bind, ret. rewrite Hb. cbn [fst snd].
    split; [reflexivity|]. split; [reflexivity|]. split.
    + now rewrite hex_length, Hlen.
    + apply hex_lower.
  - intros salt_bytes key. subst key.
    rewrite hex_length, pbkdf2_hmac_length.
    split; [reflexivity|]. split; [reflexivity|]. apply hex_lower.
  - intros salt salt_bytes H.
    unfold hash_password, bind, ret. rewrite H. cbn [fst].
    split; [reflexivity|]. split; [apply hex_length|apply hex_lower].
Qed.

(** ** Logging and redirects *)

Lemma log_message_ok (req : Request) (line : string) (w : World) :
  server_log w <> None ->
  log_message req line w = (Ok tt, logged req line w).
Proof.
  intros H. unfold log_message, logged, bind, utcnow, append_log.
  cbn [server_log set_clock_pos clock clock_pos].
  destruct (server_log w); [reflexivity|congruence].
Qed.

Lemma log_message_fail (req : Request) (line : string) (w : World) :
  server_log w = None ->
  log_message req line w = (Raise OSError, logged req line w).
Proof.
  intros H. unfold log_message, logged, bind, utcnow, append_log.
  cbn [server_log set_clock_pos clock clock_pos]. rewrite H.
  destruct w; cbn in *. now subst.
Qed.

Lemma logged_db (req : Request) (line : string) (w : World) :
  db (logged req line w) = db w.
Proof. reflexivity. Qed.

Lemma logged_log_none (req : Request) (line : string) (w : World) :
  server_log w = None -> server_log (logged req line w) = None.
Proof. intros H. unfold logged. cbn. now rewrite H. Qed.

Lemma logged_log_some (req : Request) (line : string) (w : World) :
  server_log w <> None -> server_log (logged req line w) <> None.
Proof. intros H. unfold logged. cbn. destruct (server_log w); congruence. Qed.

Lemma redirect_ok (req : Request) (message level : string) (w : World) :
  server_log w <> None ->
  redirect_with_message req message level w
  = (Ok (Sent 303 [("Location", location message level)] ""),
     logged req (request_log_line req 303) w).
Proof.
  intros H. unfold redirect_with_message, send_response, log_request, bind.
  fold (request_log_line req 303).
  now rewrite (log_message_ok _ _ _ H).
Qed.

Lemma redirect_fail (req : Request) (message level : string) (w : World) :
  server_log w = None ->
  redirect_with_message req message level w
  = (Raise OSError, logged req (request_log_line req 303) w).
Proof.
  intros H. unfold redirect_with_message, send_response, log_request, bind.
  fold (request_log_line req 303).
  now rewrite (log_message_fail _ _ _ H).
Qed.

Lemma redirect_db (req : Request) (message level : string) (w : World) :
  db (snd (redirect_with_message req message level w)) = db w.
Proof.
  destruct (server_log w) eqn:E.
  - rewrite redirect_ok by congruence. reflexivity.
  - rewrite redirect_fail by assumption. reflexivity.
Qed.

(** ** Validation *)

Lemma validation_errors_nil (n e p r : string) :
  validation_errors n e p r = []
  <-> PyStr.is_empty n = false /\ PyStr.is_empty e = false
      /\ PyStr.is_empty p = false /\ valid_role r = true.
Proof.
  unfold validation_errors.
  destruct (PyStr.is_empty n), (PyStr.is_empty e), (PyStr.is_empty p),
    (valid_role r); cbn; split; intros H; try discriminate;
    try (destruct H as (? & ? & ? & ?); discriminate); auto.
Qed.

Lemma form_of_valid (req : Request) :
  Utf8.valid (request_body req) = true ->
  form_of req = Url.parse_qs (request_body req).
Proof. intros H. unfold form_of. now rewrite H. Qed.

(** A body that does not decode has no fields, and the handler ends
    when it reads it. *)
Lemma errors_undecodable (req : Request) :
  Utf8.valid (request_body req) = false -> errors_of req <> [].
Proof.
  intros H. unfold errors_of, name_of, email_of, password_of, role_of, form_of.
  rewrite H. discriminate.
Qed.

Lemma errors_valid (req : Request) :
  errors_of req = [] -> Utf8.valid (request_body req) = true.
Proof.
  intros H. destruct (Utf8.valid (request_body req)) eqn:E; [reflexivity|].
  now destruct (errors_undecodable req E).
Qed.

Lemma handle_register_undecodable (req : Request) (w : World) :
  Utf8.valid (request_body req) = false ->
  handle_register req w = (Raise UnicodeDecodeError, w).
Proof.
  intros H. unfold handle_register, bind, decode. now rewrite H.
Qed.

(** With validation errors the handler is the redirect that carries
    them. *)
Lemma handle_register_invalid (req : Request) (w : World) :
  Utf8.valid (request_body req) = true ->
  errors_of req <> [] ->
  handle_register req w
  = redirect_with_message req (PyStr.join " " (errors_of req)) "error" w.
Proof.
  intros Hv H. unfold handle_register. unfold bind at 1. unfold decode.
  rewrite Hv. unfold ret at 1. cbv beta iota zeta.
  rewrite <- (form_of_valid req Hv).
  fold (name_of req) (email_of req) (password_of req) (role_of req).
  fold (errors_of req).
  destruct (errors_of req); [congruence|reflexivity].
Qed.

(** Without validation errors the handler hashes the password with a
    fresh salt, reads the clock and inserts; the outcome depends on the
    e-mail address being in the table. *)
Lemma handle_register_valid (req : Request) (w : World) :
  errors_of req = [] ->
  let w1 := set_clock_pos (set_entropy_pos w (entropy_pos w + 16))
                          (S (clock_pos w)) in
  handle_register req w
  = if email_taken (email_of req) (users (db w))
    then redirect_with_message req "That email is already registered."
                               "error" w1
    else redirect_with_message req "Registration successful!" "success"
           (set_db w1 (mkStore (users (db w) ++ [new_user req w])%list
                               (next_id (db w)))).
Proof.
  intros H. pose proof (errors_valid req H) as Hv.
  pose proof H as Hr. unfold errors_of in Hr.
  apply validation_errors_nil in Hr as (_ & _ & _ & Hrole).
  unfold handle_register. unfold bind at 1. unfold decode.
  rewrite Hv. unfold ret at 1. cbv beta iota zeta.
  rewrite <- (form_of_valid req Hv).
  fold (name_of req) (email_of req) (password_of req) (role_of req).
  fold (errors_of req). rewrite H.
  unfold bind at 1. unfold hash_password, bind, ret, token_bytes.
  unfold catch, utcnow, insert_user.
  cbn [fst snd db set_clock_pos set_entropy_pos users clock clock_pos
       entropy entropy_pos].
  rewrite Hrole. cbn [negb].
  destruct (email_taken (email_of req) (users (db w))) eqn:E.
  - destruct (redirect_with_message req "That email is already registered."
                "error" _) as [[r|e] w'] eqn:R; reflexivity.
  - reflexivity.
Qed.

Lemma send_error_ok (req : Request) (code : nat) (message : string) (w : World) :
  server_log w <> None ->
  exists w', send_error req code message w = (Ok (ErrorPage code message), w')
             /\ db w' = db w.
Proof.
  intros H. unfold send_error, send_response, log_request, bind.
  rewrite (log_message_ok _ _ _ H).
  rewrite (log_message_ok _ _ _ (logged_log_some _ _ _ H)).
  eexists. split; reflexivity.
Qed.

Lemma send_error_fail (req : Request) (code : nat) (message : string) (w : World) :
  server_log w = None ->
  exists w', send_error req code message w = (Raise OSError, w') /\ db w' = db w.
Proof.
  intros H. unfold send_error, bind.
  rewrite (log_message_fail _ _ _ H). eexists. split; reflexivity.
Qed.

Lemma send_error_db (req : Request) (code : nat) (message : string) (w : World) :
  db (snd (send_error req code message w)) = db w.
Proof.
  destruct (server_log w) eqn:E.
  - destruct (send_error_ok req code message w) as (w' & -> & H);
      [congruence|exact H].
  - destruct (send_error_fail req code message w E) as (w' & -> & H). exact H.
Qed.

Lemma send_response_db (req : Request) (code : nat) (w : World) :
  db (snd (send_response req code w)) = db w.
Proof.
  unfold send_response, log_request.
  destruct (server_log w) eqn:E.
  - rewrite log_message_ok by congruence. reflexivity.
  - rewrite log_message_fail by assumption. reflexivity.
Qed.

(** ** The table under the handlers *)

Lemma handle_register_invalid_db (req : Request) (w : World) :
  errors_of req <> [] -> db (snd (handle_register req w)) = db w.
Proof.
  intros H. destruct (Utf8.valid (request_body req)) eqn:E.
  - rewrite handle_register_invalid by assumption. apply redirect_db.
  - now rewrite handle_register_undecodable.
Qed.

Lemma emails_normalized_app (st : Store) (u : User) (i : Z) :
  emails_normalized st ->
  PyStr.lower (PyStr.strip (email u)) = email u ->
  emails_normalized (mkStore (users st ++ [u])%list i).
Proof.
  unfold emails_normalized. cbn [users]. intros H Hu.
  apply Forall_app. split; [exact H|]. now constructor.
Qed.

Lemma handle_register_normalized (req : Request) (w : World) :
  emails_normalized (db w) ->
  emails_normalized (db (snd (handle_register req w))).
Proof.
  intros H. destruct (errors_of req) eqn:E.
  - rewrite (handle_register_valid req w E). cbv zeta.
    destruct (email_taken _ _); rewrite redirect_db; cbn [db set_db
      set_clock_pos set_entropy_pos]; [exact H|].
    apply emails_normalized_app; [exact H|].
    cbn [email new_user]. unfold email_of. apply normal_form_idem.
  - rewrite handle_register_invalid_db by congruence. exact H.
Qed.

Lemma do_POST_normalized (req : Request) (w : World) :
  emails_normalized (db w) -> emails_normalized (db (snd (do_POST req w))).
Proof.
  intros H. unfold do_POST. destruct (String.eqb (path req) "/register").
  - now apply handle_register_normalized.
  - now rewrite send_error_db.
Qed.

Lemma bind_db {A B} (c : M A) (k : A -> M B) (w : World) :
  db (snd (c w)) = db w ->
  (forall a w', db (snd (k a w')) = db w') ->
  db (snd (bind c k w)) = db w.
Proof.
  intros Hc Hk. unfold bind. destruct (c w) as [[a|e] w'] eqn:E; cbn in *.
  - now rewrite Hk.
  - exact Hc.
Qed.

Lemma item0_db (l : list string) (w : World) : db (snd (item0 l w)) = db w.
Proof. now destruct l. Qed.

Lemma read_file_db (p : Lib.Path) (w : World) : db (snd (read_file p w)) = db w.
Proof. unfold read_file. now destruct (Lib.stat _ _) as [[]|]. Qed.

Lemma read_text_world (p : Lib.Path) (w w' : World) (r : Result string) :
  read_text p w = (r, w') -> w' = w.
Proof.
  unfold read_text, bind, read_file, decode.
  destruct (Lib.stat _ _) as [[content|]|]; [|now intros [= _ <-]..].
  destruct (Utf8.valid content); now intros [= _ <-].
Qed.

Lemma read_text_db (p : Lib.Path) (w : World) : db (snd (read_text p w)) = db w.
Proof.
  destruct (read_text p w) as [r w'] eqn:E.
  apply read_text_world in E. now subst.
Qed.

Lemma serve_index_db (req : Request) (w : World) :
  db (snd (serve_index req w)) = db w.
Proof.
  unfold serve_index.
  apply bind_db; [apply item0_db|intros message w1].
  apply bind_db; [apply item0_db|intros level w2].
  apply bind_db.
  - unfold render_template, load_template.
    apply bind_db; [apply read_text_db|reflexivity].
  - intros content w3. apply bind_db; [apply send_response_db|reflexivity].
Qed.

Lemma serve_users_db (req : Request) (w : World) :
  db (snd (serve_users req w)) = db w.
Proof.
  unfold serve_users. apply bind_db; [reflexivity|intros rows w1].
  apply bind_db; [apply send_response_db|reflexivity].
Qed.

Lemma serve_static_db (req : Request) (w : World) :
  db (snd (serve_static req w)) = db w.
Proof.
  unfold serve_static. destruct (Lib.is_file _ _).
  - apply bind_db; [apply read_file_db|intros content w1].
    apply bind_db; [apply send_response_db|reflexivity].
  - apply send_error_db.
Qed.

(** No GET request changes the table. *)
Lemma do_GET_db (req : Request) (w : World) : db (snd (do_GET req w)) = db w.
Proof.
  unfold do_GET.
  destruct (_ || _); [apply serve_index_db|].
  destruct (PyStr.startswith _ "/users"); [apply serve_users_db|].
  destruct (PyStr.startswith _ "/static/"); [apply serve_static_db|].
  apply send_error_db.
Qed.

(** Every store the program reaches holds normalised e-mail addresses. *)
Lemma reachable_normalized (st : Store) : reachable st -> emails_normalized st.
Proof.
  induction 1 as [|req w _ IH|req w _ IH].
  - constructor.
  - now rewrite do_GET_db.
  - now apply do_POST_normalized.
Qed.

Lemma taken_of_case_equal (st : Store) (u : User) (raw : string) :
  emails_normalized st -> In u (users st) ->
  PyStr.lower (email u) = PyStr.lower raw ->
  email_taken (PyStr.lower (PyStr.strip raw)) (users st) = true.
Proof.
  intros Hn Hin Heq. unfold email_taken. apply existsb_exists.
  exists u. split; [exact Hin|]. apply String.eqb_eq.
  unfold emails_normalized in Hn. rewrite Forall_forall in Hn.
  rewrite <- strip_lower, <- Heq, strip_lower. symmetry. now apply Hn.
Qed.

(** ** Registration *)

Lemma do_POST_register (req : Request) (w : World) :
  path req = "/register" -> do_POST req w = handle_register req w.
Proof. intros H. unfold do_POST. now rewrite H. Qed.

Lemma take_length (s : string) : PyStr.take (String.length s) s = s.
Proof. induction s as [|c r IH]; simpl; [reflexivity|now rewrite IH]. Qed.

Lemma post_body (body : string) : request_body (post body) = body.
Proof. unfold request_body, post. cbn. apply take_length. Qed.

(** C2. A POST to [/register] whose body decodes and whose fields
    fail validation collects every applicable message, in the order
    name, e-mail, password, role, and joins them with single spaces.
    The table is left as it was.  When the request log can be written
    the response is a 303 whose [Location] is
    [/?message=<quoted message>&level=error], and the index page reads
    that message and that level back from it.  With an empty name and
    an empty password the message contains both ["Name is required."]
    and ["Password is required."]. *)
Theorem register_reports_all_errors :
  forall (req : Request) (w : World),
    path req = "/register" ->
    Utf8.valid (request_body req) = true ->
    errors_of req <> [] ->
    let message := PyStr.join " " (errors_of req) in
    errors_of req
    = map snd
        (filter fst
           [(PyStr.is_empty (name_of req), "Name is required.");
            (PyStr.is_empty (email_of req), "Email is required.");
            (PyStr.is_empty (password_of req), "Password is required.");
            (negb (valid_role (role_of req)),
             "Role must be 'admin' or 'user'.")])
    /\ db (snd (do_POST req w)) = db w
    /\ (server_log w <> None ->
        fst (do_POST req w)
        = Ok (Sent 303 [("Location",
                         "/?message=" ++ Url.quote_plus message
                         ++ "&level=error")] ""))
    /\ (let query := Url.parse_qs
                       (PyStr.partition_tail "?" (location message "error")) in
        get_default query "message" [""] = [message]
        /\ get_default query "level" ["info"] = ["error"])
    /\ (PyStr.is_empty (name_of req) = true ->
        PyStr.is_empty (password_of req) = true ->
        PyStr.contains message "Name is required." = true
        /\ PyStr.contains message "Password is required." = true).
Proof.
  intros req w Hpath Hv Herr message.
  rewrite (do_POST_register _ _ Hpath).
  split; [|split; [|split; [|split]]].
  - unfold errors_of, validation_errors.
    destruct (PyStr.is_empty (name_of req)), (PyStr.is_empty (email_of req)),
      (PyStr.is_empty (password_of req)), (valid_role (role_of req));
      reflexivity.
  - now apply handle_register_invalid_db.
  - intros Hlog. rewrite handle_register_invalid by assumption.
    rewrite redirect_ok by assumption. reflexivity.
  - subst message. revert Herr. unfold errors_of, validation_errors.
    destruct (PyStr.is_empty (name_of req)), (PyStr.is_empty (email_of req)),
      (PyStr.is_empty (password_of req)), (valid_role (role_of req));
      intros Herr; try (exfalso; apply Herr; reflexivity);
      vm_compute; split; reflexivity.
  - intros Hn Hp. subst message. unfold errors_of, validation_errors.
    rewrite Hn, Hp.
    destruct (PyStr.is_empty (email_of req)), (valid_role (role_of req));
      vm_compute; split; reflexivity.
Qed.

(** The name of the request is one no-break space, U+00A0, and its
    password is missing. *)
Lemma register_reports_all_errors_witness :
  let req := post "name=%C2%A0&email=a%40b.c&password=&role=user" in
  let w := sample_world [] (Some "") in
  path req = "/register"
  /\ Utf8.valid (request_body req) = true
  /\ errors_of req <> []
  /\ db (snd (do_POST req w)) = db w
  /\ fst (do_POST req w)
     = Ok (Sent 303 [("Location",
                      "/?message=Name+is+required.+Password+is+required.&level=error")]
                "").
Proof.
  intros req w.
  assert (Hp : path req = "/register") by reflexivity.
  assert (Hv : Utf8.valid (request_body req) = true) by (vm_compute; reflexivity).
  assert (He : errors_of req <> []) by (vm_compute; discriminate).
  destruct (register_reports_all_errors req w Hp Hv He) as (_ & Hdb & Hresp & _).
  split; [exact Hp|]. split; [exact Hv|]. split; [exact He|].
  split; [exact Hdb|].
  rewrite Hresp by (cbn; discriminate). vm_compute. reflexivity.
Defined.

Lemma taken_of_normal_form (st : Store) (u : User) (e : string) :
  In u (users st) -> email u = e -> email_taken e (users st) = true.
Proof.
  intros Hin He. unfold email_taken. apply existsb_exists.
  exists u. split; [exact Hin|]. now apply String.eqb_eq.
Qed.

(** A valid registration of an address that is not in the table. *)
Lemma register_fresh (req : Request) (w : World) :
  errors_of req = [] -> server_log w <> None ->
  email_taken (email_of req) (users (db w)) = false ->
  exists w',
    handle_register req w
    = (Ok (Sent 303 [("Location",
                      "/?message=Registration+successful%21&level=success")] ""),
       w')
    /\ db w' = mkStore (users (db w) ++ [new_user req w])%list (next_id (db w))
    /\ server_log w' <> None.
Proof.
  intros Herr Hlog Hfree.
  rewrite (handle_register_valid req w Herr). cbv zeta. rewrite Hfree.
  rewrite redirect_ok by exact Hlog.
  eexists. split; [reflexivity|]. split; [reflexivity|].
  apply logged_log_some. exact Hlog.
Qed.

(** A valid registration of an address that is in the table. *)
Lemma register_taken (req : Request) (w : World) :
  errors_of req = [] -> server_log w <> None ->
  email_taken (email_of req) (users (db w)) = true ->
  exists w',
    handle_register req w
    = (Ok (Sent 303 [("Location",
                      "/?message=That+email+is+already+registered.&level=error")]
                ""), w')
    /\ db w' = db w.
Proof.
  intros Herr Hlog Htaken.
  rewrite (handle_register_valid req w Herr). cbv zeta. rewrite Htaken.
  rewrite redirect_ok by exact Hlog.
  eexists. split; reflexivity.
Qed.

(** C1. For a POST to [/register] whose body decodes and whose fields
    are valid, on a table the program has reached from [init_db] and
    with a writable request log: when the normalised address is ASCII
    and not in the table the registration succeeds and appends exactly
    one row, whose address is the trimmed, lowercased field; when the
    address field equals the address of a stored row up to ASCII case
    the response is the 303 redirect with
    ["That email is already registered."] and [level=error] and the
    table is unchanged; so a second valid registration whose address
    differs from the first one's in ASCII case only fails after the
    first succeeded. *)
Theorem register_email_unique :
  forall (req : Request) (w : World),
    path req = "/register" ->
    Utf8.valid (request_body req) = true ->
    errors_of req = [] ->
    reachable (db w) ->
    server_log w <> None ->
    (Utf8.is_ascii (email_of req) = true ->
     email_taken (email_of req) (users (db w)) = false ->
     fst (do_POST req w)
     = Ok (Sent 303 [("Location",
                      "/?message=Registration+successful%21&level=success")] "")
     /\ users (db (snd (do_POST req w)))
        = (users (db w) ++ [new_user req w])%list
     /\ email (new_user req w)
        = PyStr.lower (PyStr.strip (field (form_of req) "email")))
    /\ (forall u,
           In u (users (db w)) ->
           PyStr.lower (email u) = PyStr.lower (field (form_of req) "email") ->
           fst (do_POST req w)
           = Ok (Sent 303 [("Location",
                            "/?message=That+email+is+already+registered.&level=error")]
                      "")
           /\ db (snd (do_POST req w)) = db w)
    /\ (forall req2,
           Utf8.is_ascii (email_of req) = true ->
           email_taken (email_of req) (users (db w)) = false ->
           path req2 = "/register" ->
           Utf8.valid (request_body req2) = true ->
           errors_of req2 = [] ->
           PyStr.lower (field (form_of req2) "email")
           = PyStr.lower (field (form_of req) "email") ->
           let w1 := snd (do_POST req w) in
           fst (do_POST req2 w1)
           = Ok (Sent 303 [("Location",
                            "/?message=That+email+is+already+registered.&level=error")]
                      "")
           /\ db (snd (do_POST req2 w1)) = db w1).
Proof.
  intros req w Hpath _ Herr Hreach Hlog.
  pose proof (reachable_normalized _ Hreach) as Hnorm.
  rewrite (do_POST_register _ _ Hpath).
  split; [|split].
  - intros _ Hfree.
    destruct (register_fresh req w Herr Hlog Hfree) as (w' & Hrun & Hdb & _).
    rewrite Hrun. cbn [fst snd]. rewrite Hdb. cbn [users].
    split; [reflexivity|]. split; reflexivity.
  - intros u Hin Hcase.
    assert (Htaken : email_taken (email_of req) (users (db w)) = true)
      by (unfold email_of; now apply (taken_of_case_equal _ u)).
    destruct (register_taken req w Herr Hlog Htaken) as (w' & Hrun & Hdb).
    rewrite Hrun. now split.
  - intros req2 _ Hfree Hpath2 _ Herr2 Hcase w1. subst w1.
    rewrite (do_POST_register _ _ Hpath2).
    destruct (register_fresh req w Herr Hlog Hfree) as (w' & Hrun & Hdb & Hlog').
    rewrite Hrun. cbn [snd].
    assert (Htaken : email_taken (email_of req2) (users (db w')) = true).
    { apply (taken_of_normal_form _ (new_user req w)).
      - rewrite Hdb. cbn [users]. apply in_or_app. right. now left.
      - cbn [email new_user]. unfold email_of.
        now rewrite <- !strip_lower, Hcase. }
    destruct (register_taken req2 w' Herr2 Hlog' Htaken) as (w'' & Hrun2 & Hdb2).
    rewrite Hrun2. now split.
Qed.

(** The first request puts a no-break space, U+00A0, after its role;
    the second repeats the address in capitals. *)
Lemma register_email_unique_witness :
  let first :=
    post "name=Alice&email=Alice%40Test.com&password=secret&role=User%C2%A0" in
  let second := post "name=Al&email=ALICE%40TEST.COM&password=pw&role=admin" in
  let w := sample_world [] (Some "") in
  (path first = "/register" /\ Utf8.valid (request_body first) = true
   /\ errors_of first = [] /\ reachable (db w) /\ server_log w <> None)
  /\ (Utf8.is_ascii (email_of first) = true
      /\ email_taken (email_of first) (users (db w)) = false
      /\ path second = "/register" /\ Utf8.valid (request_body second) = true
      /\ errors_of second = []
      /\ PyStr.lower (field (form_of second) "email")
         = PyStr.lower (field (form_of first) "email"))
  /\ fst (do_POST second (snd (do_POST first w)))
     = Ok (Sent 303 [("Location",
                      "/?message=That+email+is+already+registered.&level=error")]
                "")
  /\ db (snd (do_POST second (snd (do_POST first w))))
     = db (snd (do_POST first w)).
Proof.
  intros first second w.
  assert (Hp : path first = "/register") by reflexivity.
  assert (Hv : Utf8.valid (request_body first) = true)
    by (vm_compute; reflexivity).
  assert (He : errors_of first = []) by (vm_compute; reflexivity).
  assert (Hr : reachable (db w)) by exact reach_init.
  assert (Hl : server_log w <> None) by (cbn; discriminate).
  assert (Ha : Utf8.is_ascii (email_of first) = true)
    by (vm_compute; reflexivity).
  assert (Hfree : email_taken (email_of first) (users (db w)) = false)
    by (vm_compute; reflexivity).
  assert (Hp2 : path second = "/register") by reflexivity.
  assert (Hv2 : Utf8.valid (request_body second) = true)
    by (vm_compute; reflexivity).
  assert (He2 : errors_of second = []) by (vm_compute; reflexivity).
  assert (Hcase : PyStr.lower (field (form_of second) "email")
                  = PyStr.lower (field (form_of first) "email")).
  2: { split; [split; [exact Hp|split; [exact Hv|split; [exact He|
         split; [exact Hr|exact Hl]]]]|].
       split; [split; [exact Ha|split; [exact Hfree|split; [exact Hp2|
         split; [exact Hv2|split; [exact He2|exact Hcase]]]]]|].
       exact (proj2 (proj2 (register_email_unique first w Hp Hv He Hr Hl))
                    second Ha Hfree Hp2 Hv2 He2 Hcase). }
  vm_compute. reflexivity.
Defined.

(** C3. A POST to [/register] whose body is
    [name=Alice&email=Alice@Test.com&password=secret&role=User], on a
    table without the address [alice@test.com] and with a writable
    request log, appends one row whose name is [Alice], whose address
    is [alice@test.com] and whose role is [user], and answers 303 with
    the [Location] [/?message=Registration+successful%21&level=success]. *)
Theorem register_alice :
  forall (req : Request) (w : World),
    path req = "/register" ->
    request_body req
    = "name=Alice&email=Alice@Test.com&password=secret&role=User" ->
    email_taken "alice@test.com" (users (db w)) = false ->
    server_log w <> None ->
    fst (do_POST req w)
    = Ok (Sent 303 [("Location",
                     "/?message=Registration+successful%21&level=success")] "")
    /\ exists u,
         users (db (snd (do_POST req w))) = (users (db w) ++ [u])%list
         /\ name u = "Alice" /\ email u = "alice@test.com" /\ role u = "user"
         /\ password_hash u
            = Sha256.hex (Sha256.pbkdf2_hmac "secret" (fresh_salt w) ITERATIONS)
         /\ password_salt u = Sha256.hex (fresh_salt w)
         /\ created_at u = Lib.isoformat (clock w (clock_pos w)).
Proof.
  intros req w Hpath Hbody Hfree Hlog.
  assert (Hform : form_of req
                  = [("name", ["Alice"]); ("email", ["Alice@Test.com"]);
                     ("password", ["secret"]); ("role", ["User"])])
    by (unfold form_of; rewrite Hbody; reflexivity).
  assert (Hn : name_of req = "Alice")
    by (unfold name_of; rewrite Hform; reflexivity).
  assert (He : email_of req = "alice@test.com")
    by (unfold email_of; rewrite Hform; reflexivity).
  assert (Hpw : password_of req = "secret")
    by (unfold password_of; rewrite Hform; reflexivity).
  assert (Hr : role_of req = "user")
    by (unfold role_of; rewrite Hform; reflexivity).
  assert (Herr : errors_of req = [])
    by (unfold errors_of; rewrite Hn, He, Hpw, Hr; reflexivity).
  rewrite (do_POST_register _ _ Hpath).
  rewrite <- He in Hfree.
  destruct (register_fresh req w Herr Hlog Hfree) as (w' & Hrun & Hdb & _).
  rewrite Hrun. cbn [fst snd]. split; [reflexivity|].
  exists (new_user req w). rewrite Hdb. cbn [users].
  unfold new_user. cbn [name email role password_hash password_salt created_at].
  rewrite Hn, He, Hpw, Hr. repeat split.
Qed.

Lemma register_alice_witness :
  let req := post "name=Alice&email=Alice@Test.com&password=secret&role=User" in
  let w := sample_world [bob] (Some "") in
  (path req = "/register"
   /\ request_body req
      = "name=Alice&email=Alice@Test.com&password=secret&role=User"
   /\ email_taken "alice@test.com" (users (db w)) = false
   /\ server_log w <> None)
  /\ fst (do_POST req w)
     = Ok (Sent 303 [("Location",
                      "/?message=Registration+successful%21&level=success")] "").
Proof.
  intros req w.
  assert (Hp : path req = "/register") by reflexivity.
  assert (Hb : request_body req
               = "name=Alice&email=Alice@Test.com&password=secret&role=User")
    by reflexivity.
  assert (Hf : email_taken "alice@test.com" (users (db w)) = false)
    by reflexivity.
  assert (Hl : server_log w <> None) by (cbn; discriminate).
  split; [now repeat split|].
  exact (proj1 (register_alice req w Hp Hb Hf Hl)).
Defined.

Lemma is_empty_false (s : string) : s <> EmptyString -> PyStr.is_empty s = false.
Proof. destruct s; [congruence|reflexivity]. Qed.

(** C10. For a POST to [/register] whose body decodes: the name is
    trimmed before the emptiness check and the password is not.  A
    request whose name field holds only whitespace, as [str.strip]
    knows it, gets ["Name is required."] among its errors, in the
    message of the 303 redirect, and nothing is stored.  A request
    whose password holds only whitespace, and is not empty, gets no
    password error; when its other fields are valid and its address is
    ASCII and new, the row is stored with the PBKDF2 key of the
    password field as it was sent. *)
Theorem name_trimmed_password_verbatim :
  forall (req : Request) (w : World),
    path req = "/register" ->
    Utf8.valid (request_body req) = true ->
    server_log w <> None ->
    (PyStr.all_space (field (form_of req) "name") = true ->
     In "Name is required." (errors_of req)
     /\ PyStr.contains (PyStr.join " " (errors_of req)) "Name is required."
        = true
     /\ fst (do_POST req w)
        = Ok (Sent 303 [("Location",
                         location (PyStr.join " " (errors_of req)) "error")] "")
     /\ db (snd (do_POST req w)) = db w)
    /\ (PyStr.all_space (field (form_of req) "password") = true ->
        field (form_of req) "password" <> EmptyString ->
        ~ In "Password is required." (errors_of req)
        /\ (PyStr.is_empty (name_of req) = false ->
            PyStr.is_empty (email_of req) = false ->
            valid_role (role_of req) = true ->
            Utf8.is_ascii (email_of req) = true ->
            email_taken (email_of req) (users (db w)) = false ->
            fst (do_POST req w)
            = Ok (Sent 303 [("Location",
                             "/?message=Registration+successful%21&level=success")]
                       "")
            /\ exists u,
                 users (db (snd (do_POST req w))) = (users (db w) ++ [u])%list
                 /\ password_hash u
                    = Sha256.hex (Sha256.pbkdf2_hmac
                                    (field (form_of req) "password")
                                    (fresh_salt w) ITERATIONS))).
Proof.
  intros req w Hpath Hv Hlog. rewrite (do_POST_register _ _ Hpath). split.
  - intros Hblank.
    assert (Hname : PyStr.is_empty (name_of req) = true)
      by (unfold name_of; now rewrite strip_blank).
    assert (Herr : errors_of req <> [])
      by (unfold errors_of, validation_errors; rewrite Hname; discriminate).
    split; [|split; [|split]].
    + unfold errors_of, validation_errors. rewrite Hname. now left.
    + unfold errors_of, validation_errors. rewrite Hname.
      destruct (PyStr.is_empty (email_of req)),
        (PyStr.is_empty (password_of req)), (valid_role (role_of req));
        vm_compute; reflexivity.
    + rewrite handle_register_invalid by assumption.
      now rewrite redirect_ok by exact Hlog.
    + now apply handle_register_invalid_db.
  - intros _ Hne.
    assert (Hpw : PyStr.is_empty (password_of req) = false)
      by (unfold password_of; now apply is_empty_false).
    split.
    + unfold errors_of, validation_errors. rewrite Hpw.
      destruct (PyStr.is_empty (name_of req)), (PyStr.is_empty (email_of req)),
        (valid_role (role_of req)); cbn; intros H;
        repeat (destruct H as [H|H]; [discriminate H|]); exact H.
    + intros Hn He Hr _ Hfree.
      assert (Herr : errors_of req = [])
        by (apply validation_errors_nil; now repeat split).
      destruct (register_fresh req w Herr Hlog Hfree) as (w' & Hrun & Hdb & _).
      rewrite Hrun. cbn [fst snd]. split; [reflexivity|].
      exists (new_user req w). rewrite Hdb. split; reflexivity.
Qed.

(** The name of the first request is a space, a TAB, a no-break space
    (U+00A0) and an em space (U+2003); the password of the second is a
    space, a no-break space and a space. *)
Lemma name_trimmed_password_verbatim_witness :
  let blank_name :=
    post "name=+%09%C2%A0%E2%80%83&email=a%40b.c&password=pw&role=user" in
  let blank_password :=
    post "name=Al&email=a%40b.c&password=+%C2%A0+&role=user" in
  let w := sample_world [bob] (Some "") in
  (path blank_name = "/register" /\ path blank_password = "/register"
   /\ Utf8.valid (request_body blank_name) = true
   /\ Utf8.valid (request_body blank_password) = true
   /\ server_log w <> None)
  /\ (PyStr.all_space (field (form_of blank_name) "name") = true
      /\ In "Name is required." (errors_of blank_name))
  /\ (PyStr.all_space (field (form_of blank_password) "password") = true
      /\ field (form_of blank_password) "password" <> EmptyString
      /\ fst (do_POST blank_password w)
         = Ok (Sent 303 [("Location",
                          "/?message=Registration+successful%21&level=success")]
                    "")).
Proof.
  intros blank_name blank_password w.
  assert (Hp1 : path blank_name = "/register") by reflexivity.
  assert (Hp2 : path blank_password = "/register") by reflexivity.
  assert (Hv1 : Utf8.valid (request_body blank_name) = true)
    by (vm_compute; reflexivity).
  assert (Hv2 : Utf8.valid (request_body blank_password) = true)
    by (vm_compute; reflexivity).
  assert (Hl : server_log w <> None) by (cbn; discriminate).
  assert (Hb1 : PyStr.all_space (field (form_of blank_name) "name") = true)
    by (vm_compute; reflexivity).
  assert (Hb2 : PyStr.all_space (field (form_of blank_password) "password")
                = true) by (vm_compute; reflexivity).
  assert (Hne : field (form_of blank_password) "password" <> EmptyString)
    by (vm_compute; discriminate).
  split; [split; [exact Hp1|split; [exact Hp2|split; [exact Hv1|
    split; [exact Hv2|exact Hl]]]]|].
  split.
  - split; [exact Hb1|].
    exact (proj1 (proj1 (name_trimmed_password_verbatim blank_name w Hp1 Hv1 Hl)
                        Hb1)).
  - split; [exact Hb2|]. split; [exact Hne|].
    destruct (proj2 (name_trimmed_password_verbatim blank_password w Hp2 Hv2 Hl)
                    Hb2 Hne) as (_ & H).
    apply H; vm_compute; reflexivity.
Defined.

(** ** The user listing *)

Lemma insert_desc_perm (u : User) (l : list User) :
  Permutation (u :: l) (insert_desc u l).
Proof.
  induction l as [|v t IH]; simpl; [apply Permutation_refl|].
  destruct (String.leb (created_at v) (created_at u)).
  - apply Permutation_refl.
  - apply perm_trans with (v :: u :: t); [apply perm_swap|].
    now apply perm_skip.
Qed.

Lemma order_by_perm (rows : list User) :
  Permutation rows (order_by_created_at_desc rows).
Proof.
  induction rows as [|u rows IH]; simpl; [constructor|].
  apply perm_trans with (u :: order_by_created_at_desc rows).
  - now apply perm_skip.
  - apply insert_desc_perm.
Qed.




Lemma users_route (p : string) :
  PyStr.startswith p "/users" = true ->
  String.eqb p "/" || PyStr.startswith p "/?" = false.
Proof.
  unfold PyStr.startswith.
  destruct p as [|a [|b r]]; try discriminate.
  - rewrite prefix_cons. destruct (ascii_dec "/" a); discriminate.
  - rewrite !prefix_cons.
    destruct (ascii_dec "/" a) as [<-|]; [|discriminate].
    destruct (ascii_dec "u" b) as [<-|]; [|discriminate].
    intros _. reflexivity.
Qed.

(** The text of the listing: the object opens, its only key sits two
    spaces in, and each user sits four spaces in. *)
Lemma users_payload_text (rows : list Lib.Json) :
  Lib.dumps 2 (Lib.JDict [("users", Lib.JList rows)])
  = "{" ++ Lib.newline ++ "  " ++ quoted "users" ++ ": "
    ++ match rows with
       | [] => "[]"
       | _ => "[" ++ Lib.newline ++ "    "
              ++ PyStr.join ("," ++ Lib.newline ++ "    ")
                            (map (Lib.dumps_level 2 2) rows)
              ++ Lib.newline ++ "  ]"
       end
    ++ Lib.newline ++ "}".
Proof. destruct rows; reflexivity. Qed.



(** ** The template renderer *)


Lemma render_template_loaded (name content : string) (w : World)
      (ctx : list (string * string)) :
  load_template name w = (Ok content, w) ->
  render_template name (Some ctx) w = (Ok (substitute content ctx), w).
Proof. intros H. unfold render_template, bind, ret. now rewrite H. Qed.

(** For one entry the loop and the single scan are the same function. *)
Lemma scan_once_single (k v : string) (skip : nat) (s : string) :
  PyStr.replace_scan (token k) v None skip s = scan_once [(k, v)] skip s.
Proof.
  revert skip. induction s as [|c r IH]; intros skip; [reflexivity|].
  destruct skip as [|n].
  - unfold PyStr.replace_scan; fold PyStr.replace_scan.
    unfold scan_once; fold scan_once.
    unfold placeholder_at. cbn [PyStr.may_replace andb PyStr.one_less].
    destruct (String.prefix (token k) (String c r)); now rewrite IH.
  - apply IH.
Qed.

(** C7, as the code has it.  When the template can be read, rendering
    is the loop over the context entries in their order; each entry
    replaces every occurrence of its placeholder, found from the left
    in the text produced so far, by its value as it is, so a value
    written for an earlier key is scanned for the placeholders of the
    later keys.  An entry whose placeholder does not occur changes
    nothing, a template without any placeholder of a context key comes
    back verbatim, and for a context of one entry the result is the
    single left-to-right substitution of the specification. *)
Theorem render_template_sequential :
  forall (name content : string) (w : World),
    load_template name w = (Ok content, w) ->
    (forall ctx,
        render_template name (Some ctx) w = (Ok (substitute content ctx), w))
    /\ render_template name None w = (Ok content, w)
    /\ (forall s, substitute s [] = s)
    /\ (forall s k v ctx,
           PyStr.find s (token k) = None ->
           substitute s ((k, v) :: ctx) = substitute s ctx)
    /\ (forall s k v ctx i,
           PyStr.find s (token k) = Some i ->
           substitute s ((k, v) :: ctx)
           = substitute
               (PyStr.take i s ++ v
                ++ substitute (PyStr.drop (i + String.length (token k)) s)
                              [(k, v)]) ctx)
    /\ (forall ctx,
           (forall k v, In (k, v) ctx -> PyStr.find content (token k) = None) ->
           render_template name (Some ctx) w = (Ok content, w))
    /\ (forall k v,
           render_template name (Some [(k, v)]) w
           = (Ok (substitute_at_once content [(k, v)]), w)).
Proof.
  intros name content w Hload.
  split; [intros ctx; now apply render_template_loaded|].
  split; [unfold render_template, bind, ret; now rewrite Hload|].
  split; [exact substitute_nil|].
  split; [exact substitute_absent|].
  split; [exact substitute_present|].
  split.
  - intros ctx Hnone. rewrite (render_template_loaded _ _ _ _ Hload).
    now rewrite substitute_untouched.
  - intros k v. rewrite (render_template_loaded _ _ _ _ Hload).
    unfold substitute, substitute_at_once. cbn [fold_left fst snd].
    unfold PyStr.replace.
    change (token k) with (String "{" (String "{" (String " " (k ++ " }}")))).
    cbv iota.
    change (String "{" (String "{" (String " " (k ++ " }}")))) with (token k).
    now rewrite scan_once_single.
Qed.

Lemma render_template_sequential_witness :
  let w := sample_world [] (Some "") in
  let content := "<p class={{ message_class }}>{{ message }}</p>" in
  load_template "index.html" w = (Ok content, w)
  /\ render_template "index.html"
       (Some [("message", "Saved & <b>done</b>"); ("message_class", "info")]) w
     = (Ok "<p class=info>Saved & <b>done</b></p>", w).
Proof.
  intros w content.
  assert (Hload : load_template "index.html" w = (Ok content, w))
    by reflexivity.
  split; [exact Hload|].
  rewrite (proj1 (render_template_sequential "index.html" content w Hload)).
  reflexivity.
Defined.

(** C7, as the specification has it, fails: with the context
    [message -> "{{ message_class }}"], [message_class -> "error"] the
    placeholder of [message] does not end up as the value of [message]
    but as the value of [message_class], because the value written
    first is scanned again.  The index page shows it for the request
    [GET /?message=%7B%7B+message_class+%7D%7D&level=error]. *)
Lemma render_template_rescans_values :
  let w := sample_world [] (Some "") in
  let content := "<p class={{ message_class }}>{{ message }}</p>" in
  let ctx := [("message", "{{ message_class }}"); ("message_class", "error")] in
  load_template "index.html" w = (Ok content, w)
  /\ fst (render_template "index.html" (Some ctx) w)
     = Ok "<p class=error>error</p>"
  /\ substitute_at_once content ctx
     = "<p class=error>{{ message_class }}</p>"
  /\ fst (render_template "index.html" (Some ctx) w)
     <> Ok (substitute_at_once content ctx)
  /\ exists w',
       do_GET (get "/?message=%7B%7B+message_class+%7D%7D&level=error") w
       = (Ok (Sent 200 [("Content-Type", "text/html; charset=utf-8");
                        ("Content-Length", "24")]
                   "<p class=error>error</p>"), w').
Proof.
  intros w content ctx.
  split; [reflexivity|]. split; [reflexivity|]. split; [reflexivity|].
  split; [vm_compute; discriminate|].
  eexists. vm_compute. reflexivity.
Qed.

(** ** The request log *)













(** ** Static assets *)

Lemma walk_app (fs : Lib.FS) (cur a b : Lib.Path) :
  Lib.walk fs cur (a ++ b)%list
  = match Lib.walk fs cur a with
    | Some c => Lib.walk fs c b
    | None => None
    end.
Proof.
  revert cur. induction a as [|x a IH]; intros cur; [reflexivity|].
  cbn [Lib.walk app]. destruct (fs cur) as [[]|]; try reflexivity. apply IH.
Qed.

Lemma public_dir_parts (w : World) :
  PUBLIC_DIR w = (base_dir w ++ ["public"])%list.
Proof. reflexivity. Qed.

Lemma not_under_public_etc (base : Lib.Path) :
  Lib.is_under (base ++ ["public"])%list ["etc"; "passwd"] = false.
Proof.
  destruct base as [|a [|b base]]; cbn.
  - reflexivity.
  - now destruct (String.eqb a "etc").
  - destruct (String.eqb a "etc"), (String.eqb b "passwd"); try reflexivity.
    now destruct base.
Qed.

Lemma not_under_public_sibling (base : Lib.Path) :
  Lib.is_under (base ++ ["public"])%list (base ++ ["server.py"])%list = false.
Proof.
  induction base as [|a base IH]; cbn; [reflexivity|].
  rewrite IH. apply andb_false_r.
Qed.

Lemma suffix_last (p : Lib.Path) (name : string) :
  Lib.suffix (p ++ [name])%list = Lib.suffix [name].
Proof. unfold Lib.suffix. now rewrite last_last. Qed.

Lemma serve_static_file (req : Request) (w : World) (content : string) :
  server_log w <> None ->
  let candidate :=
    Lib.joinpath (PUBLIC_DIR w)
                 (PyStr.replace (path req) "/static/" "" (Some 1)) in
  Lib.stat (files w) candidate = Some (Lib.File content) ->
  fst (serve_static req w)
  = Ok (Sent 200
          [("Content-Type",
            (if String.eqb (Lib.suffix candidate) ".css"
             then "text/css" else "application/octet-stream")
            ++ "; charset=utf-8");
           ("Content-Length", PyStr.str_of_nat (String.length content))]
          content).
Proof.
  intros Hlog candidate Hstat. unfold serve_static.
  fold candidate. unfold Lib.is_file. rewrite Hstat.
  unfold bind, read_file. rewrite Hstat.
  unfold send_response, log_request. rewrite (log_message_ok _ _ _ Hlog).
  reflexivity.
Qed.

(** C9. The static handler removes the first [/static/] of the path
    and nothing else, and joins what is left onto the public
    directory.  An absolute remainder replaces the public directory:
    for the path [/static//etc/passwd] the candidate is [/etc/passwd].
    A [..] segment is kept: for the path [/static/../server.py] the
    candidate resolves to [server.py] next to the public directory.
    Both lie outside the public directory and, when they are regular
    files and the request log can be written, their bytes are served
    with status 200. *)
Theorem static_escapes_public_dir :
  (forall rest,
      PyStr.replace ("/static/" ++ rest) "/static/" "" (Some 1) = rest)
  /\ (exists target,
         PyStr.startswith target "/static/" = true
         /\ forall (req : Request) (w : World) (content : string),
             path req = target ->
             Lib.stat (files w) ["etc"; "passwd"] = Some (Lib.File content) ->
             server_log w <> None ->
             exists q,
               Lib.resolve (files w)
                 (Lib.joinpath (PUBLIC_DIR w)
                    (PyStr.replace (path req) "/static/" "" (Some 1)))
               = Some q
               /\ Lib.is_under (PUBLIC_DIR w) q = false
               /\ fst (do_GET req w)
                  = Ok (Sent 200
                          [("Content-Type",
                            "application/octet-stream; charset=utf-8");
                           ("Content-Length",
                            PyStr.str_of_nat (String.length content))]
                          content))
  /\ (exists target,
         PyStr.startswith target "/static/" = true
         /\ PyStr.contains target ".." = true
         /\ forall (req : Request) (w : World) (content : string),
             path req = target ->
             Lib.resolve (files w) (base_dir w) = Some (base_dir w) ->
             files w (base_dir w) = Some Lib.Dir ->
             files w (base_dir w ++ ["public"])%list = Some Lib.Dir ->
             files w (base_dir w ++ ["server.py"])%list
             = Some (Lib.File content) ->
             server_log w <> None ->
             exists q,
               Lib.resolve (files w)
                 (Lib.joinpath (PUBLIC_DIR w)
                    (PyStr.replace (path req) "/static/" "" (Some 1)))
               = Some q
               /\ Lib.is_under (PUBLIC_DIR w) q = false
               /\ fst (do_GET req w)
                  = Ok (Sent 200
                          [("Content-Type",
                            "application/octet-stream; charset=utf-8");
                           ("Content-Length",
                            PyStr.str_of_nat (String.length content))]
                          content)).
Proof.
  split; [|split].
  - intros rest. apply (replace_first_prefix "/" "static/" "" rest).
  - exists "/static//etc/passwd". split; [reflexivity|].
    intros req w content Hpath Hstat Hlog. rewrite Hpath.
    assert (Hcand : Lib.joinpath (PUBLIC_DIR w)
                      (PyStr.replace "/static//etc/passwd" "/static/" ""
                                     (Some 1))
                    = ["etc"; "passwd"]) by reflexivity.
    rewrite Hcand.
    assert (Hres : Lib.resolve (files w) ["etc"; "passwd"]
                   = Some ["etc"; "passwd"]).
    { unfold Lib.stat in Hstat. unfold Lib.resolve in *. cbn in *.
      destruct (files w []) as [[]|]; try discriminate.
      destruct (files w ["etc"]) as [[]|]; try discriminate. reflexivity. }
    exists ["etc"; "passwd"]. split; [exact Hres|].
    split; [rewrite public_dir_parts; apply not_under_public_etc|].
    assert (Hroute : do_GET req w = serve_static req w)
      by (unfold do_GET; rewrite Hpath; reflexivity).
    rewrite Hroute.
    rewrite (serve_static_file req w content Hlog);
      rewrite Hpath, Hcand; [reflexivity|exact Hstat].
  - exists "/static/../server.py". split; [reflexivity|]. split; [reflexivity|].
    intros req w content Hpath Hbase Hdir Hpub Hfile Hlog. rewrite Hpath.
    assert (Hcand : Lib.joinpath (PUBLIC_DIR w)
                      (PyStr.replace "/static/../server.py" "/static/" ""
                                     (Some 1))
                    = (base_dir w ++ ["public"; ".."; "server.py"])%list).
    { rewrite public_dir_parts. unfold Lib.joinpath.
      change (PyStr.replace "/static/../server.py" "/static/" "" (Some 1))
        with "../server.py".
      change (PyStr.startswith "../server.py" "/") with false.
      change (Lib.parts "../server.py") with [".."; "server.py"].
      cbv iota. now rewrite <- app_assoc. }
    rewrite Hcand.
    assert (Hres : Lib.resolve (files w)
                     (base_dir w ++ ["public"; ".."; "server.py"])%list
                   = Some (base_dir w ++ ["server.py"])%list).
    { unfold Lib.resolve in *. rewrite walk_app, Hbase.
      cbn [Lib.walk]. rewrite Hdir.
      change (("public" =? "..")%string) with false. cbv iota.
      rewrite Hpub. change ((".." =? "..")%string) with true. cbv iota.
      rewrite removelast_last, Hdir.
      change (("server.py" =? "..")%string) with false. reflexivity. }
    exists (base_dir w ++ ["server.py"])%list. split; [exact Hres|].
    split; [rewrite public_dir_parts; apply not_under_public_sibling|].
    assert (Hroute : do_GET req w = serve_static req w)
      by (unfold do_GET; rewrite Hpath; reflexivity).
    rewrite Hroute.
    rewrite (serve_static_file req w content Hlog); rewrite Hpath, Hcand.
    + change (base_dir w ++ ["public"; ".."; "server.py"])%list
        with (base_dir w ++ ["public"; ".."] ++ ["server.py"])%list.
      rewrite app_assoc, suffix_last. reflexivity.
    + unfold Lib.stat. now rewrite Hres.
Qed.

(** ** Test vectors and worked requests *)

Example strip_ex : PyStr.strip "  Alice " = "Alice".
Proof. reflexivity. Qed.

Example lower_ex : PyStr.lower "Alice@Test.COM" = "alice@test.com".
Proof. reflexivity. Qed.

Example replace_once_ex :
  PyStr.replace "/static/a/static/b" "/static/" "" (Some 1) = "a/static/b".
Proof. reflexivity. Qed.

Example replace_all_ex : PyStr.replace "aXYbXYc" "XY" "-" None = "a-b-c".
Proof. reflexivity. Qed.

Example replace_empty_ex : PyStr.replace "abc" "" "-" (Some 2) = "-a-bc".
Proof. reflexivity. Qed.

Example split_ex : PyStr.split "&" "a=1&&b" = ["a=1"; ""; "b"].
Proof. reflexivity. Qed.

Example quote_plus_ex :
  Url.quote_plus "Role must be 'admin' or 'user'."
  = "Role+must+be+%27admin%27+or+%27user%27.".
Proof. reflexivity. Qed.

Example parse_qs_ex :
  Url.parse_qs "name=Alice&role=User&name=B&x=&y&=3&z=%41+b%2"
  = [("name", ["Alice"; "B"]); ("role", ["User"]); ("", ["3"]);
     ("z", ["A b%2"])].
Proof. reflexivity. Qed.

(** A no-break space (U+00A0), a space, [Al], an em space (U+2003) and
    a TAB. *)
Example strip_unicode_ex :
  PyStr.strip (text_of [194; 160; 32; 65; 108; 226; 128; 131; 9]) = "Al"
  /\ PyStr.all_space (text_of [194; 160; 32; 226; 128; 131; 9]) = true
  /\ PyStr.all_space (text_of [226; 128; 139]) = false.
Proof. vm_compute. repeat split. Qed.

(** Surrogates, overlong forms and truncated sequences are not text. *)
Example utf8_valid_ex :
  Utf8.valid (text_of [195; 169; 240; 159; 152; 128]) = true
  /\ Utf8.valid (text_of [237; 160; 128]) = false
  /\ Utf8.valid (text_of [192; 128]) = false
  /\ Utf8.valid (text_of [226; 130]) = false
  /\ Utf8.valid (text_of [255]) = false.
Proof. vm_compute. repeat split. Qed.

(** A stray byte and a sequence cut short are one U+FFFD each. *)
Example unquote_ex :
  Url.unquote "%C2%A0user" = text_of [194; 160] ++ "user"
  /\ Url.unquote "a%FFb" = "a" ++ Utf8.replacement ++ "b"
  /\ Url.unquote "%E2%84" = Utf8.replacement
  /\ Url.unquote "%E2%84%AA" = text_of [226; 132; 170]
  /\ Url.unquote "%80%80" = Utf8.replacement ++ Utf8.replacement.
Proof. vm_compute. repeat split. Qed.

Example parse_qs_damaged_ex :
  Url.parse_qs "%FF=1&%FE=2" = [(Utf8.replacement, ["1"; "2"])].
Proof. vm_compute. reflexivity. Qed.

(** U+00E9 is one escape, U+1F600 the escapes of its two surrogates. *)
Example encode_string_ex :
  Lib.encode_string ("Al" ++ e_acute) = quoted "Al\u00e9"
  /\ Lib.encode_string (text_of [240; 159; 152; 128]) = quoted "\ud83d\ude00"
  /\ Lib.encode_string (text_of [9; 127; 226; 130; 172])
     = quoted "\t\u007f\u20ac".
Proof. vm_compute. repeat split. Qed.

Example universal_newlines_ex :
  PyStr.universal_newlines (text_of [97; 13; 10; 98; 13; 99; 10; 13])
  = text_of [97; 10; 98; 10; 99; 10; 10].
Proof. vm_compute. reflexivity. Qed.

(** A role between no-break spaces is the role; a name that is one
    no-break space is no name; the Kelvin sign, U+212A, in an address
    is outside ASCII. *)
Example unicode_fields_ex :
  errors_of (post "name=a&email=b%40c.d&password=p&role=%C2%A0user") = []
  /\ errors_of (post "name=%C2%A0&email=a%40b.c&password=p&role=user")
     = ["Name is required."]
  /\ Utf8.is_ascii
       (email_of (post "name=a&email=%E2%84%AA%40x.org&password=p&role=user"))
     = false.
Proof. vm_compute. repeat split. Qed.

Example isoformat_ex :
  Lib.isoformat (Lib.mkDateTime 2024 5 7 9 3 0 1500)
  = "2024-05-07T09:03:00.001500"
  /\ Lib.isoformat_seconds (Lib.mkDateTime 2024 5 7 9 3 0 1500)
     = "2024-05-07T09:03:00".
Proof. split; reflexivity. Qed.

(** FIPS 180-4 and RFC 7914 vectors. *)
Example round_constants_ex :
  nth 0 Sha256.K 0%Z = 0x428a2f98%Z /\ nth 63 Sha256.K 0%Z = 0xc67178f2%Z
  /\ List.length Sha256.K = 64
  /\ nth 0 Sha256.H0 0%Z = 0x6a09e667%Z /\ nth 7 Sha256.H0 0%Z = 0x5be0cd19%Z
  /\ List.length Sha256.H0 = 8.
Proof. repeat split. Qed.

Example sha256_abc :
  Sha256.hex (Sha256.sha256 "abc")
  = "ba7816bf8f01cfea414140de5dae2223b00361a396177a9cb410ff61f20015ad".
Proof. vm_compute. reflexivity. Qed.

Example sha256_two_blocks :
  Sha256.hex
    (Sha256.sha256 "abcdbcdecdefdefgefghfghighijhijkijkljklmklmnlmnomnopnopq")
  = "248d6a61d20638b8e5c026930c3e6039a33ce45964ff2167f6ecedd419db06c1".
Proof. vm_compute. reflexivity. Qed.

Example hmac_ex :
  Sha256.hex (Sha256.hmac "key" "The quick brown fox jumps over the lazy dog")
  = "f7bc83f430538424b13298e6aa6fb143ef4d59a14946175997479dbc2d1a3cd8".
Proof. vm_compute. reflexivity. Qed.

Example pbkdf2_one_iteration :
  Sha256.hex (Sha256.pbkdf2_hmac "password" "salt" 1)
  = "120fb6cffcf8b32c43e7225256c4f837a86548c92ccc35480805987cb70be17b".
Proof. vm_compute. reflexivity. Qed.

Example pbkdf2_two_iterations :
  Sha256.hex (Sha256.pbkdf2_hmac "password" "salt" 2)
  = "ae4d0c95af6b46d32d0adff928f06dd02a303f8ef3c251dfd6e2d85a95474c43".
Proof. vm_compute. reflexivity. Qed.

Example fromhex_ex :
  option_map Sha256.hex (Sha256.fromhex "0aFF 10") = Some "0aff10"
  /\ Sha256.fromhex "abc" = None /\ Sha256.fromhex "zz" = None.
Proof. repeat split. Qed.

(** The listing of a table of two users, the newer one first. *)
Example users_listing_ex :
  fst (do_GET (get "/users") (sample_world [alice; bob] (Some "")))
  = Ok (Sent 200
          [("Content-Type", "application/json; charset=utf-8");
           ("Content-Length", "319")]
          (PyStr.join Lib.newline
             ["{";
              "  " ++ quoted "users" ++ ": [";
              "    {";
              "      " ++ quoted "id" ++ ": 2,";
              "      " ++ quoted "name" ++ ": " ++ quoted "Bob" ++ ",";
              "      " ++ quoted "email" ++ ": " ++ quoted "bob@test.com" ++ ",";
              "      " ++ quoted "role" ++ ": " ++ quoted "admin" ++ ",";
              "      " ++ quoted "created_at" ++ ": "
                ++ quoted "2024-05-18T10:00:00.250000";
              "    },";
              "    {";
              "      " ++ quoted "id" ++ ": 1,";
              "      " ++ quoted "name" ++ ": " ++ quoted "Alice" ++ ",";
              "      " ++ quoted "email" ++ ": " ++ quoted "alice@test.com" ++ ",";
              "      " ++ quoted "role" ++ ": " ++ quoted "user" ++ ",";
              "      " ++ quoted "created_at" ++ ": "
                ++ quoted "2024-05-17T09:30:00";
              "    }";
              "  ]";
              "}"])).
Proof. vm_compute. reflexivity. Qed.

Example empty_listing_ex :
  fst (do_GET (get "/users") (sample_world [] (Some "")))
  = Ok (Sent 200
          [("Content-Type", "application/json; charset=utf-8");
           ("Content-Length", "17")]
          ("{" ++ Lib.newline ++ "  " ++ quoted "users" ++ ": []"
           ++ Lib.newline ++ "}")).
Proof. vm_compute. reflexivity. Qed.

Example static_css_ex :
  fst (do_GET (get "/static/style.css") (sample_world [] (Some "")))
  = Ok (Sent 200 [("Content-Type", "text/css; charset=utf-8");
                  ("Content-Length", "18")] "body { margin: 0 }").
Proof. vm_compute. reflexivity. Qed.

Example static_missing_ex :
  fst (do_GET (get "/static/missing.css") (sample_world [] (Some "")))
  = Ok (ErrorPage 404 "Asset not found").
Proof. vm_compute. reflexivity. Qed.

Example static_absolute_ex :
  fst (do_GET (get "/static//etc/passwd") (sample_world [] (Some "")))
  = Ok (Sent 200 [("Content-Type", "application/octet-stream; charset=utf-8");
                  ("Content-Length", "10")] "root:x:0:0").
Proof. vm_compute. reflexivity. Qed.

Example static_parent_ex :
  fst (do_GET (get "/static/../server.py") (sample_world [] (Some "")))
  = Ok (Sent 200 [("Content-Type", "application/octet-stream; charset=utf-8");
                  ("Content-Length", "14")] "import hashlib").
Proof. vm_compute. reflexivity. Qed.

Example unknown_route_ex :
  fst (do_GET (get "/admin") (sample_world [] (Some "")))
  = Ok (ErrorPage 404 "Not Found")
  /\ fst (do_POST (get "/users") (sample_world [] (Some "")))
     = Ok (ErrorPage 404 "Not Found").
Proof. split; vm_compute; reflexivity. Qed.

Example index_ex :
  fst (do_GET (get "/?message=Registration+successful%21&level=success")
              (sample_world [] (Some "")))
  = Ok (Sent 200 [("Content-Type", "text/html; charset=utf-8");
                  ("Content-Length", "45")]
            "<p class=success>Registration successful!</p>").
Proof. vm_compute. reflexivity. Qed.

Example log_line_ex :
  server_log (snd (do_GET (get "/users") (sample_world [] (Some ""))))
  = Some ("127.0.0.1 - - [2024-05-17T09:30:00] " ++ quoted "GET /users HTTP/1.1"
          ++ " 200 -" ++ Lib.newline).
Proof. vm_compute. reflexivity. Qed.

Example duplicate_email_ex :
  fst (do_POST (post "name=A&email=+Bob@TEST.com+&password=x&role=Admin")
               (sample_world [alice; bob] (Some "")))
  = Ok (Sent 303
          [("Location",
            "/?message=That+email+is+already+registered.&level=error")] "").
Proof.
  set (req := post _). set (w := sample_world _ _).
  assert (Herr : errors_of req = []) by (vm_compute; reflexivity).
  assert (Hlog : server_log w <> None) by (cbn; discriminate).
  assert (Htaken : email_taken (email_of req) (users (db w)) = true)
    by (vm_compute; reflexivity).
  rewrite (do_POST_register req w eq_refl).
  destruct (register_taken req w Herr Hlog Htaken) as (w' & -> & _).
  reflexivity.
Qed.

(* ================================================================== *)
(** * Further properties of the handlers *)
(* ================================================================== *)

(** ** The table over the life of the server *)

(** What a POST does to the table: nothing, or one row appended by a
    valid registration of an address that was not stored. *)
Lemma do_POST_step (req : Request) (w : World) :
  db (snd (do_POST req w)) = db w
  \/ (path req = "/register" /\ errors_of req = []
      /\ email_taken (email_of req) (users (db w)) = false
      /\ db (snd (do_POST req w))
         = mkStore (users (db w) ++ [new_user req w])%list (next_id (db w))).
Proof.
  unfold do_POST. destruct (String.eqb_spec (path req) "/register") as [Hp|Hp].
  - destruct (errors_of req) eqn:E.
    + rewrite (handle_register_valid req w E). cbv zeta.
      destruct (email_taken _ _) eqn:T; rewrite redirect_db.
      * now left.
      * right. repeat split; assumption.
    + left. apply handle_register_invalid_db. congruence.
  - left. apply send_error_db.
Qed.

Lemma fresh_salt_length (w : World) : String.length (fresh_salt w) = 16.
Proof.
  unfold fresh_salt. now rewrite length_of_list_ascii, length_map, length_seq.
Qed.

Lemma is_empty_nonempty (s : string) : PyStr.is_empty s = false -> s <> EmptyString.
Proof. destruct s; [discriminate|congruence]. Qed.

Lemma new_user_ok (req : Request) (w : World) :
  errors_of req = [] -> row_ok (new_user req w).
Proof.
  intros H. unfold errors_of in H.
  apply validation_errors_nil in H as (Hn & He & _ & Hr).
  unfold row_ok, new_user.
  cbn [role name email password_hash password_salt].
  split; [exact Hr|].
  split; [now apply is_empty_nonempty|].
  split; [unfold name_of; apply strip_idem|].
  split; [now apply is_empty_nonempty|].
  split; [unfold email_of; apply normal_form_idem|].
  split; [now rewrite hex_length, pbkdf2_hmac_length|].
  split; [apply hex_lower|].
  split; [now rewrite hex_length, fresh_salt_length|apply hex_lower].
Qed.

(** X1. Every row of every table the server reaches is well formed:
    its role is [admin] or [user], its name and address are non-empty
    and have no whitespace at either end, its address has no capital
    ASCII letter, its hash is 64 and its salt 32 lowercase hexadecimal
    characters. *)
Theorem stored_rows_well_formed :
  forall st : Store, reachable st -> Forall row_ok (users st).
Proof.
  induction 1 as [|req w _ IH|req w _ IH].
  - constructor.
  - now rewrite do_GET_db.
  - destruct (do_POST_step req w) as [->|(_ & Herr & _ & ->)]; [exact IH|].
    cbn [users]. apply Forall_app. split; [exact IH|].
    constructor; [now apply new_user_ok|constructor].
Qed.

(** The name of the request has a no-break space, U+00A0, on either
    side. *)
Lemma stored_rows_well_formed_witness :
  let req := post "name=%C2%A0Al%C2%A0&email=AL%40x.org&password=pw&role=USER" in
  let st := db (snd (do_POST req (sample_world [] (Some "")))) in
  reachable st /\ Forall row_ok (users st) /\ List.length (users st) = 1.
Proof.
  intros req st.
  assert (Hr : reachable st)
    by (apply (reach_post _ (sample_world [] (Some ""))); exact reach_init).
  split; [exact Hr|]. split; [exact (stored_rows_well_formed st Hr)|].
  subst st.
  destruct (do_POST_step req (sample_world [] (Some "")))
    as [H|(_ & _ & _ & ->)]; [|reflexivity].
  exfalso. revert H. rewrite (do_POST_register req _ eq_refl).
  assert (Herr : errors_of req = []) by (vm_compute; reflexivity).
  rewrite (handle_register_valid req _ Herr). cbv zeta.
  assert (Hfree : email_taken (email_of req)
                    (users (db (sample_world [] (Some "")))) = false)
    by (vm_compute; reflexivity).
  rewrite Hfree, redirect_db. cbn [db set_db]. intros H.
  apply (f_equal (fun d => List.length (users d))) in H.
  cbn [users sample_world db app List.length] in H. discriminate H.
Defined.

Lemma not_taken_not_in (e : string) (rows : list User) :
  email_taken e rows = false -> ~ In e (map email rows).
Proof.
  unfold email_taken. intros H Hin.
  apply in_map_iff in Hin as (u & <- & Hu).
  assert (Ht : existsb (fun v => String.eqb (email v) (email u)) rows = true)
    by (apply existsb_exists; exists u; split; [exact Hu|apply String.eqb_refl]).
  congruence.
Qed.

Lemma NoDup_snoc {A} (l : list A) (x : A) :
  NoDup l -> ~ In x l -> NoDup (l ++ [x]).
Proof.
  intros Hl Hx. induction Hl as [|y l Hy Hl IH]; cbn.
  - constructor; [intros []|constructor].
  - constructor.
    + intros Hin. apply in_app_or in Hin as [Hin|[->|[]]].
      * now apply Hy.
      * apply Hx. now left.
    + apply IH. intros Hin. apply Hx. now right.
Qed.

Lemma reachable_emails_distinct (st : Store) :
  reachable st -> NoDup (map email (users st)).
Proof.
  induction 1 as [|req w _ IH|req w _ IH].
  - constructor.
  - now rewrite do_GET_db.
  - destruct (do_POST_step req w) as [->|(_ & _ & Hfree & ->)]; [exact IH|].
    cbn [users]. rewrite map_app. cbn [map].
    apply NoDup_snoc; [exact IH|]. now apply not_taken_not_in.
Qed.

(** X2. In every table the server reaches no two rows have addresses
    that are equal up to ASCII case. *)
Theorem stored_emails_distinct :
  forall st : Store,
    reachable st -> NoDup (map (fun u => PyStr.lower (email u)) (users st)).
Proof.
  intros st Hr.
  assert (Heq : map (fun u => PyStr.lower (email u)) (users st)
                = map email (users st)).
  { apply map_ext_in. intros u Hu.
    pose proof (reachable_normalized st Hr) as Hn.
    unfold emails_normalized in Hn. rewrite Forall_forall in Hn.
    rewrite <- (Hn u Hu) at 2. rewrite <- (Hn u Hu) at 1.
    apply lower_idem. }
  rewrite Heq. now apply reachable_emails_distinct.
Qed.

Lemma email_taken_app (e : string) (rows : list User) (u : User) :
  email_taken e (rows ++ [u]) = email_taken e rows || String.eqb (email u) e.
Proof.
  unfold email_taken. rewrite existsb_app. cbn [existsb].
  now rewrite orb_false_r.
Qed.

(** Two registrations, then a third that repeats the first address in
    capitals: the table holds the two rows. *)
Lemma stored_emails_distinct_witness :
  let w0 := sample_world [] (Some "") in
  let w1 := snd (do_POST (post "name=Al&email=AL%40x.org&password=pw&role=USER")
                         w0) in
  let w2 := snd (do_POST (post "name=Bo&email=bo%40x.org&password=pw&role=admin")
                         w1) in
  let w3 := snd (do_POST (post "name=Cy&email=Al%40X.ORG&password=pw&role=user")
                         w2) in
  reachable (db w3)
  /\ map email (users (db w3)) = ["al@x.org"; "bo@x.org"]
  /\ NoDup (map (fun u => PyStr.lower (email u)) (users (db w3))).
Proof.
  intros w0 w1 w2 w3.
  assert (Hr : reachable (db w3))
    by (do 3 apply reach_post; exact reach_init).
  split; [exact Hr|]. split; [|exact (stored_emails_distinct (db w3) Hr)].
  subst w3 w2 w1.
  set (r1 := post "name=Al&email=AL%40x.org&password=pw&role=USER").
  set (r2 := post "name=Bo&email=bo%40x.org&password=pw&role=admin").
  set (r3 := post "name=Cy&email=Al%40X.ORG&password=pw&role=user").
  rewrite (do_POST_register r3 _ eq_refl), (do_POST_register r2 _ eq_refl),
    (do_POST_register r1 _ eq_refl).
  assert (E1 : errors_of r1 = []) by (vm_compute; reflexivity).
  assert (E2 : errors_of r2 = []) by (vm_compute; reflexivity).
  assert (E3 : errors_of r3 = []) by (vm_compute; reflexivity).
  assert (M1 : email_of r1 = "al@x.org") by (vm_compute; reflexivity).
  assert (M2 : email_of r2 = "bo@x.org") by (vm_compute; reflexivity).
  assert (M3 : email_of r3 = "al@x.org") by (vm_compute; reflexivity).
  assert (L0 : server_log w0 <> None) by (cbn; discriminate).
  destruct (register_fresh r1 w0 E1 L0) as (w1 & -> & D1 & L1);
    [rewrite M1; reflexivity|].
  cbn [snd].
  destruct (register_fresh r2 w1 E2 L1) as (w2 & -> & D2 & L2).
  { rewrite D1, M2. cbn [users]. rewrite email_taken_app.
    cbn [new_user email]. rewrite M1. reflexivity. }
  cbn [snd].
  destruct (register_taken r3 w2 E3 L2) as (w3 & -> & D3).
  { rewrite D2, D1, M3. cbn [users]. rewrite !email_taken_app.
    cbn [new_user email]. rewrite M1, M2. reflexivity. }
  cbn [snd]. rewrite D3, D2, D1.
  cbn [users]. rewrite !map_app. cbn [map new_user email].
  now rewrite M1, M2.
Defined.

Lemma fold_max_bounds (l : list Z) (a : Z) :
  (a <= fold_left Z.max l a)%Z
  /\ Forall (fun x => (x <= fold_left Z.max l a)%Z) l.
Proof.
  revert a. induction l as [|x l IH]; intros a; cbn [fold_left].
  - split; [lia|constructor].
  - destruct (IH (Z.max a x)) as (Ha & Hl). split; [lia|].
    constructor; [lia|exact Hl].
Qed.

Lemma StronglySorted_snoc {A} (R : A -> A -> Prop) (l : list A) (a : A) :
  StronglySorted R l -> Forall (fun x => R x a) l ->
  StronglySorted R (l ++ [a]).
Proof.
  intros Hs Hl. induction Hs as [|x l Hs IH Hx]; cbn.
  - repeat constructor.
  - inversion Hl as [|? ? Hxa Hl']; subst.
    constructor; [now apply IH|].
    apply Forall_app. split; [exact Hx|]. now constructor.
Qed.

(** X3. In every table the server reaches the row ids are positive,
    strictly increasing in insertion order and bounded by the counter
    of [AUTOINCREMENT]; so no two rows share an id. *)
Theorem stored_ids_increasing :
  forall st : Store,
    reachable st ->
    StronglySorted Z.lt (map id (users st))
    /\ Forall (fun u => (0 < id u <= sequence st)%Z) (users st)
    /\ (0 <= sequence st)%Z
    /\ NoDup (map id (users st)).
Proof.
  intros st Hr.
  assert (Hinv : StronglySorted Z.lt (map id (users st))
                 /\ Forall (fun u => (0 < id u <= sequence st)%Z) (users st)
                 /\ (0 <= sequence st)%Z).
  { induction Hr as [|req w _ IH|req w _ IH].
    - cbn. repeat constructor. lia.
    - now rewrite do_GET_db.
    - destruct (do_POST_step req w) as [->|(_ & _ & _ & ->)]; [exact IH|].
      destruct IH as (Hs & Hb & H0). cbn [users sequence].
      destruct (fold_max_bounds (map id (users (db w))) (sequence (db w)))
        as (Hge & Hall).
      assert (Hnew : id (new_user req w) = next_id (db w)) by reflexivity.
      unfold next_id in *.
      split; [|split].
      + rewrite map_app. cbn [map]. apply StronglySorted_snoc; [exact Hs|].
        rewrite Forall_map. rewrite Forall_map in Hall.
        eapply Forall_impl; [|exact Hall]. intros u Hu. cbn beta in Hu.
        rewrite Hnew. lia.
      + apply Forall_app. split.
        * eapply Forall_impl; [|exact Hb]. intros u Hu. cbn beta in *. lia.
        * constructor; [rewrite Hnew; lia|constructor].
      + lia. }
  destruct Hinv as (Hs & Hb & H0). repeat split; try assumption.
  clear Hb H0. induction Hs as [|x l Hs IH Hx]; constructor.
  - intros Hin. rewrite Forall_forall in Hx. specialize (Hx x Hin). lia.
  - exact IH.
Qed.

Lemma stored_ids_increasing_witness :
  let st := db (snd (do_POST (post "name=Al&email=AL@x.org&password=pw&role=USER")
                             (sample_world [] (Some "")))) in
  reachable st /\ NoDup (map id (users st)).
Proof.
  intros st.
  assert (Hr : reachable st)
    by (apply (reach_post _ (sample_world [] (Some ""))); exact reach_init).
  split; [exact Hr|].
  exact (proj2 (proj2 (proj2 (stored_ids_increasing st Hr)))).
Defined.

(** X4. The table only grows: a GET leaves it as it was (whether or
    not the request succeeds), and a POST keeps every stored row, in
    place and unchanged, and appends at most one. *)
Theorem table_append_only :
  forall (req : Request) (w : World),
    db (snd (do_GET req w)) = db w
    /\ exists extra,
         users (db (snd (do_POST req w))) = (users (db w) ++ extra)%list
         /\ List.length extra <= 1.
Proof.
  intros req w. split; [apply do_GET_db|].
  destruct (do_POST_step req w) as [->|(_ & _ & _ & ->)].
  - exists []. split; [now rewrite app_nil_r|cbn; lia].
  - exists [new_user req w]. split; [reflexivity|cbn; lia].
Qed.

(** X5. With a writable request log every POST to [/register] whose
    body decodes is answered by a 303 redirect to the index page, in
    one of three ways: validation errors (nothing stored), an address
    that is already stored (nothing stored), or success (one row
    appended, with the trimmed name and the role of the request).  No
    other status is ever sent for such a registration.  When the
    fields are valid and the normalised address is ASCII, the address
    being in the table decides between the last two. *)
Theorem registration_outcomes :
  forall (req : Request) (w : World),
    path req = "/register" ->
    Utf8.valid (request_body req) = true ->
    server_log w <> None ->
    ((errors_of req <> []
      /\ fst (do_POST req w)
         = Ok (Sent 303 [("Location",
                          location (PyStr.join " " (errors_of req)) "error")] "")
      /\ db (snd (do_POST req w)) = db w)
     \/ (errors_of req = []
         /\ fst (do_POST req w)
            = Ok (Sent 303 [("Location",
                             location "That email is already registered."
                                      "error")] "")
         /\ db (snd (do_POST req w)) = db w)
     \/ (errors_of req = []
         /\ fst (do_POST req w)
            = Ok (Sent 303 [("Location",
                             location "Registration successful!" "success")] "")
         /\ exists u,
              users (db (snd (do_POST req w))) = (users (db w) ++ [u])%list
              /\ name u = name_of req /\ role u = role_of req))
    /\ (errors_of req = [] ->
        Utf8.is_ascii (email_of req) = true ->
        if email_taken (email_of req) (users (db w))
        then fst (do_POST req w)
             = Ok (Sent 303 [("Location",
                              location "That email is already registered."
                                       "error")] "")
             /\ db (snd (do_POST req w)) = db w
        else fst (do_POST req w)
             = Ok (Sent 303 [("Location",
                              location "Registration successful!" "success")] "")
             /\ db (snd (do_POST req w))
                = mkStore (users (db w) ++ [new_user req w])%list
                          (next_id (db w))).
Proof.
  intros req w Hpath Hv Hlog. rewrite (do_POST_register _ _ Hpath). split.
  - destruct (errors_of req) as [|e errs] eqn:E.
    + right. rewrite (handle_register_valid req w E). cbv zeta.
      destruct (email_taken _ _) eqn:T; [left|right];
        rewrite redirect_ok by exact Hlog.
      * split; [reflexivity|]. split; reflexivity.
      * split; [reflexivity|]. split; [reflexivity|].
        exists (new_user req w). split; [reflexivity|]. split; reflexivity.
    + left. split; [discriminate|].
      rewrite handle_register_invalid by congruence.
      rewrite redirect_ok by exact Hlog. rewrite E. split; reflexivity.
  - intros E _. rewrite (handle_register_valid req w E). cbv zeta.
    destruct (email_taken _ _) eqn:T; rewrite redirect_ok by exact Hlog;
      split; reflexivity.
Qed.

Lemma registration_outcomes_witness :
  let req := post "name=Al&email=Bob%40Test.com&password=pw&role=user%C2%A0" in
  let w := sample_world [bob] (Some "") in
  (path req = "/register" /\ Utf8.valid (request_body req) = true
   /\ server_log w <> None)
  /\ (errors_of req = [] /\ Utf8.is_ascii (email_of req) = true)
  /\ fst (do_POST req w)
     = Ok (Sent 303 [("Location",
                      "/?message=That+email+is+already+registered.&level=error")]
                "").
Proof.
  intros req w.
  assert (Hp : path req = "/register") by reflexivity.
  assert (Hv : Utf8.valid (request_body req) = true) by (vm_compute; reflexivity).
  assert (Hl : server_log w <> None) by (cbn; discriminate).
  assert (He : errors_of req = []) by (vm_compute; reflexivity).
  assert (Ha : Utf8.is_ascii (email_of req) = true) by (vm_compute; reflexivity).
  split; [split; [exact Hp|split; [exact Hv|exact Hl]]|].
  split; [split; [exact He|exact Ha]|].
  pose proof (proj2 (registration_outcomes req w Hp Hv Hl) He Ha) as H.
  assert (Ht : email_taken (email_of req) (users (db w)) = true)
    by (vm_compute; reflexivity).
  rewrite Ht in H. exact (proj1 H).
Defined.

(** ** Form parsing *)

Lemma get_form_add (d : Url.Form) (n v k : string) :
  Url.get (Url.form_add d n v) k
  = if String.eqb n k
    then Some (match Url.get d k with
               | Some vs => (vs ++ [v])%list
               | None => [v]
               end)
    else Url.get d k.
Proof.
  induction d as [|[k0 vs] d IH]; cbn [Url.form_add Url.get].
  - destruct (String.eqb n k); reflexivity.
  - destruct (String.eqb_spec k0 n) as [->|Hkn]; cbn [Url.get].
    + destruct (String.eqb n k); reflexivity.
    + destruct (String.eqb_spec k0 k) as [->|Hk].
      * destruct (String.eqb_spec n k) as [->|_]; [congruence|reflexivity].
      * exact IH.
Qed.

Lemma get_fold_form_add (pairs : list (string * string)) (d : Url.Form)
      (k : string) :
  Url.get (fold_left (fun d nv => Url.form_add d (fst nv) (snd nv)) pairs d) k
  = match Url.get d k, values_of k pairs with
    | Some vs, more => Some (vs ++ more)%list
    | None, [] => None
    | None, more => Some more
    end.
Proof.
  revert d. induction pairs as [|[n v] pairs IH]; intros d; cbn [fold_left].
  - unfold values_of. cbn. destruct (Url.get d k); [now rewrite app_nil_r|reflexivity].
  - rewrite IH, get_form_add. unfold values_of. cbn [filter fst snd].
    destruct (String.eqb n k); cbn [map].
    + destruct (Url.get d k) as [vs|]; [now rewrite <- app_assoc|reflexivity].
    + reflexivity.
Qed.

Lemma get_parse_qs (qs k : string) :
  Url.get (Url.parse_qs qs) k
  = match values_of k (Url.parse_qsl qs) with
    | [] => None
    | vs => Some vs
    end.
Proof. unfold Url.parse_qs. now rewrite get_fold_form_add. Qed.

Lemma unquote_to_bytes_nonempty (s : string) :
  s <> EmptyString -> Url.unquote_to_bytes s <> EmptyString.
Proof.
  destruct s as [|c r]; [congruence|]. intros _. cbn [Url.unquote_to_bytes].
  destruct (Ascii.eqb c "%"); [|discriminate].
  destruct r as [|h [|l r']]; try discriminate.
  destruct (Url.hexval h), (Url.hexval l); discriminate.
Qed.

Lemma replace_scan_0 (keep : bool) (c : ascii) (r : string) :
  Utf8.replace_scan keep 0 (String c r)
  = match Utf8.head (String c r) with
    | Utf8.Scalar len => String c (Utf8.replace_scan true (len - 1) r)
    | Utf8.Damaged len =>
        Utf8.replacement ++ Utf8.replace_scan false (len - 1) r
    end.
Proof. reflexivity. Qed.

Lemma valid_scan_0 (c : ascii) (r : string) :
  Utf8.valid_scan 0 (String c r)
  = match Utf8.head (String c r) with
    | Utf8.Scalar len => Utf8.valid_scan (len - 1) r
    | Utf8.Damaged _ => false
    end.
Proof. reflexivity. Qed.

Lemma decode_replace_nonempty (s : string) :
  s <> EmptyString -> Utf8.decode_replace s <> EmptyString.
Proof.
  destruct s as [|c r]; [congruence|]. intros _.
  unfold Utf8.decode_replace. rewrite replace_scan_0.
  destruct (Utf8.head (String c r)); discriminate.
Qed.

(** Decoding with replacement leaves well-formed text as it is. *)
Lemma replace_scan_valid (k : nat) (s : string) :
  Utf8.valid_scan k s = true -> Utf8.replace_scan true k s = s.
Proof.
  revert k. induction s as [|c r IH]; intros k H; [reflexivity|].
  destruct k as [|k].
  - rewrite valid_scan_0 in H. rewrite replace_scan_0.
    destruct (Utf8.head (String c r)); [|discriminate].
    now rewrite IH.
  - cbn [Utf8.replace_scan]. cbn [Utf8.valid_scan] in H. now rewrite IH.
Qed.

Lemma decode_replace_valid (s : string) :
  Utf8.valid s = true -> Utf8.decode_replace s = s.
Proof. apply replace_scan_valid. Qed.

Lemma unquote_nonempty (s : string) :
  s <> EmptyString -> Url.unquote s <> EmptyString.
Proof.
  intros H. unfold Url.unquote.
  now apply decode_replace_nonempty, unquote_to_bytes_nonempty.
Qed.

Lemma replace_char_nonempty (s : string) (a b : ascii) :
  s <> EmptyString ->
  PyStr.replace s (String a EmptyString) (String b EmptyString) None
  <> EmptyString.
Proof.
  destruct s as [|c r]; [congruence|]. intros _.
  unfold PyStr.replace, PyStr.replace_scan; fold PyStr.replace_scan.
  destruct (_ && _); discriminate.
Qed.

Lemma parse_field_values (nv : string) (p : string * string) :
  In p (Url.parse_field nv) -> snd p <> EmptyString.
Proof.
  unfold Url.parse_field. destruct (PyStr.is_empty nv); [intros []|].
  destruct (PyStr.split_once "=" nv) as [[n v]|]; [|intros []].
  destruct (PyStr.is_empty v) eqn:E; [intros []|].
  intros [<-|[]]. cbn [snd].
  apply unquote_nonempty, replace_char_nonempty. now apply is_empty_nonempty.
Qed.

Lemma parse_qsl_values (qs : string) (p : string * string) :
  In p (Url.parse_qsl qs) -> snd p <> EmptyString.
Proof.
  unfold Url.parse_qsl. intros H. apply in_flat_map in H as (nv & _ & H).
  now apply (parse_field_values nv).
Qed.

(** X6. For a query text [qs], the form [parse_qs] builds holds, for
    each name, the values of the pairs of that name in their order; a
    name is present exactly when it has a pair with a non-empty value,
    no value is empty, and a field [handle_register] reads is the first
    value of its name, or the empty string when the name is absent: a
    repeated field keeps its first value, and a field sent empty reads
    as a missing one. *)
Theorem form_field_first_value :
  forall (qs k : string),
    Utf8.valid qs = true ->
    Url.get (Url.parse_qs qs) k
    = match values_of k (Url.parse_qsl qs) with
      | [] => None
      | vs => Some vs
      end
    /\ (forall vs, Url.get (Url.parse_qs qs) k = Some vs ->
                   vs <> [] /\ Forall (fun v => v <> EmptyString) vs)
    /\ field (Url.parse_qs qs) k = hd EmptyString (values_of k (Url.parse_qsl qs))
    /\ (field (Url.parse_qs qs) k = EmptyString
        <-> Url.get (Url.parse_qs qs) k = None).
Proof.
  intros qs k _.
  assert (Hall : Forall (fun v => v <> EmptyString)
                        (values_of k (Url.parse_qsl qs))).
  { unfold values_of. rewrite Forall_map. apply Forall_forall.
    intros p Hp. apply filter_In in Hp as (Hp & _).
    now apply (parse_qsl_values qs). }
  split; [apply get_parse_qs|].
  unfold field. rewrite get_parse_qs.
  destruct (values_of k (Url.parse_qsl qs)) as [|v vs'] eqn:E.
  - split; [intros vs H; discriminate|]. split; [reflexivity|]. now split.
  - split; [|split].
    + intros vs [= <-]. split; [discriminate|exact Hall].
    + reflexivity.
    + cbn [hd]. inversion Hall as [|? ? Hv _]; subst.
      split; [intros ->; congruence|discriminate].
Qed.

(** The two names [%FF] and [%FE] are damaged bytes: both decode to
    U+FFFD and are one name with two values. *)
Lemma form_field_first_value_witness :
  let qs := "%FF=1&name=&%FE=2&name=%C3%A9" in
  Utf8.valid qs = true
  /\ Url.get (Url.parse_qs qs) Utf8.replacement = Some ["1"; "2"]
  /\ field (Url.parse_qs qs) Utf8.replacement = "1"
  /\ field (Url.parse_qs qs) "name" = e_acute.
Proof.
  intros qs.
  assert (Hv : Utf8.valid qs = true) by (vm_compute; reflexivity).
  split; [exact Hv|].
  destruct (form_field_first_value qs Utf8.replacement Hv) as (H1 & _ & H2 & _).
  destruct (form_field_first_value qs "name" Hv) as (_ & _ & H3 & _).
  split; [rewrite H1; vm_compute; reflexivity|].
  split; [rewrite H2; vm_compute; reflexivity|].
  rewrite H3. vm_compute. reflexivity.
Defined.

(** ** The index page *)

Lemma get_default_nonempty (qs k : string) (default : list string) :
  default <> [] -> get_default (Url.parse_qs qs) k default <> [].
Proof.
  intros Hd. unfold get_default. rewrite get_parse_qs.
  destruct (values_of k (Url.parse_qsl qs)); [exact Hd|discriminate].
Qed.

Lemma item0_hd (l : list string) (w : World) :
  l <> [] -> item0 l w = (Ok (hd EmptyString l), w).
Proof. destruct l; [congruence|reflexivity]. Qed.

Lemma index_route (req : Request) (w : World) :
  path req = "/" \/ PyStr.startswith (path req) "/?" = true ->
  do_GET req w = serve_index req w.
Proof.
  intros H. unfold do_GET.
  destruct H as [->| ->]; [reflexivity|now rewrite orb_true_r].
Qed.

(** The index page when the template can be read and the request can
    be logged. *)
Lemma serve_index_ok (req : Request) (w : World) (content : string) :
  load_template "index.html" w = (Ok content, w) ->
  server_log w <> None ->
  let query := Url.parse_qs (PyStr.partition_tail "?" (path req)) in
  let message := hd EmptyString (get_default query "message" [""]) in
  let level := hd EmptyString (get_default query "level" ["info"]) in
  let body := substitute content
                [("message", message);
                 ("message_class", if PyStr.is_empty message then "" else level)] in
  serve_index req w
  = (Ok (Sent 200 [("Content-Type", "text/html; charset=utf-8");
                   ("Content-Length", PyStr.str_of_nat (String.length body))]
              body),
     logged req (request_log_line req 200) w).
Proof.
  intros Hload Hlog query message level body. unfold serve_index.
  fold query. unfold bind at 1.
  rewrite (item0_hd (get_default query "message" [""]) w)
    by (apply get_default_nonempty; discriminate).
  fold message. unfold bind at 1.
  rewrite (item0_hd (get_default query "level" ["info"]) w)
    by (apply get_default_nonempty; discriminate).
  fold level. unfold bind at 1.
  rewrite (render_template_loaded _ _ _ _ Hload). fold body.
  unfold bind, send_response, log_request. fold (request_log_line req 200).
  now rewrite (log_message_ok _ _ _ Hlog).
Qed.

(** X7. A GET of [/] or of a path that starts with [/?], with a
    readable template and a writable request log, answers 200 with
    content type [text/html; charset=utf-8] and the template in which
    [message] is replaced by the first [message] parameter of the query
    (the empty string when there is none) and [message_class] by the
    first [level] parameter ([info] when there is none), or by the
    empty string when the message is empty; the [Content-Length] is
    the number of bytes of the page in UTF-8.  The lookup of the first
    parameter never fails. *)
Theorem index_page :
  forall (req : Request) (w : World) (content : string),
    path req = "/" \/ PyStr.startswith (path req) "/?" = true ->
    Utf8.valid (path req) = true ->
    load_template "index.html" w = (Ok content, w) ->
    server_log w <> None ->
    let query := Url.parse_qs (PyStr.partition_tail "?" (path req)) in
    let message := hd EmptyString (get_default query "message" [""]) in
    let level := hd EmptyString (get_default query "level" ["info"]) in
    let body := substitute content
                  [("message", message);
                   ("message_class",
                    if PyStr.is_empty message then "" else level)] in
    fst (do_GET req w)
    = Ok (Sent 200 [("Content-Type", "text/html; charset=utf-8");
                    ("Content-Length", PyStr.str_of_nat (String.length body))]
               body)
    /\ (Url.get query "message" = None ->
        body = substitute content [("message", ""); ("message_class", "")])
    /\ (Url.get query "level" = None -> level = "info")
    /\ (path req = "/" ->
        body = substitute content [("message", ""); ("message_class", "")]).
Proof.
  intros req w content Hroute _ Hload Hlog query message level body.
  split; [|split; [|split]].
  - rewrite (index_route _ _ Hroute).
    now rewrite (serve_index_ok req w content Hload Hlog).
  - intros Hnone. subst body message. unfold get_default. now rewrite Hnone.
  - intros Hnone. subst level. unfold get_default. now rewrite Hnone.
  - intros Hpath. subst body message level query. now rewrite Hpath.
Qed.

(** The message of the first request is the damaged byte [%FF]: the
    page shows U+FFFD, three bytes in UTF-8.  The second has two
    [message] parameters. *)
Lemma index_page_witness :
  let damaged := get "/?message=%FF" in
  let req := get "/?level=error&message=Name+is+required.&message=second" in
  let w := sample_world [] (Some "") in
  (PyStr.startswith (path damaged) "/?" = true
   /\ Utf8.valid (path damaged) = true
   /\ PyStr.startswith (path req) "/?" = true
   /\ Utf8.valid (path req) = true
   /\ load_template "index.html" w
      = (Ok "<p class={{ message_class }}>{{ message }}</p>", w)
   /\ server_log w <> None)
  /\ fst (do_GET damaged w)
     = Ok (Sent 200 [("Content-Type", "text/html; charset=utf-8");
                     ("Content-Length", "21")]
                ("<p class=info>" ++ Utf8.replacement ++ "</p>"))
  /\ fst (do_GET req w)
     = Ok (Sent 200 [("Content-Type", "text/html; charset=utf-8");
                     ("Content-Length", "36")]
                "<p class=error>Name is required.</p>").
Proof.
  intros damaged req w.
  assert (Hd : PyStr.startswith (path damaged) "/?" = true) by reflexivity.
  assert (Hdv : Utf8.valid (path damaged) = true) by (vm_compute; reflexivity).
  assert (Hr : PyStr.startswith (path req) "/?" = true) by reflexivity.
  assert (Hrv : Utf8.valid (path req) = true) by (vm_compute; reflexivity).
  assert (Ht : load_template "index.html" w
               = (Ok "<p class={{ message_class }}>{{ message }}</p>", w))
    by (vm_compute; reflexivity).
  assert (Hl : server_log w <> None) by (cbn; discriminate).
  split; [split; [exact Hd|split; [exact Hdv|split; [exact Hr|
    split; [exact Hrv|split; [exact Ht|exact Hl]]]]]|].
  split.
  - rewrite (proj1 (index_page damaged w _ (or_intror Hd) Hdv Ht Hl)).
    vm_compute. reflexivity.
  - rewrite (proj1 (index_page req w _ (or_intror Hr) Hrv Ht Hl)).
    vm_compute. reflexivity.
Defined.

(** X8. When [index.html] is not a regular file under the templates
    directory, a GET of the index page raises the error of the read:
    nothing is sent, nothing is logged and the world is as it was. *)
Theorem index_page_without_template :
  forall (req : Request) (w : World),
    path req = "/" \/ PyStr.startswith (path req) "/?" = true ->
    Lib.is_file (files w) (Lib.joinpath (TEMPLATES_DIR w) "index.html") = false ->
    do_GET req w = (Raise OSError, w).
Proof.
  intros req w Hroute Hfile. rewrite (index_route _ _ Hroute).
  unfold serve_index. unfold bind at 1.
  rewrite item0_hd by (apply get_default_nonempty; discriminate).
  unfold bind at 1.
  rewrite item0_hd by (apply get_default_nonempty; discriminate).
  unfold bind at 1.
  unfold render_template, load_template, read_text, bind, read_file.
  unfold Lib.is_file in Hfile.
  destruct (Lib.stat _ _) as [[content|]|]; [discriminate|reflexivity|reflexivity].
Qed.

Lemma index_page_without_template_witness :
  let req := get "/" in
  let w := mkWorld (mkStore [] 0) ["srv"] (fs_of [([], Lib.Dir)]) (Some "")
                   (fun _ => zero) 0 sample_clock 0 in
  (path req = "/"
   /\ Lib.is_file (files w) (Lib.joinpath (TEMPLATES_DIR w) "index.html") = false)
  /\ do_GET req w = (Raise OSError, w).
Proof.
  intros req w.
  assert (Hp : path req = "/") by reflexivity.
  assert (Hf : Lib.is_file (files w)
                 (Lib.joinpath (TEMPLATES_DIR w) "index.html") = false)
    by reflexivity.
  split; [now split|].
  exact (index_page_without_template req w (or_introl Hp) Hf).
Defined.

(** ** The message of a redirect, written and read back *)

Ltac each_open_char c :=
  destruct c as [[] [] [] [] [] [] [] []]; reflexivity.

Lemma replace_char_cons (a b c : ascii) (r : string) :
  PyStr.replace (String c r) (String a EmptyString) (String b EmptyString) None
  = String (if Ascii.eqb c a then b else c)
           (PyStr.replace r (String a EmptyString) (String b EmptyString) None).
Proof.
  unfold PyStr.replace. unfold PyStr.replace_scan at 1; fold PyStr.replace_scan.
  cbn [PyStr.may_replace andb PyStr.one_less String.length Nat.sub].
  rewrite prefix_cons. destruct (ascii_dec a c) as [<-|Hac].
  - now rewrite prefix_empty, Ascii.eqb_refl.
  - destruct (Ascii.eqb_spec c a) as [->|_]; [congruence|reflexivity].
Qed.

(** Replacing one character by another works piece by piece. *)
Lemma replace_char_app (a b : ascii) (s t : string) :
  PyStr.replace (s ++ t) (String a EmptyString) (String b EmptyString) None
  = PyStr.replace s (String a EmptyString) (String b EmptyString) None
    ++ PyStr.replace t (String a EmptyString) (String b EmptyString) None.
Proof.
  induction s as [|c s IH]; [reflexivity|].
  cbn [append]. rewrite !replace_char_cons. cbn [append]. now rewrite IH.
Qed.

Lemma quote_cons (c : ascii) (r safe : string) :
  Url.quote (String c r) safe
  = Url.quote (String c EmptyString) safe ++ Url.quote r safe.
Proof.
  cbn [Url.quote]. destruct (Url.always_safe c || Url.mem_char c safe);
    [reflexivity|].
  cbn [append]. unfold Url.hex_byte. cbn [append]. reflexivity.
Qed.

(** One character through [quote] with the space kept, the exchange of
    spaces for plus signs, and back through the percent decoding. *)
Lemma decode_char_space (c : ascii) (t : string) :
  Url.unquote_to_bytes
    (PyStr.replace
       (PyStr.replace (Url.quote (String c EmptyString) " ") " " "+" None)
       "+" " " None ++ t)
  = String c (Url.unquote_to_bytes t).
Proof. each_open_char c. Qed.

Lemma decode_char (c : ascii) (t : string) :
  Url.unquote_to_bytes
    (PyStr.replace (Url.quote (String c EmptyString) "") "+" " " None ++ t)
  = String c (Url.unquote_to_bytes t).
Proof. each_open_char c. Qed.

Lemma decode_quote_space (s : string) :
  Url.unquote_to_bytes
    (PyStr.replace (PyStr.replace (Url.quote s " ") " " "+" None) "+" " " None)
  = s.
Proof.
  induction s as [|c r IH]; [reflexivity|].
  now rewrite quote_cons, !replace_char_app, decode_char_space, IH.
Qed.

Lemma decode_quote (s : string) :
  Url.unquote_to_bytes (PyStr.replace (Url.quote s "") "+" " " None) = s.
Proof.
  induction s as [|c r IH]; [reflexivity|].
  now rewrite quote_cons, replace_char_app, decode_char, IH.
Qed.

(** The bytes [parse_qsl] finds in a quoted text are the bytes of the
    text, and what it decodes from them is the text. *)
Lemma decode_quote_plus_bytes (s : string) :
  Url.unquote_to_bytes (PyStr.replace (Url.quote_plus s) "+" " " None) = s.
Proof.
  unfold Url.quote_plus. destruct (negb (Url.mem_char " " s)).
  - apply decode_quote.
  - apply decode_quote_space.
Qed.

Lemma decode_quote_plus (s : string) :
  Utf8.valid s = true ->
  Url.unquote (PyStr.replace (Url.quote_plus s) "+" " " None) = s.
Proof.
  intros H. unfold Url.unquote. rewrite decode_quote_plus_bytes.
  now apply decode_replace_valid.
Qed.

Lemma mem_char_app (c : ascii) (a b : string) :
  Url.mem_char c (a ++ b) = Url.mem_char c a || Url.mem_char c b.
Proof.
  induction a as [|x a IH]; [reflexivity|].
  cbn [Url.mem_char append]. now rewrite IH, orb_assoc.
Qed.

Lemma no_amp_char_space (c : ascii) :
  Url.mem_char "&"
    (PyStr.replace (Url.quote (String c EmptyString) " ") " " "+" None) = false.
Proof. each_char c. Qed.

Lemma no_amp_char (c : ascii) :
  Url.mem_char "&" (Url.quote (String c EmptyString) "") = false.
Proof. each_char c. Qed.

(** A quoted text holds no ampersand. *)
Lemma no_amp_quote_plus (s : string) :
  Url.mem_char "&" (Url.quote_plus s) = false.
Proof.
  unfold Url.quote_plus. destruct (negb (Url.mem_char " " s)).
  - induction s as [|c r IH]; [reflexivity|].
    now rewrite quote_cons, mem_char_app, no_amp_char, IH.
  - induction s as [|c r IH]; [reflexivity|].
    now rewrite quote_cons, replace_char_app, mem_char_app, no_amp_char_space, IH.
Qed.

Lemma is_empty_app (a b : string) :
  PyStr.is_empty (a ++ b) = PyStr.is_empty a && PyStr.is_empty b.
Proof. now destruct a. Qed.

Lemma nonempty_char_space (c : ascii) :
  PyStr.is_empty
    (PyStr.replace (Url.quote (String c EmptyString) " ") " " "+" None) = false.
Proof. each_char c. Qed.

Lemma nonempty_char (c : ascii) :
  PyStr.is_empty (Url.quote (String c EmptyString) "") = false.
Proof. each_char c. Qed.

Lemma is_empty_quote_plus (s : string) :
  PyStr.is_empty (Url.quote_plus s) = PyStr.is_empty s.
Proof.
  unfold Url.quote_plus. destruct s as [|c r]; [reflexivity|].
  destruct (negb _).
  - now rewrite quote_cons, is_empty_app, nonempty_char.
  - now rewrite quote_cons, replace_char_app, is_empty_app, nonempty_char_space.
Qed.

Lemma split_no_sep (sep : ascii) (a : string) :
  Url.mem_char sep a = false -> PyStr.split sep a = [a].
Proof.
  induction a as [|c r IH]; [reflexivity|].
  cbn [Url.mem_char PyStr.split]. intros H.
  apply orb_false_iff in H as (Hc & Hr). rewrite Hc. now rewrite IH.
Qed.

Lemma split_at_sep (sep : ascii) (a b : string) :
  Url.mem_char sep a = false ->
  PyStr.split sep (a ++ String sep b) = a :: PyStr.split sep b.
Proof.
  induction a as [|c r IH]; cbn [Url.mem_char PyStr.split append]; intros H.
  - now rewrite Ascii.eqb_refl.
  - apply orb_false_iff in H as (Hc & Hr). rewrite Hc. now rewrite IH.
Qed.

(** The pairs [parse_qsl] reads from the query of a [Location]. *)
Lemma location_pairs (message level : string) :
  Utf8.valid message = true -> Utf8.valid level = true ->
  Url.parse_qsl (PyStr.partition_tail "?" (location message level))
  = ((if PyStr.is_empty message then [] else [("message", message)])
     ++ (if PyStr.is_empty level then [] else [("level", level)]))%list.
Proof.
  intros Hvm Hvl. unfold location, Url.parse_qsl.
  change (PyStr.partition_tail "?"
            ("/?message=" ++ Url.quote_plus message ++ "&level="
             ++ Url.quote_plus level))
    with (("message=" ++ Url.quote_plus message)
          ++ String "&" ("level=" ++ Url.quote_plus level)).
  rewrite split_at_sep
    by (rewrite mem_char_app; cbn; apply no_amp_quote_plus).
  rewrite split_no_sep
    by (rewrite mem_char_app; cbn; apply no_amp_quote_plus).
  cbn [flat_map]. rewrite app_nil_r.
  assert (Hfield : forall key text,
             Url.mem_char "=" key = false ->
             key <> EmptyString ->
             Url.unquote (PyStr.replace key "+" " " None) = key ->
             Utf8.valid text = true ->
             Url.parse_field (key ++ String "=" (Url.quote_plus text))
             = if PyStr.is_empty text then [] else [(key, text)]).
  { intros key text Hk Hne Hdec Hv. unfold Url.parse_field.
    assert (Hsplit : PyStr.split_once "=" (key ++ String "=" (Url.quote_plus text))
                     = Some (key, Url.quote_plus text)).
    { clear Hne Hdec. induction key as [|c r IH]; [reflexivity|].
      cbn [Url.mem_char] in Hk. apply orb_false_iff in Hk as (Hc & Hr).
      cbn [append PyStr.split_once]. rewrite Hc. now rewrite IH. }
    rewrite Hsplit. destruct key as [|c r]; [congruence|]. cbn [append PyStr.is_empty].
    rewrite is_empty_quote_plus. destruct (PyStr.is_empty text); [reflexivity|].
    now rewrite Hdec, decode_quote_plus. }
  change ("message=" ++ Url.quote_plus message)
    with ("message" ++ String "=" (Url.quote_plus message)).
  change ("level=" ++ Url.quote_plus level)
    with ("level" ++ String "=" (Url.quote_plus level)).
  rewrite (Hfield "message" message) by (reflexivity || discriminate || exact Hvm).
  rewrite (Hfield "level" level) by (reflexivity || discriminate || exact Hvl).
  reflexivity.
Qed.

Lemma location_query (message level : string) :
  Utf8.valid message = true -> Utf8.valid level = true ->
  let query := Url.parse_qs
                 (PyStr.partition_tail "?" (location message level)) in
  get_default query "message" [""] = [message]
  /\ get_default query "level" ["info"]
     = [if PyStr.is_empty level then "info" else level].
Proof.
  intros Hvm Hvl. cbv zeta. unfold get_default.
  rewrite !get_parse_qs, (location_pairs _ _ Hvm Hvl).
  destruct message as [|c m], level as [|d l]; cbn; split; reflexivity.
Qed.

(** X9. The message survives the redirect.  For every message and
    every level that are text, the query [serve_index] parses from the
    [Location] that [redirect_with_message] writes holds that message,
    and that level when it is not empty ([info] otherwise); so a GET of
    the [Location] answers with the template in which [message] is the
    message and [message_class] the level (nothing when the message is
    empty). *)
Theorem redirect_message_round_trip :
  forall (message level : string),
    Utf8.valid message = true ->
    Utf8.valid level = true ->
    (let query := Url.parse_qs
                    (PyStr.partition_tail "?" (location message level)) in
     get_default query "message" [""] = [message]
     /\ get_default query "level" ["info"]
        = [if PyStr.is_empty level then "info" else level])
    /\ forall (req : Request) (w : World) (content : string),
         path req = location message level ->
         load_template "index.html" w = (Ok content, w) ->
         server_log w <> None ->
         let body :=
           substitute content
             [("message", message);
              ("message_class",
               if PyStr.is_empty message then ""
               else if PyStr.is_empty level then "info" else level)] in
         fst (do_GET req w)
         = Ok (Sent 200 [("Content-Type", "text/html; charset=utf-8");
                         ("Content-Length",
                          PyStr.str_of_nat (String.length body))]
                    body).
Proof.
  intros message level Hvm Hvl. split; [now apply location_query|].
  intros req w content Hpath Hload Hlog body.
  assert (Hroute : path req = "/" \/ PyStr.startswith (path req) "/?" = true)
    by (right; rewrite Hpath; reflexivity).
  rewrite (index_route _ _ Hroute).
  rewrite (serve_index_ok req w content Hload Hlog). cbn [fst].
  rewrite Hpath.
  destruct (location_query message level Hvm Hvl) as (Hm & Hl).
  cbv zeta in Hm, Hl. rewrite Hm, Hl. reflexivity.
Qed.

(** The message holds an e with an acute accent, U+00E9, an ampersand
    and a plus sign. *)
Lemma redirect_message_round_trip_witness :
  let message := "Caf" ++ e_acute ++ " & 1+1" in
  let w := sample_world [] (Some "") in
  (Utf8.valid message = true /\ Utf8.valid "error" = true)
  /\ location message "error" = "/?message=Caf%C3%A9+%26+1%2B1&level=error"
  /\ get_default
       (Url.parse_qs (PyStr.partition_tail "?" (location message "error")))
       "message" [""] = [message]
  /\ fst (do_GET (get (location message "error")) w)
     = Ok (Sent 200 [("Content-Type", "text/html; charset=utf-8");
                     ("Content-Length", "30")]
                ("<p class=error>" ++ message ++ "</p>")).
Proof.
  intros message w.
  assert (Hvm : Utf8.valid message = true) by (vm_compute; reflexivity).
  assert (Hvl : Utf8.valid "error" = true) by (vm_compute; reflexivity).
  split; [split; [exact Hvm|exact Hvl]|].
  split; [vm_compute; reflexivity|].
  destruct (redirect_message_round_trip message "error" Hvm Hvl) as (Hq & Hget).
  split; [exact (proj1 Hq)|].
  rewrite (Hget (get (location message "error")) w
                "<p class={{ message_class }}>{{ message }}</p>");
    [vm_compute; reflexivity|reflexivity|vm_compute; reflexivity|
     cbn; discriminate].
Defined.

(** ** The returned salt verifies *)

Lemma fromhex_hex_step (c : ascii) (t : string) :
  Sha256.fromhex (Url.hex_byte false c ++ t)
  = match Sha256.fromhex t with
    | Some b => Some (String c b)
    | None => None
    end.
Proof. each_open_char c. Qed.

(** [bytes.fromhex] undoes [bytes.hex]. *)
Lemma fromhex_hex (b : string) : Sha256.fromhex (Sha256.hex b) = Some b.
Proof.
  induction b as [|c b IH]; [reflexivity|].
  cbn [Sha256.hex]. now rewrite fromhex_hex_step, IH.
Qed.

(** X10. The pair [hash_password] returns verifies: hashing the same
    password again with the returned salt gives the returned hash and
    the returned salt, whatever the state of the entropy source.  With
    any other supplied salt text the function raises [ValueError]
    exactly when the text is not hexadecimal, and otherwise returns
    the salt in lowercase hexadecimal. *)
Theorem hash_password_verifies :
  forall (password : string) (w : World),
    (exists hash salt,
        fst (hash_password password None w) = Ok (hash, salt)
        /\ forall w2,
             hash_password password (Some salt) w2 = (Ok (hash, salt), w2))
    /\ (forall salt w2,
           match Sha256.fromhex salt with
           | Some b =>
               exists hash,
                 hash_password password (Some salt) w2
                 = (Ok (hash, Sha256.hex b), w2)
                 /\ Sha256.fromhex (Sha256.hex b) = Some b
           | None => hash_password password (Some salt) w2 = (Raise ValueError, w2)
           end).
Proof.
  intros password w. split.
  - exists (Sha256.hex (Sha256.pbkdf2_hmac password (fresh_salt w) ITERATIONS)),
      (Sha256.hex (fresh_salt w)).
    split; [reflexivity|]. intros w2.
    unfold hash_password, bind, ret. now rewrite fromhex_hex.
  - intros salt w2. unfold hash_password, bind, ret, raise.
    destruct (Sha256.fromhex salt) as [b|]; [|reflexivity].
    eexists. split; [reflexivity|apply fromhex_hex].
Qed.

(** ** The path of a static asset *)

Lemma is_under_app (base ps : Lib.Path) : Lib.is_under base (base ++ ps)%list = true.
Proof.
  induction base as [|a base IH]; [reflexivity|].
  cbn. now rewrite String.eqb_refl, IH.
Qed.


Lemma static_relative_path (rest : string) :
  PyStr.replace ("/static/" ++ rest) "/static/" "" (Some 1) = rest.
Proof. apply (replace_first_prefix "/" "static/" "" rest). Qed.

(** X11. The path a static request looks up, as a path text: for the
    request path [/static/<rest>] where [rest] does not start with a
    slash, it is the public directory followed by the segments of
    [rest], so it has the public directory as a leading part.  Only the
    first [/static/] is cut off: one that comes again in [rest] stays
    as a directory name.  (What the operating system makes of the
    segments, [..] among them, is the matter of C9.) *)
Theorem static_plain_path_confined :
  forall (req : Request) (w : World) (rest : string),
    path req = "/static/" ++ rest ->
    PyStr.startswith rest "/" = false ->
    let candidate :=
      Lib.joinpath (PUBLIC_DIR w)
                   (PyStr.replace (path req) "/static/" "" (Some 1)) in
    candidate = (PUBLIC_DIR w ++ Lib.parts rest)%list
    /\ Lib.is_under (PUBLIC_DIR w) candidate = true.
Proof.
  intros req w rest Hpath Hrel candidate.
  assert (Hcand : candidate = (PUBLIC_DIR w ++ Lib.parts rest)%list).
  { subst candidate. rewrite Hpath, static_relative_path.
    unfold Lib.joinpath. now rewrite Hrel. }
  split; [exact Hcand|]. rewrite Hcand. apply is_under_app.
Qed.

Lemma static_plain_path_confined_witness :
  let req := get "/static/css/static/./style.css" in
  let w := sample_world [] (Some "") in
  (path req = "/static/" ++ "css/static/./style.css"
   /\ PyStr.startswith "css/static/./style.css" "/" = false)
  /\ Lib.joinpath (PUBLIC_DIR w)
       (PyStr.replace (path req) "/static/" "" (Some 1))
     = ["srv"; "public"; "css"; "static"; "style.css"].
Proof.
  intros req w.
  assert (H1 : path req = "/static/" ++ "css/static/./style.css") by reflexivity.
  assert (H2 : PyStr.startswith "css/static/./style.css" "/" = false)
    by reflexivity.
  split; [split; [exact H1|exact H2]|].
  rewrite (proj1 (static_plain_path_confined req w _ H1 H2)). reflexivity.
Defined.

(** ** What a static request answers *)







Lemma send_error_run (req : Request) (code : nat) (message : string) (w : World) :
  server_log w <> None ->
  send_error req code message w
  = (Ok (ErrorPage code message),
     logged req (request_log_line req code)
       (logged req ("code " ++ PyStr.str_of_nat code ++ ", message " ++ message)
               w)).
Proof.
  intros H. unfold send_error, send_response, log_request, bind.
  rewrite (log_message_ok _ _ _ H).
  fold (request_log_line req code).
  now rewrite (log_message_ok _ _ _ (logged_log_some _ _ _ H)).
Qed.



(** ** Requests without a route *)

(** X13. A request without a route is answered by the 404 page
    ["Not Found"] and leaves two lines in the log, the error and the
    request: every POST whose path is not exactly [/register], whatever
    its body, and every GET whose path is not [/] and starts with none
    of [/?], [/users] and [/static/]. *)
Theorem unrouted_request_not_found :
  forall (req : Request) (w : World),
    server_log w <> None ->
    let answered :=
      (Ok (ErrorPage 404 "Not Found"),
       logged req (request_log_line req 404)
              (logged req "code 404, message Not Found" w)) in
    (path req <> "/register" -> do_POST req w = answered)
    /\ (path req <> "/" ->
        PyStr.startswith (path req) "/?" = false ->
        PyStr.startswith (path req) "/users" = false ->
        PyStr.startswith (path req) "/static/" = false ->
        do_GET req w = answered)
    /\ db (snd answered) = db w
    /\ entropy_pos (snd answered) = entropy_pos w
    /\ clock_pos (snd answered) = 2 + clock_pos w.
Proof.
  intros req w Hlog answered. split; [|split; [|split; [|split]]].
  - intros Hpath. unfold do_POST.
    destruct (String.eqb_spec (path req) "/register"); [congruence|].
    now rewrite send_error_run.
  - intros Hroot Hq Hu Hs. unfold do_GET.
    destruct (String.eqb_spec (path req) "/"); [congruence|].
    rewrite Hq, Hu, Hs. cbn [orb]. now rewrite send_error_run.
  - reflexivity.
  - reflexivity.
  - reflexivity.
Qed.

Lemma unrouted_request_not_found_witness :
  let req := post "name=Al&email=al@x.org&password=pw&role=user" in
  let req' := mkRequest "POST /register/ HTTP/1.1" "/register/" "127.0.0.1"
                        (content_length req) (rfile req) in
  let w := sample_world [] (Some "") in
  server_log w <> None
  /\ fst (do_POST req' w) = Ok (ErrorPage 404 "Not Found")
  /\ db (snd (do_POST req' w)) = db w.
Proof.
  intros req req' w.
  assert (Hl : server_log w <> None) by (cbn; discriminate).
  split; [exact Hl|].
  rewrite (proj1 (unrouted_request_not_found req' w Hl))
    by (cbn; discriminate).
  split; reflexivity.
Defined.

(** ** Registration, then the listing *)

Lemma serve_users_ok (req : Request) (w : World) :
  server_log w <> None ->
  let payload :=
    Lib.dumps 2
      (Lib.JDict [("users",
                   Lib.JList (map row_dict
                                  (order_by_created_at_desc (users (db w)))))]) in
  serve_users req w
  = (Ok (Sent 200
           [("Content-Type", "application/json; charset=utf-8");
            ("Content-Length", PyStr.str_of_nat (String.length payload))]
           payload),
     logged req (request_log_line req 200) w).
Proof.
  intros Hlog payload. unfold serve_users, select_users, send_response,
    log_request. unfold bind at 1. unfold bind.
  fold (request_log_line req 200). fold payload.
  now rewrite (log_message_ok _ _ _ Hlog).
Qed.

(** X14. A registered user is listed.  After a registration whose
    body decodes, whose fields are valid and whose normalised address
    is ASCII and new, a GET of [/users] answers with the list that
    holds the new user, with the trimmed name, the normalised address
    and the lowercased role, next to every user that was listed before:
    one more than the table held. *)
Theorem registered_user_is_listed :
  forall (registration listing : Request) (w : World),
    path registration = "/register" ->
    Utf8.valid (request_body registration) = true ->
    errors_of registration = [] ->
    Utf8.is_ascii (email_of registration) = true ->
    email_taken (email_of registration) (users (db w)) = false ->
    server_log w <> None ->
    PyStr.startswith (path listing) "/users" = true ->
    let w1 := snd (do_POST registration w) in
    exists rows,
      fst (do_GET listing w1)
      = Ok (Sent 200
              [("Content-Type", "application/json; charset=utf-8");
               ("Content-Length",
                PyStr.str_of_nat
                  (String.length
                     (Lib.dumps 2 (Lib.JDict [("users", Lib.JList rows)]))))]
              (Lib.dumps 2 (Lib.JDict [("users", Lib.JList rows)])))
      /\ In (Lib.JDict
               [("id", Lib.JInt (next_id (db w)));
                ("name", Lib.JStr (name_of registration));
                ("email", Lib.JStr (email_of registration));
                ("role", Lib.JStr (role_of registration));
                ("created_at",
                 Lib.JStr (Lib.isoformat (clock w (clock_pos w))))]) rows
      /\ (forall u, In u (users (db w)) -> In (row_dict u) rows)
      /\ List.length rows = S (List.length (users (db w))).
Proof.
  intros registration listing w Hpath _ Herr _ Hfree Hlog Hroute w1. subst w1.
  rewrite (do_POST_register _ _ Hpath).
  destruct (register_fresh registration w Herr Hlog Hfree)
    as (w' & Hrun & Hdb & Hlog').
  rewrite Hrun. cbn [snd].
  exists (map row_dict (order_by_created_at_desc (users (db w')))).
  pose proof (order_by_perm (users (db w'))) as Hperm.
  split; [|split; [|split]].
  - unfold do_GET. rewrite (users_route _ Hroute), Hroute.
    now rewrite (serve_users_ok listing w' Hlog').
  - change (Lib.JDict _) with (row_dict (new_user registration w)).
    apply in_map. apply (Permutation_in _ Hperm).
    rewrite Hdb. cbn [users]. apply in_or_app. right. now left.
  - intros u Hu. apply in_map. apply (Permutation_in _ Hperm).
    rewrite Hdb. cbn [users]. apply in_or_app. now left.
  - rewrite length_map, <- (Permutation_length Hperm), Hdb. cbn [users].
    rewrite length_app. cbn. lia.
Qed.

(** The name of the registration is [Al] and an e with an acute
    accent, between two no-break spaces. *)
Lemma registered_user_is_listed_witness :
  let registration :=
    post "name=%C2%A0Al%C3%A9%C2%A0&email=AL%40x.org&password=pw&role=USER" in
  let listing := get "/users" in
  let w := sample_world [bob] (Some "") in
  (path registration = "/register"
   /\ Utf8.valid (request_body registration) = true
   /\ errors_of registration = []
   /\ Utf8.is_ascii (email_of registration) = true
   /\ email_taken (email_of registration) (users (db w)) = false
   /\ server_log w <> None
   /\ PyStr.startswith (path listing) "/users" = true)
  /\ exists rows,
       In (Lib.JDict
             [("id", Lib.JInt 3); ("name", Lib.JStr ("Al" ++ e_acute));
              ("email", Lib.JStr "al@x.org"); ("role", Lib.JStr "user");
              ("created_at", Lib.JStr "2024-05-17T09:30:00")]) rows
       /\ List.length rows = 2.
Proof.
  intros registration listing w.
  assert (H1 : path registration = "/register") by reflexivity.
  assert (Hv : Utf8.valid (request_body registration) = true)
    by (vm_compute; reflexivity).
  assert (H2 : errors_of registration = []) by (vm_compute; reflexivity).
  assert (Ha : Utf8.is_ascii (email_of registration) = true)
    by (vm_compute; reflexivity).
  assert (H3 : email_taken (email_of registration) (users (db w)) = false)
    by (vm_compute; reflexivity).
  assert (H4 : server_log w <> None) by (cbn; discriminate).
  assert (H5 : PyStr.startswith (path listing) "/users" = true) by reflexivity.
  split; [split; [exact H1|split; [exact Hv|split; [exact H2|split; [exact Ha|
    split; [exact H3|split; [exact H4|exact H5]]]]]]|].
  destruct (registered_user_is_listed registration listing w H1 Hv H2 Ha H3 H4 H5)
    as (rows & _ & Hin & _ & Hlen).
  exists rows. split; [|exact Hlen].
  assert (Hn : name_of registration = "Al" ++ e_acute)
    by (vm_compute; reflexivity).
  assert (He : email_of registration = "al@x.org") by (vm_compute; reflexivity).
  assert (Hr : role_of registration = "user") by (vm_compute; reflexivity).
  assert (Hi : next_id (db w) = 3%Z) by (vm_compute; reflexivity).
  assert (Hc : Lib.isoformat (clock w (clock_pos w)) = "2024-05-17T09:30:00")
    by (vm_compute; reflexivity).
  now rewrite Hn, He, Hr, Hi, Hc in Hin.
Defined.

(** ** The log only grows *)

Lemma log_grows_refl (w : World) : log_grows w w.
Proof.
  unfold log_grows. destruct (server_log w) as [text|] eqn:E; [|reflexivity].
  exists "". clear E. induction text as [|c t IH]; [reflexivity|].
  cbn. injection IH as IH. now rewrite <- IH.
Qed.

Lemma append_assoc (a b c : string) : (a ++ b) ++ c = a ++ b ++ c.
Proof. induction a as [|x a IH]; [reflexivity|]. cbn. now rewrite IH. Qed.

Lemma log_grows_trans (w1 w2 w3 : World) :
  log_grows w1 w2 -> log_grows w2 w3 -> log_grows w1 w3.
Proof.
  unfold log_grows. destruct (server_log w1) as [t1|].
  - intros (m1 & ->) (m2 & ->). exists (m1 ++ m2). now rewrite append_assoc.
  - now intros ->.
Qed.

Lemma log_grows_same (w w' : World) :
  server_log w' = server_log w -> log_grows w w'.
Proof.
  intros H. unfold log_grows. rewrite <- H.
  pose proof (log_grows_refl w') as Hr. exact Hr.
Qed.

Lemma log_grows_logged (req : Request) (line : string) (w : World) :
  log_grows w (logged req line w).
Proof.
  unfold log_grows, logged. cbn [server_log set_server_log].
  destruct (server_log w); [eexists|]; reflexivity.
Qed.

Lemma log_message_grows (req : Request) (line : string) (w : World) :
  log_grows w (snd (log_message req line w)).
Proof.
  destruct (server_log w) eqn:E.
  - rewrite log_message_ok by congruence. apply log_grows_logged.
  - rewrite log_message_fail by assumption. apply log_grows_logged.
Qed.

Lemma bind_grows {A B} (c : M A) (k : A -> M B) (w : World) :
  log_grows w (snd (c w)) ->
  (forall a w', log_grows w' (snd (k a w'))) ->
  log_grows w (snd (bind c k w)).
Proof.
  intros Hc Hk. unfold bind. destruct (c w) as [[a|e] w'] eqn:E; cbn in *.
  - eapply log_grows_trans; [exact Hc|apply Hk].
  - exact Hc.
Qed.

Lemma send_response_grows (req : Request) (code : nat) (w : World) :
  log_grows w (snd (send_response req code w)).
Proof. apply log_message_grows. Qed.

Lemma send_error_grows (req : Request) (code : nat) (message : string)
      (w : World) :
  log_grows w (snd (send_error req code message w)).
Proof.
  unfold send_error. apply bind_grows; [apply log_message_grows|intros _ w1].
  apply bind_grows; [apply send_response_grows|intros _ w2].
  apply log_grows_refl.
Qed.

Lemma redirect_grows (req : Request) (message level : string) (w : World) :
  log_grows w (snd (redirect_with_message req message level w)).
Proof.
  unfold redirect_with_message.
  apply bind_grows; [apply send_response_grows|intros _ w1].
  apply log_grows_refl.
Qed.

Lemma item0_grows (l : list string) (w : World) :
  log_grows w (snd (item0 l w)).
Proof. destruct l; apply log_grows_refl. Qed.

Lemma read_file_grows (p : Lib.Path) (w : World) :
  log_grows w (snd (read_file p w)).
Proof.
  unfold read_file. destruct (Lib.stat _ _) as [[]|]; apply log_grows_refl.
Qed.

Lemma read_text_grows (p : Lib.Path) (w : World) :
  log_grows w (snd (read_text p w)).
Proof.
  destruct (read_text p w) as [r w'] eqn:E.
  apply read_text_world in E. subst. apply log_grows_refl.
Qed.

(** X15. No request rewrites the log: after every GET and every POST
    the text that was in the log is still its beginning, and a log
    that could not be opened has not been created. *)
Theorem log_only_grows :
  forall (req : Request) (w : World),
    log_grows w (snd (do_GET req w)) /\ log_grows w (snd (do_POST req w)).
Proof.
  intros req w. split.
  - unfold do_GET.
    destruct (_ || _); [|destruct (PyStr.startswith _ "/users");
                         [|destruct (PyStr.startswith _ "/static/")]].
    + unfold serve_index.
      apply bind_grows; [apply item0_grows|intros message w1].
      apply bind_grows; [apply item0_grows|intros level w2].
      apply bind_grows.
      * unfold render_template, load_template.
        apply bind_grows; [apply read_text_grows|intros c w3].
        apply log_grows_refl.
      * intros content w3.
        apply bind_grows; [apply send_response_grows|intros _ w4].
        apply log_grows_refl.
    + unfold serve_users.
      apply bind_grows; [apply log_grows_refl|intros rows w1].
      apply bind_grows; [apply send_response_grows|intros _ w2].
      apply log_grows_refl.
    + unfold serve_static. destruct (Lib.is_file _ _).
      * apply bind_grows; [apply read_file_grows|intros content w1].
        apply bind_grows; [apply send_response_grows|intros _ w2].
        apply log_grows_refl.
      * apply send_error_grows.
    + apply send_error_grows.
  - unfold do_POST. destruct (String.eqb _ _); [|apply send_error_grows].
    destruct (Utf8.valid (request_body req)) eqn:Hv;
      [|rewrite handle_register_undecodable by exact Hv; apply log_grows_refl].
    destruct (errors_of req) eqn:E.
    + rewrite (handle_register_valid req w E). cbv zeta.
      destruct (email_taken _ _);
        (eapply log_grows_trans; [|apply redirect_grows]);
        now apply log_grows_same.
    + rewrite handle_register_invalid by congruence. apply redirect_grows.
Qed.

(** ** A registration without a body *)

Lemma take_0 (s : string) : PyStr.take 0 s = EmptyString.
Proof. now destruct s. Qed.

(** X16. A POST to [/register] without a [Content-Length] header, or
    with the length 0, has an empty body whatever bytes follow the
    headers: it is rejected with all four validation messages and
    nothing is stored. *)
Theorem registration_without_body :
  forall (req : Request) (w : World),
    path req = "/register" ->
    content_length req = None \/ content_length req = Some 0 ->
    server_log w <> None ->
    request_body req = EmptyString
    /\ errors_of req
       = ["Name is required."; "Email is required."; "Password is required.";
          "Role must be 'admin' or 'user'."]
    /\ fst (do_POST req w)
       = Ok (Sent 303
               [("Location",
                 "/?message=Name+is+required.+Email+is+required.+Password+is+required.+Role+must+be+%27admin%27+or+%27user%27.&level=error")]
               "")
    /\ db (snd (do_POST req w)) = db w.
Proof.
  intros req w Hpath Hlen Hlog.
  assert (Hbody : request_body req = EmptyString)
    by (unfold request_body; destruct Hlen as [-> | ->]; apply take_0).
  assert (Herr : errors_of req
                 = ["Name is required."; "Email is required.";
                    "Password is required.";
                    "Role must be 'admin' or 'user'."])
    by (unfold errors_of, name_of, email_of, password_of, role_of, form_of;
        rewrite Hbody; reflexivity).
  split; [exact Hbody|]. split; [exact Herr|].
  rewrite (do_POST_register _ _ Hpath).
  rewrite handle_register_invalid
    by (rewrite ?Hbody, ?Herr; reflexivity || discriminate).
  rewrite redirect_ok by exact Hlog. rewrite Herr. split; reflexivity.
Qed.

Lemma registration_without_body_witness :
  let req := mkRequest "POST /register HTTP/1.1" "/register" "127.0.0.1" None
                       "name=Al&email=al@x.org&password=pw&role=user" in
  let w := sample_world [] (Some "") in
  (path req = "/register" /\ content_length req = None /\ server_log w <> None)
  /\ db (snd (do_POST req w)) = db w.
Proof.
  intros req w.
  assert (Hp : path req = "/register") by reflexivity.
  assert (Hc : content_length req = None) by reflexivity.
  assert (Hl : server_log w <> None) by (cbn; discriminate).
  split; [now repeat split|].
  exact (proj2 (proj2 (proj2 (registration_without_body req w Hp
                                (or_introl Hc) Hl)))).
Defined.

(** ** Timestamps sort as time *)

Lemma digits_fuel_acc (f n : nat) (acc : string) :
  PyStr.digits_fuel f n acc = PyStr.digits_fuel f n EmptyString ++ acc.
Proof.
  revert n acc. induction f as [|f IH]; intros n acc; [reflexivity|].
  cbn [PyStr.digits_fuel]. destruct (n <? 10); [reflexivity|].
  rewrite (IH _ (String _ acc)), (IH _ (String _ EmptyString)).
  now rewrite append_assoc.
Qed.

Lemma digits_fuel_enough (f1 f2 n : nat) (acc : string) :
  n < f1 -> n < f2 ->
  PyStr.digits_fuel f1 n acc = PyStr.digits_fuel f2 n acc.
Proof.
  revert f2 n acc. induction f1 as [|f1 IH]; intros f2 n acc H1 H2; [lia|].
  destruct f2 as [|f2]; [lia|]. cbn [PyStr.digits_fuel].
  destruct (Nat.ltb_spec n 10) as [Hlt|Hge]; [reflexivity|].
  assert (Hdiv : n / 10 < n) by (apply Nat.div_lt; lia).
  apply IH; lia.
Qed.

Lemma str_of_nat_digit (n : nat) :
  n < 10 ->
  PyStr.str_of_nat n = String (ascii_of_nat (48 + n mod 10)) EmptyString.
Proof.
  intros H. unfold PyStr.str_of_nat. cbn [PyStr.digits_fuel].
  now destruct (Nat.ltb_spec n 10); [|lia].
Qed.

Lemma str_of_nat_step (n : nat) :
  10 <= n ->
  PyStr.str_of_nat n
  = PyStr.str_of_nat (n / 10)
    ++ String (ascii_of_nat (48 + n mod 10)) EmptyString.
Proof.
  intros H. unfold PyStr.str_of_nat at 1. cbn [PyStr.digits_fuel].
  destruct (Nat.ltb_spec n 10) as [Hlt|_]; [lia|].
  rewrite digits_fuel_acc. f_equal. unfold PyStr.str_of_nat.
  assert (Hdiv : n / 10 < n) by (apply Nat.div_lt; lia).
  apply digits_fuel_enough; lia.
Qed.

Lemma repeat_char_snoc (c : ascii) (k : nat) :
  Sha256.repeat_char c k ++ String c EmptyString = Sha256.repeat_char c (S k).
Proof. induction k as [|k IH]; [reflexivity|]. cbn. now rewrite IH. Qed.

Lemma zfill_spec (w : nat) (s : string) :
  PyStr.zfill w s = Sha256.repeat_char "0" (w - String.length s) ++ s.
Proof.
  induction w as [|w IH]; cbn [PyStr.zfill].
  - now destruct (String.length s <? 0).
  - destruct (Nat.ltb_spec (String.length s) (S w)) as [Hlt|Hge].
    + rewrite IH. replace (S w - String.length s) with (S (w - String.length s))
        by lia. reflexivity.
    + now replace (S w - String.length s) with 0 by lia.
Qed.

Lemma fixed_width_str (w n : nat) :
  1 <= w -> n < 10 ^ w ->
  String.length (PyStr.str_of_nat n) <= w
  /\ fixed_width w n
     = Sha256.repeat_char "0" (w - String.length (PyStr.str_of_nat n))
       ++ PyStr.str_of_nat n.
Proof.
  revert n. induction w as [|w IH]; intros n Hw Hn; [lia|].
  cbn [fixed_width].
  destruct (Nat.lt_ge_cases n 10) as [Hlt|Hge].
  - rewrite (str_of_nat_digit n Hlt). cbn [String.length].
    split; [lia|]. rewrite (Nat.div_small n 10 Hlt).
    replace (S w - 1) with w by lia.
    destruct w as [|w]; [reflexivity|].
    destruct (IH 0) as (_ & ->); [lia|apply Nat.neq_0_lt_0, Nat.pow_nonzero; lia|].
    change (PyStr.str_of_nat 0) with "0". cbn [String.length].
    replace (S w - 1) with w by lia.
    rewrite append_assoc. cbn [append].
    now rewrite <- repeat_char_snoc, append_assoc.
  - assert (Hw' : 1 <= w).
    { destruct w; [|lia]. cbn in Hn. lia. }
    assert (Hq : n / 10 < 10 ^ w).
    { apply Nat.Div0.div_lt_upper_bound. now rewrite <- Nat.pow_succ_r'. }
    destruct (IH (n / 10) Hw' Hq) as (Hlen & ->).
    rewrite (str_of_nat_step n Hge), append_length. cbn [String.length].
    split; [lia|].
    replace (S w - (String.length (PyStr.str_of_nat (n / 10)) + 1))
      with (w - String.length (PyStr.str_of_nat (n / 10))) by lia.
    now rewrite append_assoc.
Qed.

(** Within its width a padded number is the digits of the number. *)
Lemma pad_num_fixed (w n : nat) :
  1 <= w -> n < 10 ^ w -> Lib.pad_num w n = fixed_width w n.
Proof.
  intros Hw Hn. unfold Lib.pad_num. rewrite zfill_spec.
  now destruct (fixed_width_str w n Hw Hn) as (_ & ->).
Qed.

Lemma fixed_width_length (w n : nat) : String.length (fixed_width w n) = w.
Proof.
  revert n. induction w as [|w IH]; intros n; [reflexivity|].
  cbn [fixed_width]. rewrite append_length, IH. cbn. lia.
Qed.

Lemma compare_app (p q x y : string) :
  String.length p = String.length q ->
  String.compare (p ++ x) (q ++ y)
  = match String.compare p q with
    | Eq => String.compare x y
    | c => c
    end.
Proof.
  revert q. induction p as [|a p IH]; intros [|b q] H; try discriminate.
  - reflexivity.
  - cbn [append String.compare].
    destruct (Ascii.compare a b); [|reflexivity|reflexivity].
    apply IH. now injection H.
Qed.

Lemma digit_compare (a b : nat) :
  a < 10 -> b < 10 ->
  Ascii.compare (ascii_of_nat (48 + a)) (ascii_of_nat (48 + b))
  = Nat.compare a b.
Proof.
  intros Ha Hb.
  do 10 (destruct a as [|a];
         [do 10 (destruct b as [|b]; [reflexivity|]); lia|]).
  lia.
Qed.

Lemma compare_by_digits (a b : nat) :
  match Nat.compare (a / 10) (b / 10) with
  | Eq => Nat.compare (a mod 10) (b mod 10)
  | c => c
  end = Nat.compare a b.
Proof.
  pose proof (Nat.div_mod_eq a 10) as Ha. pose proof (Nat.div_mod_eq b 10) as Hb.
  pose proof (Nat.mod_upper_bound a 10) as Hra.
  pose proof (Nat.mod_upper_bound b 10) as Hrb.
  destruct (Nat.compare_spec (a / 10) (b / 10)) as [Hq|Hq|Hq].
  - destruct (Nat.compare_spec (a mod 10) (b mod 10)) as [Hr|Hr|Hr];
      symmetry; [apply Nat.compare_eq_iff|apply Nat.compare_lt_iff
                 |apply Nat.compare_gt_iff]; lia.
  - symmetry. apply Nat.compare_lt_iff. lia.
  - symmetry. apply Nat.compare_gt_iff. lia.
Qed.

(** Numbers of one width compare as their digits do. *)
Lemma fixed_width_compare (w a b : nat) :
  a < 10 ^ w -> b < 10 ^ w ->
  String.compare (fixed_width w a) (fixed_width w b) = Nat.compare a b.
Proof.
  revert a b. induction w as [|w IH]; intros a b Ha Hb.
  - cbn in Ha, Hb. replace a with 0 by lia. now replace b with 0 by lia.
  - cbn [fixed_width].
    rewrite compare_app by now rewrite !fixed_width_length.
    rewrite IH
      by (apply Nat.Div0.div_lt_upper_bound; now rewrite <- Nat.pow_succ_r').
    cbn [String.compare].
    rewrite digit_compare by (apply Nat.mod_upper_bound; lia).
    rewrite <- (compare_by_digits a b).
    destruct (Nat.compare (a / 10) (b / 10)); [|reflexivity|reflexivity].
    now destruct (Nat.compare (a mod 10) (b mod 10)).
Qed.

Lemma compare_same_head (c : ascii) (x y : string) :
  String.compare (String c x) (String c y) = String.compare x y.
Proof.
  cbn [String.compare]. unfold Ascii.compare. now rewrite N.compare_refl.
Qed.

Lemma string_compare_refl (s : string) : String.compare s s = Eq.
Proof.
  induction s as [|c s IH]; [reflexivity|]. now rewrite compare_same_head.
Qed.

(** The text of an instant whose fields fit their widths. *)
Lemma isoformat_fixed (d : Lib.DateTime) :
  in_calendar d ->
  Lib.isoformat d
  = fixed_width 4 (Lib.year d)
    ++ String "-"
         (fixed_width 2 (Lib.month d)
          ++ String "-"
               (fixed_width 2 (Lib.day d)
                ++ String "T"
                     (fixed_width 2 (Lib.hour d)
                      ++ String ":"
                           (fixed_width 2 (Lib.minute d)
                            ++ String ":"
                                 (fixed_width 2 (Lib.second d)
                                  ++ (if Lib.microsecond d =? 0 then ""
                                      else String "."
                                             (fixed_width 6
                                                (Lib.microsecond d)))))))).
Proof.
  intros (Hy & Hmo & Hd & Hh & Hmi & Hs & Hus).
  unfold Lib.isoformat, Lib.isoformat_seconds.
  rewrite (pad_num_fixed 4 _ (le_S _ _ (le_S _ _ (le_S _ _ (le_n 1)))) Hy),
    (pad_num_fixed 2 _ (le_S _ _ (le_n 1)) Hmo),
    (pad_num_fixed 2 _ (le_S _ _ (le_n 1)) Hd),
    (pad_num_fixed 2 _ (le_S _ _ (le_n 1)) Hh),
    (pad_num_fixed 2 _ (le_S _ _ (le_n 1)) Hmi),
    (pad_num_fixed 2 _ (le_S _ _ (le_n 1)) Hs).
  rewrite !append_assoc.
  destruct (Lib.microsecond d =? 0).
  - reflexivity.
  - rewrite (pad_num_fixed 6 _ (le_S _ _ (le_S _ _ (le_S _ _ (le_S _ _
                                 (le_S _ _ (le_n 1)))))) Hus).
    reflexivity.
Qed.

Lemma fields_compare_eq (a b : list nat) :
  fields_compare a b = Eq -> a = b.
Proof.
  revert b. induction a as [|x a IH]; intros [|y b] H; try discriminate.
  - reflexivity.
  - cbn in H. destruct (Nat.compare_spec x y) as [->|_|_]; try discriminate.
    now rewrite (IH _ H).
Qed.

(** The comparison of two timestamps is the comparison of the
    instants, field by field. *)
Lemma isoformat_compare (d1 d2 : Lib.DateTime) :
  in_calendar d1 -> in_calendar d2 ->
  String.compare (Lib.isoformat d1) (Lib.isoformat d2) = chronological d1 d2.
Proof.
  intros H1 H2.
  rewrite (isoformat_fixed d1 H1), (isoformat_fixed d2 H2).
  destruct H1 as (Hy1 & Hmo1 & Hd1 & Hh1 & Hmi1 & Hs1 & Hus1).
  destruct H2 as (Hy2 & Hmo2 & Hd2 & Hh2 & Hmi2 & Hs2 & Hus2).
  unfold chronological, fields.
  rewrite compare_app, fixed_width_compare
    by (assumption || now rewrite !fixed_width_length).
  cbn [fields_compare].
  destruct (Nat.compare (Lib.year d1) (Lib.year d2)); try reflexivity.
  rewrite compare_same_head, compare_app, fixed_width_compare
    by (assumption || now rewrite !fixed_width_length).
  destruct (Nat.compare (Lib.month d1) (Lib.month d2)); try reflexivity.
  rewrite compare_same_head, compare_app, fixed_width_compare
    by (assumption || now rewrite !fixed_width_length).
  destruct (Nat.compare (Lib.day d1) (Lib.day d2)); try reflexivity.
  rewrite compare_same_head, compare_app, fixed_width_compare
    by (assumption || now rewrite !fixed_width_length).
  destruct (Nat.compare (Lib.hour d1) (Lib.hour d2)); try reflexivity.
  rewrite compare_same_head, compare_app, fixed_width_compare
    by (assumption || now rewrite !fixed_width_length).
  destruct (Nat.compare (Lib.minute d1) (Lib.minute d2)); try reflexivity.
  rewrite compare_same_head, compare_app, fixed_width_compare
    by (assumption || now rewrite !fixed_width_length).
  destruct (Nat.compare (Lib.second d1) (Lib.second d2)); try reflexivity.
  set (c := Nat.compare (Lib.microsecond d1) (Lib.microsecond d2)).
  replace (match c with Eq => Eq | Lt => Lt | Gt => Gt end) with c
    by now destruct c.
  subst c.
  destruct (Nat.eqb_spec (Lib.microsecond d1) 0) as [E1|E1],
    (Nat.eqb_spec (Lib.microsecond d2) 0) as [E2|E2].
  - now rewrite E1, E2.
  - rewrite E1. symmetry. apply Nat.compare_lt_iff. lia.
  - rewrite E2. symmetry. apply Nat.compare_gt_iff. lia.
  - rewrite compare_same_head. now apply fixed_width_compare.
Qed.

(** X17. Timestamps sort as time.  For instants whose fields fit the
    printed widths, the texts [isoformat] gives compare as the instants
    do, also when one of them has no microseconds and prints without
    the fraction; different instants have different texts; and of two
    users the one registered later comes first under
    [ORDER BY created_at DESC]. *)
Theorem isoformat_sorts_as_time :
  forall d1 d2 : Lib.DateTime,
    in_calendar d1 -> in_calendar d2 ->
    String.compare (Lib.isoformat d1) (Lib.isoformat d2) = chronological d1 d2
    /\ (String.leb (Lib.isoformat d1) (Lib.isoformat d2) = true
        <-> chronological d1 d2 <> Gt)
    /\ (Lib.isoformat d1 = Lib.isoformat d2 -> d1 = d2)
    /\ (forall u1 u2,
           created_at u1 = Lib.isoformat d1 ->
           created_at u2 = Lib.isoformat d2 ->
           chronological d1 d2 = Lt ->
           newer_first u2 u1 /\ ~ newer_first u1 u2
           /\ order_by_created_at_desc [u1; u2] = [u2; u1]).
Proof.
  intros d1 d2 H1 H2.
  pose proof (isoformat_compare d1 d2 H1 H2) as Hc.
  split; [exact Hc|]. split; [|split].
  - unfold String.leb. rewrite Hc.
    destruct (chronological d1 d2); split; congruence.
  - intros Heq. rewrite Heq, string_compare_refl in Hc.
    symmetry in Hc. apply fields_compare_eq in Hc.
    destruct d1, d2. unfold fields in Hc. cbn in Hc. congruence.
  - intros u1 u2 E1 E2 Hlt.
    assert (Hle : String.leb (created_at u1) (created_at u2) = true)
      by (unfold String.leb; now rewrite E1, E2, Hc, Hlt).
    assert (Hgt : String.leb (created_at u2) (created_at u1) = false)
      by (unfold String.leb; rewrite String.compare_antisym, E1, E2, Hc, Hlt;
          reflexivity).
    split; [exact Hle|]. split; [unfold newer_first; congruence|].
    cbn. now rewrite Hgt.
Qed.

Lemma isoformat_sorts_as_time_witness :
  let d1 := Lib.mkDateTime 2024 5 17 9 30 0 0 in
  let d2 := Lib.mkDateTime 2024 5 17 9 30 0 1 in
  (in_calendar d1 /\ in_calendar d2)
  /\ String.compare (Lib.isoformat d1) (Lib.isoformat d2) = Lt.
Proof.
  intros d1 d2.
  assert (H1 : in_calendar d1)
    by (repeat split; apply Nat.ltb_lt; vm_compute; reflexivity).
  assert (H2 : in_calendar d2)
    by (repeat split; apply Nat.ltb_lt; vm_compute; reflexivity).
  split; [now split|].
  rewrite (proj1 (isoformat_sorts_as_time d1 d2 H1 H2)). reflexivity.
Defined.

(** ** The listing is plain ASCII *)

Lemma escape_char_ascii (c : ascii) :
  all_chars is_json_text_char (Lib.escape_char c) = true.
Proof. each_char c. Qed.

Lemma hex_digit_ascii (n : N) : is_json_text_char (Lib.hex_digit_of n) = true.
Proof.
  unfold Lib.hex_digit_of.
  assert (H : N.to_nat (n mod 16) < 16).
  { pose proof (N.mod_upper_bound n 16). lia. }
  set (k := N.to_nat (n mod 16)) in *.
  do 16 (destruct k as [|k]; [reflexivity|]). lia.
Qed.

Lemma hex4_ascii (n : N) : all_chars is_json_text_char (Lib.hex4 n) = true.
Proof. unfold Lib.hex4. cbn [all_chars]. now rewrite !hex_digit_ascii. Qed.

Lemma escape_point_ascii (n : N) :
  all_chars is_json_text_char (Lib.escape_point n) = true.
Proof.
  unfold Lib.escape_point. destruct (n <? 65536)%N; cbv zeta;
    rewrite ?all_chars_app, !hex4_ascii; reflexivity.
Qed.

Lemma escape_scan_ascii (k : nat) (s : string) :
  all_chars is_json_text_char (Lib.escape_scan k s) = true.
Proof.
  revert k. induction s as [|c s IH]; intros k; [reflexivity|].
  destruct k as [|k]; [|exact (IH k)].
  unfold Lib.escape_scan; fold Lib.escape_scan.
  destruct (Utf8.head (String c s)) as [[|[|len]]|len];
    rewrite all_chars_app, ?escape_char_ascii, ?escape_point_ascii, IH;
    reflexivity.
Qed.

Lemma encode_string_ascii (s : string) :
  all_chars is_json_text_char (Lib.encode_string s) = true.
Proof.
  unfold Lib.encode_string, Lib.escape. cbn [all_chars].
  rewrite all_chars_app. cbn [all_chars].
  replace (is_json_text_char (ascii_of_nat 34)) with true by reflexivity.
  cbn [andb]. rewrite andb_true_r. apply escape_scan_ascii.
Qed.

Lemma digit_ascii (n : nat) :
  is_json_text_char (ascii_of_nat (48 + n mod 10)) = true.
Proof.
  pose proof (Nat.mod_upper_bound n 10) as H.
  set (r := n mod 10) in *.
  do 10 (destruct r as [|r]; [reflexivity|]). lia.
Qed.

Lemma digits_fuel_ascii (f n : nat) (acc : string) :
  all_chars is_json_text_char acc = true ->
  all_chars is_json_text_char (PyStr.digits_fuel f n acc) = true.
Proof.
  revert n acc. induction f as [|f IH]; intros n acc H; [exact H|].
  cbn [PyStr.digits_fuel].
  assert (H' : all_chars is_json_text_char
                 (String (ascii_of_nat (48 + n mod 10)) acc) = true)
    by (cbn [all_chars]; now rewrite digit_ascii, H).
  destruct (n <? 10); [exact H'|now apply IH].
Qed.

Lemma str_of_Z_ascii (z : Z) :
  all_chars is_json_text_char (PyStr.str_of_Z z) = true.
Proof.
  unfold PyStr.str_of_Z, PyStr.str_of_nat.
  destruct (z <? 0)%Z; [cbn [all_chars]|]; now rewrite digits_fuel_ascii.
Qed.

Lemma join_ascii (sep : string) (parts : list string) :
  all_chars is_json_text_char sep = true ->
  Forall (fun s => all_chars is_json_text_char s = true) parts ->
  all_chars is_json_text_char (PyStr.join sep parts) = true.
Proof.
  intros Hsep Hparts. unfold PyStr.join.
  induction Hparts as [|x l Hx Hl IH]; [reflexivity|].
  cbn [String.concat]. destruct l as [|y l]; [exact Hx|].
  now rewrite !all_chars_app, Hx, Hsep, IH.
Qed.

Lemma row_dict_ascii (u : User) :
  all_chars is_json_text_char (Lib.dumps_level 2 2 (row_dict u)) = true.
Proof.
  unfold row_dict. cbn [Lib.dumps_level map].
  rewrite !all_chars_app.
  rewrite join_ascii; [reflexivity|reflexivity|].
  repeat constructor; rewrite !all_chars_app;
    rewrite ?encode_string_ascii, ?str_of_Z_ascii; reflexivity.
Qed.

(** X18. The body of the user listing is plain ASCII whatever the
    table holds: every character of the text is a printable ASCII
    character or a line feed, since [json.dumps] escapes everything
    else in the names and addresses; so the [Content-Length], the
    number of bytes, is the number of characters. *)
Theorem users_listing_is_ascii :
  forall (req : Request) (w : World),
    PyStr.startswith (path req) "/users" = true ->
    server_log w <> None ->
    exists body,
      fst (do_GET req w)
      = Ok (Sent 200
              [("Content-Type", "application/json; charset=utf-8");
               ("Content-Length", PyStr.str_of_nat (String.length body))]
              body)
      /\ all_chars is_json_text_char body = true.
Proof.
  intros req w Hroute Hlog. eexists. split.
  - unfold do_GET. rewrite (users_route _ Hroute), Hroute.
    now rewrite (serve_users_ok req w Hlog).
  - rewrite users_payload_text. rewrite !all_chars_app.
    replace (all_chars is_json_text_char "{") with true by reflexivity.
    replace (all_chars is_json_text_char Lib.newline) with true by reflexivity.
    replace (all_chars is_json_text_char "  ") with true by reflexivity.
    replace (all_chars is_json_text_char (quoted "users")) with true
      by reflexivity.
    replace (all_chars is_json_text_char ": ") with true by reflexivity.
    replace (all_chars is_json_text_char "}") with true by reflexivity.
    cbn [andb]. rewrite andb_true_r.
    destruct (map row_dict (order_by_created_at_desc (users (db w))))
      as [|j rows] eqn:E; [reflexivity|].
    rewrite <- E. rewrite !all_chars_app.
    rewrite join_ascii; [reflexivity|reflexivity|].
    rewrite map_map. apply Forall_map, Forall_forall.
    intros u _. apply row_dict_ascii.
Qed.

Lemma users_listing_is_ascii_witness :
  let req := get "/users" in
  let w := sample_world [alice; bob] (Some "") in
  (PyStr.startswith (path req) "/users" = true /\ server_log w <> None)
  /\ exists body,
       fst (do_GET req w)
       = Ok (Sent 200
               [("Content-Type", "application/json; charset=utf-8");
                ("Content-Length", PyStr.str_of_nat (String.length body))]
               body)
       /\ all_chars is_json_text_char body = true.
Proof.
  intros req w.
  assert (Hr : PyStr.startswith (path req) "/users" = true) by reflexivity.
  assert (Hl : server_log w <> None) by (cbn; discriminate).
  split; [now split|]. exact (users_listing_is_ascii req w Hr Hl).
Defined.
